(* ===== verification/_CoqProject ===== *)
-Q . S2P
Prelude.v
JsNumber.v
JsValue.v
PropertyLookup.v
Settings.v
SettingsTypes.v
Dom.v
Realm.v
HostApi.v
Visual.v
Plugin.v
Bundle.v
BundleLoad.v
