(* ===== verification/Prelude.v ===== *)
(** * Time series decomposition visual: a verification development

    The repository is a Power BI custom visual.  The host renders the
    decomposition with its external script engine and hands the visual a
    base64 PNG together with the user's settings.  The code has three
    parts, all modelled here:

    - the property lookup helpers of [src/.tmp/drop/visual.js] lines
      18-160 ([getValue], [getValueMinMax], [getValueNumberMinMax],
      [ifStringReturnString], [ifStringReturnStringClustersMethod],
      [inMinMax], [getCategoricalObjectValue], [getFillValue]);
    - the adapter class [Visual] of [src/src/visual.ts]: four settings
      groups, the constructor, [update], [onResizing] and
      [enumerateObjectInstances];
    - the registration descriptor of
      [src/.tmp/precompile/visualPlugin.ts].

    [visual.js] is what the host loads: three scripts run in one realm,
    the helpers (lines 1-164), the compiled class (165-349) and the
    compiled descriptor (350-367).  They share namespace objects opened
    with the idiom [x = p.x || (p.x = {})]; the compiled methods call the
    helpers through the namespace when they run.  The host then finds the
    descriptor in its plugin table, constructs the adapter once on a
    mount element of its document through [create], and calls [update]
    (data views and a viewport), [onResizing] and
    [enumerateObjectInstances] one at a time.  [update] reads the four
    settings groups out of the first data view's metadata tree with
    [getValue], writes the image's [src] and the container's size into
    the shared document; [enumerateObjectInstances] reports the settings
    to the property pane, clamped by [inMinMax].

    ** Files, in dependency order

    - [Prelude]: this header, the [pbi] hint and rewrite databases, the
      [case_ifs], [decide_closed] and [keys_disjoint] tactics, string and
      list lemmas.
    - [JsNumber]: the host's number type as an interface.  JavaScript
      numbers are doubles and the code only compares them, prints them and
      converts strings, booleans and [null] to them, so [Class JsNumber]
      has exactly these operations and [Class JsNumberLaws] the laws of
      doubles the proofs use (NaN unordered, strict order otherwise,
      integer literals below 2^53 exact).  Every theorem holds for any
      instance; [znum] (integers and NaN) is the instance the witnesses
      compute with.
    - [JsValue]: JavaScript values ([jsval]: undefined, null, booleans,
      numbers, strings, objects as a [gmap] of their own properties),
      ToBoolean, ToNumber, ToString, [<], [==], property access, and the
      error monad [completion] (a value or a thrown TypeError).
    - [PropertyLookup]: the eight helpers, each with its source lines.
      Every property access is fallible, so the helpers return a
      [completion].  [prop_of] is the abstract reading of §4.2 (the value
      of a property of a group, [undefined] when a link is missing).
    - [Settings]: one Module per settings group ([ModelParams],
      [AlgoParams], [PlotParams], [ExtraParams]): its record, its
      constructor defaults, its population in [update], its case of the
      enumeration.  [settings_of] is the abstract reading of §3: each
      field the host's value or its default.
    - [SettingsTypes]: the TypeScript types the four interfaces declare
      for the fields, and the test of a value against them.
    - [Dom]: the document as a store ([gmap] from locations to element
      records) with the DOM operations the code calls; the adapter and the
      host share it, so the host sees the adapter's writes through its
      mount element.  Not repository code: an abstraction of the DOM.
    - [Realm]: the script realm's objects as a store of cells (own
      properties and, for a function object, its code), with property
      read and write, allocation, [var] globals and the [||] idiom, and
      the frame relation [keeps].  Not repository code: an abstraction of
      the object model.
    - [HostApi]: the host's option records, the contract [IVisual] with
      its laws [IVisualLaws] (§9), host runs ([run_trace]) and the client
      theorem [host_enumerate_last_update], proved from the laws alone
      with setoid rewriting on [pane_equiv].
    - [Visual]: the adapter; [reachable] is the lifecycle relation of the
      host's calls; [Visual_IVisual] and [Visual_IVisualLaws] discharge
      the contract.
    - [Plugin]: the registration descriptor and end-to-end safety.
    - [Bundle]: the three scripts of visual.js ([load_helpers_module],
      [load_visual_module] around the [class_expression],
      [load_plugin_module]), what a loaded page holds
      ([exports_installed], [class_installed], [bundle_installed]), the
      compiled methods
      ([update_js], [enumerate_js], [create_js]) that call the helpers
      through the namespace, the host's calls into the loaded realm, and
      the equivalence of the compiled methods with the adapter's.
    - [BundleLoad]: what loading the file leaves in the realm, one lemma
      per kind of statement, per [||] chain and per script, the frame
      lemmas that carry the installed helpers and class across later
      scripts, and the refinement theorem.

    ** What the theorems show

    - [update] never throws and is, on every branch of its guard, the
      abstract update: reject (no change) unless the first data view
      exists and has metadata, otherwise settings := [settings_of] tree,
      [src] := the data URI or the string ["null"], then resize
      ([Visual.update_spec], [Visual.update_reject]); it writes no other
      element ([Visual.update_frame]).
    - Refinement: after any run of host events the property pane shows the
      enumeration of the settings denoted by the last accepted update
      ([Visual.visual_run_enumerate]).  The compiled bundle refines the
      model of visual.ts: loaded into any page ready for it, the
      registered descriptor creates the adapter and every host run
      through the instance's prototype computes what [run_trace] computes
      ([BundleLoad.bundle_refines]).
    - Loading: on every well-formed page whose [powerbi] objects leave
      room for it ([Bundle.bundle_ready]: existing links are objects or
      falsy, and the plugin table is not the visual namespace), the file
      loads, installs the helpers, the class and the descriptor
      ([Bundle.bundle_installed]), and keeps every other property of the
      page's objects, hence every other registered plugin
      ([BundleLoad.bundle_load_spec]); the page is then ready for the
      bundle again, so a reload succeeds ([BundleLoad.bundle_reload]).
      The compiled [update] looks
      [getValue] up in the namespace each time it runs: without it an
      accepted update throws ([Bundle.update_js_unbound]).
    - Settings: population never throws and overrides exactly the fields
      the tree names; an empty tree gives the constructor's defaults; no
      field is ever [undefined] (invariant, also over every reachable
      state: [Visual.reachable_inv]).  The
      fields have their declared TypeScript types exactly when the tree's
      values do ([SettingsTypes.populate_settings_typed]), and then every
      enumerated value has its declared type ([SettingsTypes.enumerate_typed]).
    - Enumeration: instance counts, names, unknown groups, and every
      clamped field within its range.  Round trip: when the host writes
      an enumerated group back into the metadata tree ([objects_of_instances],
      a model of the host's persistence) and [update] reads it, the group
      enumerates to the same instances ([Settings.enumerate_roundtrip]).
      A [null] in the tree overrides the default and is enumerated as the
      clamp's lower bound (the example
      [Settings.populate_null_override_example]).
    - Helpers: totality and functional behaviour of each; the two clamped
      lookups agree exactly when the bounds are ordered; [inMinMax] bounds
      and its pass-through of NaN; when [getFillValue] throws; an index
      outside a category's objects gives the default.
    - Document: the constructor builds a fresh container holding a fresh
      image under the mount element, and every reachable state keeps this
      shape.  After any run of host events the page shows the source of
      the last accepted update and the size of the last resize or
      accepted update ([Visual.visual_run_display]).

    ** Bounds and fuel

    No definition needs fuel: every function is structural, and the
    scripts of the bundle are straight-line code.  The only bound is
    [safe_int] (|z| <= 2^53) in the law relating integer literals to the
    order of doubles; the literals of the code are at most 10000.

    ** Not modelled

    The decomposition itself (the host's script engine), the host's
    loader and property pane (only their contract), CSS validation of
    style values, object identity in [==], and prototype members of
    primitive values (no property the code reads is one).  A thrown
    TypeError aborts the model's [update] as a whole; the populate block
    cannot throw ([Settings.populate_settings_spec]), so no partial update
    is lost.  In the realm: accessors and inherited properties (no name
    the bundle reads is inherited), functions of the host (a cell without
    code is not callable), the function objects of the module wrappers
    (nothing keeps them), and arrays among [jsval]s, so a call of
    [getCategoricalObjectValue] through the namespace with [jsval]
    arguments is outside the model ([None] in [Bundle.jsm]).  The compiled
    constructor and [onResizing] are the TypeScript bodies verbatim and
    share their models.

    ** Plan for later sittings

    [ifStringReturnString] beyond string controls (loose equality with
    numbers and booleans); compatibility of [update] with the pane
    equivalence ([Proper] over [completion]); the behaviour of
    [onResizing] on non-finite viewport sizes; instances as objects of
    the realm (method lookup through their own prototype link).
*)

From stdpp Require Export base gmap strings.

(** The hint database of the development. *)
Create HintDb pbi.

(** Case analysis on every [if] of the goal, recording the test. *)
Ltac case_ifs :=
  repeat match goal with
    | |- context [if ?b then _ else _] =>
        lazymatch b with
        | context [if _ then _ else _] => fail
        | _ => let E := fresh "E" in destruct b eqn:E
        end
    end.

(** A decidable proposition on closed data, by evaluation. *)
Ltac decide_closed := apply (bool_decide_unpack _); vm_compute; exact I.

(** [forall k, k ∈ ks -> k ∉ K] for two closed lists of names. *)
Ltac keys_disjoint := apply Forall_forall; decide_closed.

(** ** Strings *)

Lemma string_eqb_refl (s : string) : String.eqb s s = true.
Proof. apply String.eqb_refl. Qed.

Lemma string_eqb_neq (s t : string) : s <> t -> String.eqb s t = false.
Proof. intros Hne. destruct (String.eqb_spec s t); congruence. Qed.

#[export] Hint Rewrite string_eqb_refl : pbi.

(** ** Lists *)

(** A property of each element of [xs], from a property of the element
    of [ys] at the same position and one of its pair in [zip (map f xs) ys]. *)
Lemma Forall_zip_combine {A B C D} (f : A -> B) (g : A -> C) (P : C -> D -> Prop)
    (Q : B * D -> Prop) (R : A -> Prop) (xs : list A) (ys : list D) :
  Forall2 P (map g xs) ys -> Forall Q (zip (map f xs) ys) ->
  (forall x y, P (g x) y -> Q (f x, y) -> R x) -> Forall R xs.
Proof.
  revert ys. induction xs as [|x xs IH]; intros ys HP HQ HR; [constructor|].
  destruct ys as [|y ys]; inversion HP; subst. simpl in HQ.
  apply Forall_cons in HQ as [Hq HQ]. constructor; [by eapply HR|by eapply IH].
Qed.

Lemma Forall_zip_snd {A B C} (P : C -> B -> Prop) (Q : B -> Prop) (cs : list C)
    (xs : list A) (ys : list B) :
  Forall2 P cs ys -> (forall c y, P c y -> Q y) -> Forall (fun xy => Q xy.2) (zip xs ys).
Proof.
  intros HP HQ. revert xs. induction HP as [|c y cs ys Hcy _ IH]; intros [|x xs]; simpl;
    constructor; eauto.
Qed.

Lemma map_fst_zip {A B} (xs : list A) (ys : list B) :
  length xs = length ys -> map fst (zip xs ys) = xs.
Proof.
  revert ys. induction xs as [|x xs IH]; intros [|y ys] Hl; simpl in *; try done.
  f_equal. apply IH. lia.
Qed.
