(* ===== verification/JsNumber.v ===== *)
(** * The host's number type

    JavaScript numbers are IEEE-754 doubles.  The adapter performs no
    arithmetic on them: it only compares them ([<], [>], [==]), converts
    them to strings (["px"] suffixes), converts strings, booleans and
    [null] to numbers (the implicit ToNumber of a comparison), and uses
    them as array indices.  [Class JsNumber] collects exactly these
    operations, and [Class JsNumberLaws] the laws of them that doubles
    satisfy; every theorem of the development is proved against these
    two classes, so it holds for the real double type.

    [znum] (integers with a NaN) is a concrete instance on which the
    witnesses compute. *)

From S2P Require Import Prelude.
From Stdlib Require Import Ascii.
From stdpp Require Import pretty.

(** The operations of the ECMAScript Number type the adapter uses. *)
Class JsNumber (N : Type) := {
  num_nan : N;                     (** NaN *)
  num_lit : Z -> N;                (** an integer literal, e.g. [10000] *)
  num_ltb : N -> N -> bool;        (** Number::lessThan, false on NaN *)
  num_eqb : N -> N -> bool;        (** Number::equal, false on NaN *)
  num_to_string : N -> string;     (** Number::toString *)
  num_of_string : string -> N;     (** StringToNumber *)
  num_to_index : N -> option nat   (** the array index ToPropertyKey denotes *)
}.

(** The largest magnitude up to which every integer is a double. *)
Definition safe_int (z : Z) : Prop := (Z.abs z <= 2 ^ 53)%Z.

(** The laws of the comparison of doubles.  NaN is unordered; the other
    values are strictly ordered; integer literals keep their order and
    their equality. *)
Class JsNumberLaws (N : Type) `{JsNumber N} := {
  num_ltb_irrefl x : num_ltb x x = false;
  num_ltb_trans x y z :
    num_ltb x y = true -> num_ltb y z = true -> num_ltb x z = true;
  num_ltb_nan_l x : num_ltb num_nan x = false;
  num_ltb_nan_r x : num_ltb x num_nan = false;
  num_ltb_lit a b :
    safe_int a -> safe_int b -> num_ltb (num_lit a) (num_lit b) = (a <? b)%Z;
  num_eqb_nan_l x : num_eqb num_nan x = false;
  num_eqb_lit a b :
    safe_int a -> safe_int b -> num_eqb (num_lit a) (num_lit b) = (a =? b)%Z
}.

Section Laws.
Context `{JsNumberLaws N}.

Lemma num_ltb_asym x y : num_ltb x y = true -> num_ltb y x = false.
Proof.
  intros Hxy. destruct (num_ltb y x) eqn:Hyx; [|done].
  by rewrite <- (num_ltb_irrefl x), (num_ltb_trans x y x).
Qed.

(** A literal is never NaN. *)
Lemma num_lit_not_nan a : safe_int a -> num_lit a <> num_nan.
Proof.
  intros Ha Heq. pose proof (num_eqb_lit a a Ha Ha) as E.
  rewrite Heq, num_eqb_nan_l, Z.eqb_refl in E. discriminate.
Qed.
End Laws.

#[export] Hint Rewrite @num_ltb_irrefl @num_ltb_nan_l @num_ltb_nan_r : pbi.

(** ** A concrete instance: integers and NaN *)

Inductive znum := ZNaN | ZFin (z : Z).

(** Decimal digits of a string, most significant first. *)
Fixpoint parse_digits (s : string) (acc : Z) : option Z :=
  match s with
  | EmptyString => Some acc
  | String c r =>
      let d := Ascii.N_of_ascii c in
      if (48 <=? d)%N && (d <=? 57)%N
      then parse_digits r (acc * 10 + Z.of_N (d - 48))%Z
      else None
  end.

(** StringToNumber restricted to integer literals: the empty string is 0,
    a digit string with an optional minus sign is its value, anything
    else is NaN. *)
Definition znum_of_string (s : string) : znum :=
  match s with
  | EmptyString => ZFin 0
  | String "-"%char (String _ _ as r) =>
      match parse_digits r 0 with Some z => ZFin (- z) | None => ZNaN end
  | _ => match parse_digits s 0 with Some z => ZFin z | None => ZNaN end
  end.

#[export] Instance znum_JsNumber : JsNumber znum := {
  num_nan := ZNaN;
  num_lit := ZFin;
  num_ltb x y := match x, y with ZFin a, ZFin b => (a <? b)%Z | _, _ => false end;
  num_eqb x y := match x, y with ZFin a, ZFin b => (a =? b)%Z | _, _ => false end;
  num_to_string x := match x with ZNaN => "NaN" | ZFin z => pretty z end;
  num_of_string := znum_of_string;
  num_to_index x :=
    match x with
    | ZFin z => if (0 <=? z)%Z && (z <? 2 ^ 32 - 1)%Z then Some (Z.to_nat z) else None
    | ZNaN => None
    end
}.

#[export] Instance znum_JsNumberLaws : JsNumberLaws znum.
Proof.
  split; simpl.
  - intros [|a]; [done|]. apply Z.ltb_irrefl.
  - intros [|a] [|b] [|c]; try done. rewrite !Z.ltb_lt. lia.
  - done.
  - by intros [|a].
  - done.
  - done.
  - done.
Qed.
