(* ===== verification/JsValue.v ===== *)
(** * JavaScript values and the operations the adapter performs on them

    The metadata tree the host hands to the adapter is a dynamically
    shaped JavaScript value.  [jsval] has the six kinds the adapter can
    meet there: [undefined], [null], booleans, numbers (of the host's
    number type, see [JsNumber]), strings, and plain objects, whose own
    properties are a [gmap] from property names to values.

    The operations are those of ECMAScript that the code of [src/]
    performs: ToBoolean (the tests [if (x)] and [!x]), [x === undefined],
    [x == y] (IsLooselyEqual), [x < y] (IsLessThan), ToNumber, ToString
    ([+] with a string), and the property access [x[k]], which throws a
    TypeError on [null] and [undefined].  A throwing computation is a
    value of the completion type [completion], a small error monad with
    stdpp's [x ← c; k] notation.

    Not modelled: object identity (two objects are never loosely equal),
    and the members that primitive values inherit from their prototypes
    (methods, the [length] of strings): a property access on a primitive
    yields [undefined].  No property name the adapter reads is such a
    member. *)

From S2P Require Import Prelude JsNumber.

#[local] Set Warnings "-register-all".
Inductive jsval (N : Type) :=
  | JUndefined
  | JNull
  | JBool (b : bool)
  | JNum (n : N)
  | JStr (s : string)
  | JObj (props : gmap string (jsval N)).

Arguments JUndefined {N}.
Arguments JNull {N}.
Arguments JBool {N} b.
Arguments JNum {N} n.
Arguments JStr {N} s.
Arguments JObj {N} props.

(** ** Completions: normal results and thrown errors *)

Inductive js_error := TypeError.

Inductive completion (A : Type) :=
  | Normal (a : A)
  | Throw (e : js_error).

Arguments Normal {A} a.
Arguments Throw {A} e.

#[export] Instance completion_ret : MRet completion := fun A a => Normal a.
#[export] Instance completion_bind : MBind completion :=
  fun A B k c => match c with Normal a => k a | Throw e => Throw e end.

Lemma completion_bind_normal {A B} (a : A) (k : A -> completion B) :
  (x ← Normal a; k x) = k a.
Proof. done. Qed.

Lemma completion_bind_throw {A B} e (k : A -> completion B) :
  (x ← Throw e; k x) = Throw e.
Proof. done. Qed.

Lemma Normal_inj {A} (a b : A) : Normal a = Normal b -> a = b.
Proof. by injection 1. Qed.

#[export] Hint Rewrite @completion_bind_normal @completion_bind_throw : pbi.

Section JsValue.
Context {N : Type} `{JsNumber N}.

Definition object_tag : string := "[object Object]".

(** ToBoolean: [false] for [undefined], [null], [false], [+0], [-0],
    NaN and the empty string. *)
Definition js_truthy (v : jsval N) : bool :=
  match v with
  | JUndefined | JNull => false
  | JBool b => b
  | JNum n => num_eqb n n && negb (num_eqb n (num_lit 0))
  | JStr s => negb (String.eqb s "")
  | JObj _ => true
  end.

(** [v === undefined]. *)
Definition js_is_undefined (v : jsval N) : bool :=
  match v with JUndefined => true | _ => false end.

(** ToPrimitive with hint number: a plain object becomes its
    [toString()], the other values are already primitive. *)
Definition js_to_primitive (v : jsval N) : jsval N :=
  match v with JObj _ => JStr object_tag | _ => v end.

(** ToNumber. *)
Definition js_to_number (v : jsval N) : N :=
  match v with
  | JUndefined => num_nan
  | JNull => num_lit 0
  | JBool b => num_lit (if b then 1 else 0)
  | JNum n => n
  | JStr s => num_of_string s
  | JObj _ => num_of_string object_tag
  end.

(** ToString. *)
Definition js_to_string (v : jsval N) : string :=
  match v with
  | JUndefined => "undefined"
  | JNull => "null"
  | JBool b => if b then "true" else "false"
  | JNum n => num_to_string n
  | JStr s => s
  | JObj _ => object_tag
  end.

(** [x < y]: IsLessThan, whose [undefined] outcome (a NaN operand) is
    [false].  Two strings compare by code units, anything else as
    numbers. *)
Definition js_lt (x y : jsval N) : bool :=
  match js_to_primitive x, js_to_primitive y with
  | JStr a, JStr b => String.ltb a b
  | px, py => num_ltb (js_to_number px) (js_to_number py)
  end.

(** [x > y] is IsLessThan with the operands swapped. *)
Definition js_gt (x y : jsval N) : bool := js_lt y x.

(** [x == y]: IsLooselyEqual.  Mixed comparisons convert to numbers,
    except an object against a string, which compares strings. *)
Definition js_loose_eq (x y : jsval N) : bool :=
  match x, y with
  | (JUndefined | JNull), (JUndefined | JNull) => true
  | (JUndefined | JNull), _ | _, (JUndefined | JNull) => false
  | JNum a, JNum b => num_eqb a b
  | JStr a, JStr b => String.eqb a b
  | JBool a, JBool b => Bool.eqb a b
  | JObj _, JObj _ => false
  | JObj _, JStr s | JStr s, JObj _ => String.eqb object_tag s
  | _, _ => num_eqb (js_to_number x) (js_to_number y)
  end.

(** [v[k]]: own property lookup; [undefined] when absent; a TypeError
    on [null] and [undefined]. *)
Definition js_get (v : jsval N) (k : string) : completion (jsval N) :=
  match v with
  | JUndefined | JNull => Throw TypeError
  | JObj m => Normal (default JUndefined (m !! k))
  | _ => Normal JUndefined
  end.

(** [a[n]] on an array [a] with a number [n]: the element at the index
    [n] denotes, [undefined] out of range. *)
Definition js_index (a : list (jsval N)) (n : N) : jsval N :=
  match num_to_index n with
  | Some i => default JUndefined (a !! i)
  | None => JUndefined
  end.

(** ** Facts used throughout *)

(** A comparison against a number converts the other operand to a
    number. *)
Lemma js_lt_num_r (x : jsval N) (n : N) :
  js_lt x (JNum n) = num_ltb (js_to_number x) n.
Proof. by destruct x. Qed.

Lemma js_lt_num_l (n : N) (x : jsval N) :
  js_lt (JNum n) x = num_ltb n (js_to_number x).
Proof. by destruct x. Qed.

(** A truthy value is never [null] nor [undefined]. *)
Lemma js_truthy_get (v : jsval N) k :
  js_truthy v = true -> js_get v k = Normal (match v with
                                             | JObj m => default JUndefined (m !! k)
                                             | _ => JUndefined end).
Proof. by destruct v. Qed.

Lemma js_loose_eq_str (a b : string) :
  js_loose_eq (JStr a) (JStr b) = String.eqb a b.
Proof. done. Qed.
End JsValue.

Lemma string_ltb_irrefl (s : string) : String.ltb s s = false.
Proof.
  unfold String.ltb. induction s as [|c s IH]; simpl; [done|].
  unfold Ascii.compare. by rewrite N.compare_refl.
Qed.

Section Comparisons.
Context {N : Type} `{JsNumberLaws N}.

Lemma js_lt_irrefl (x : jsval N) : js_lt x x = false.
Proof.
  destruct x; cbn [js_lt js_to_primitive js_to_number];
    rewrite ?string_ltb_irrefl; auto using num_ltb_irrefl.
Qed.

(** [undefined] is NaN: every comparison with it is false. *)
Lemma js_lt_undefined_l (y : jsval N) : js_lt JUndefined y = false.
Proof. destruct y; apply num_ltb_nan_l. Qed.

Lemma js_lt_undefined_r (x : jsval N) : js_lt x JUndefined = false.
Proof. destruct x; apply num_ltb_nan_r. Qed.
End Comparisons.

#[export] Hint Rewrite @js_lt_num_r @js_lt_num_l @js_lt_irrefl
  @js_lt_undefined_l @js_lt_undefined_r : pbi.
