(* ===== verification/PropertyLookup.v ===== *)
(** * The property lookup helpers

    The free functions of the visual's namespace (visual.js lines 18-160;
    their TypeScript source is not under [src/], only its compiled form),
    each a definition of this file with the source's name and argument
    order:
    [getValue], [getValueMinMax], [getValueNumberMinMax],
    [ifStringReturnString], [ifStringReturnStringClustersMethod],
    [inMinMax], [getCategoricalObjectValue] and [getFillValue].

    Each property access [x[k]] is [js_get], which throws on [null] and
    [undefined]; a helper therefore returns a [completion].  The theorems
    show which helpers never throw and what they return
    ([getValue_spec], against the abstract lookup [prop_of]), how the
    clamp [inMinMax] bounds its result, that the two clamped lookups agree
    exactly when the bounds are ordered, when [getFillValue] throws, and
    that [getCategoricalObjectValue] gives the default for an index
    outside the category's objects. *)

From S2P Require Import Prelude JsNumber JsValue.

(** A category column of a categorical data view: only its [objects]
    array (absent when [None]) is read. *)
Record DataViewCategoryColumn (N : Type) := {
  cat_objects : option (list (jsval N))
}.
Arguments cat_objects {N} _.

Section PropertyLookup.
Context {N : Type} `{JsNumber N}.

(** visual.js 18-29. *)
Definition getValue (objects : jsval N) (objectName propertyName : string)
    (defaultValue : jsval N) : completion (jsval N) :=
  if js_truthy objects then
    object ← js_get objects objectName;
    if js_truthy object then
      property ← js_get object propertyName;
      if negb (js_is_undefined property) then mret property
      else mret defaultValue
    else mret defaultValue
  else mret defaultValue.

(** visual.js 40-57: the range checks come before the check that the
    property is defined. *)
Definition getValueMinMax (objects : jsval N) (objectName propertyName : string)
    (defaultValue minVal maxVal : jsval N) : completion (jsval N) :=
  if js_truthy objects then
    object ← js_get objects objectName;
    if js_truthy object then
      property ← js_get object propertyName;
      if js_lt property minVal then mret minVal
      else if js_gt property maxVal then mret maxVal
      else if negb (js_is_undefined property) then mret property
      else mret defaultValue
    else mret defaultValue
  else mret defaultValue.

(** visual.js 68-85: definedness first, then the upper bound, then the
    lower bound. *)
Definition getValueNumberMinMax (objects : jsval N) (objectName propertyName : string)
    (defaultValue minValue maxValue : jsval N) : completion (jsval N) :=
  if js_truthy objects then
    object ← js_get objects objectName;
    if js_truthy object then
      property ← js_get object propertyName;
      if negb (js_is_undefined property) then
        if js_gt property maxValue then mret maxValue
        else if js_lt property minValue then mret minValue
        else mret property
      else mret defaultValue
    else mret defaultValue
  else mret defaultValue.

(** visual.js 97-103. *)
Definition ifStringReturnString (inVal contrVal contrVal2Compare outValIfCondTrue
    logic applyNow : jsval N) : jsval N :=
  if js_truthy applyNow && js_loose_eq contrVal contrVal2Compare
     && js_loose_eq logic (JBool true) then outValIfCondTrue
  else if js_truthy applyNow && negb (js_loose_eq contrVal contrVal2Compare)
     && js_loose_eq logic (JBool false) then outValIfCondTrue
  else inVal.

(** visual.js 105-111. *)
Definition ifStringReturnStringClustersMethod (numClustersMethods numOfClusters : jsval N)
    : jsval N :=
  if negb (js_loose_eq numOfClusters (JStr "auto")) then JStr "None"
  else if js_loose_eq numOfClusters (JStr "auto")
          && js_loose_eq numClustersMethods (JStr "None") then JStr "fast"
  else numClustersMethods.

(** visual.js 113-119. *)
Definition inMinMax (a mi ma : jsval N) : jsval N :=
  if js_lt a mi then mi
  else if js_gt a ma then ma
  else a.

(** visual.js 131-146.  [category.objects] throws when the category is
    [null] or [undefined] ([None]); [categoryObjects[index]] is
    [undefined] out of range. *)
Definition getCategoricalObjectValue (category : option (DataViewCategoryColumn N))
    (index : N) (objectName propertyName : string) (defaultValue : jsval N)
    : completion (jsval N) :=
  match category with
  | None => Throw TypeError
  | Some c =>
      match cat_objects c with
      | None => mret defaultValue
      | Some categoryObjects =>
          let categoryObject := js_index categoryObjects index in
          if js_truthy categoryObject then
            object ← js_get categoryObject objectName;
            if js_truthy object then
              property ← js_get object propertyName;
              if negb (js_is_undefined property) then mret property
              else mret defaultValue
            else mret defaultValue
          else mret defaultValue
      end
  end.

(** visual.js 148-159.  The guard [fill !== undefined && fill.solid !==
    undefined && fill.solid.color !== undefined] evaluates left to right
    and stops at the first false test; the returned [fill.solid.color]
    re-reads the same properties. *)
Definition getFillValue (objects : jsval N) (objectName propertyName : string)
    (defaultValue : jsval N) : completion (jsval N) :=
  if js_truthy objects then
    object ← js_get objects objectName;
    if js_truthy object then
      fill ← js_get object propertyName;
      if js_is_undefined fill then mret defaultValue
      else
        solid ← js_get fill "solid";
        if js_is_undefined solid then mret defaultValue
        else
          color ← js_get solid "color";
          if js_is_undefined color then mret defaultValue
          else mret color
    else mret defaultValue
  else mret defaultValue.

(** ** Abstract lookup

    The value a metadata tree holds for a property of a group, read as
    the specification (§4.2) describes it: [undefined] whenever a link
    of the chain is missing. *)
Definition prop_of (objects : jsval N) (objectName propertyName : string) : jsval N :=
  match objects with
  | JObj m =>
      match m !! objectName with
      | Some (JObj pm) => default JUndefined (pm !! propertyName)
      | _ => JUndefined
      end
  | _ => JUndefined
  end.

(** The abstract result of a lookup with a default. *)
Definition or_default (v d : jsval N) : jsval N :=
  if js_is_undefined v then d else v.

(** Whether the tree holds a truthy value for the group. *)
Definition group_truthy (objects : jsval N) (objectName : string) : bool :=
  match objects with
  | JObj m => match m !! objectName with Some v => js_truthy v | None => false end
  | _ => false
  end.

Lemma prop_of_group_falsy objects objectName propertyName :
  group_truthy objects objectName = false ->
  prop_of objects objectName propertyName = JUndefined.
Proof.
  destruct objects as [| | | | | m]; simpl; try done.
  by destruct (m !! objectName) as [[| | | | | pm]|].
Qed.

(** The first two steps of every lookup helper: the group is read only
    from a truthy tree, and the property only from a truthy group; what
    is read is the abstract [prop_of]. *)
Lemma lookup_chain (objects : jsval N) (objectName propertyName : string)
    (k : jsval N -> completion (jsval N)) (d : jsval N) :
  (if js_truthy objects then
     object ← js_get objects objectName;
     if js_truthy object then property ← js_get object propertyName; k property
     else mret d
   else mret d)
  = if group_truthy objects objectName
    then k (prop_of objects objectName propertyName) else mret d.
Proof.
  unfold mbind, completion_bind.
  destruct objects as [| | b | n | s | m]; simpl;
    [..| destruct (m !! objectName) as [[| | b' | n' | s' | pm]|]; simpl];
    case_ifs; done.
Qed.
End PropertyLookup.

(** Rewrite a lookup helper into its abstract reading: [G] records whether
    the group is truthy, and a falsy group reads [undefined]. *)
Ltac lookup_cases G :=
  rewrite lookup_chain; destruct (group_truthy _ _) eqn:G;
  [| try rewrite prop_of_group_falsy by done].

Section Specs.
Context {N : Type} `{JsNumberLaws N}.

Lemma js_is_undefined_true (v : jsval N) : js_is_undefined v = true -> v = JUndefined.
Proof. by destruct v. Qed.

Lemma getValue_eq (objects : jsval N) objectName propertyName defaultValue :
  getValue objects objectName propertyName defaultValue
  = Normal (or_default (prop_of objects objectName propertyName) defaultValue).
Proof.
  unfold getValue, or_default. lookup_cases G; [|done].
  by destruct (js_is_undefined _).
Qed.

(** C8: [getValue] never throws, and returns the property's value when
    the tree holds one other than [undefined], the default otherwise. *)
Theorem getValue_spec (objects : jsval N) objectName propertyName defaultValue :
  getValue objects objectName propertyName defaultValue
  = Normal (or_default (prop_of objects objectName propertyName) defaultValue).
Proof. apply getValue_eq. Qed.

(** The reading of [getValueMinMax]: bounds first, definedness last. *)
Lemma getValueMinMax_spec (objects : jsval N) objectName propertyName d mi ma :
  getValueMinMax objects objectName propertyName d mi ma
  = Normal (let v := prop_of objects objectName propertyName in
            if js_lt v mi then mi else if js_gt v ma then ma else or_default v d).
Proof.
  unfold getValueMinMax, or_default, js_gt. lookup_cases G.
  - simpl. by case_ifs.
  - by rewrite js_lt_undefined_l, js_lt_undefined_r.
Qed.

(** The reading of [getValueNumberMinMax]: definedness first. *)
Lemma getValueNumberMinMax_spec (objects : jsval N) objectName propertyName d mi ma :
  getValueNumberMinMax objects objectName propertyName d mi ma
  = Normal (let v := prop_of objects objectName propertyName in
            if js_is_undefined v then d
            else if js_gt v ma then ma else if js_lt v mi then mi else v).
Proof.
  unfold getValueNumberMinMax. lookup_cases G; [|done].
  simpl. by case_ifs.
Qed.

(** C26: the order quirk of §9 is invisible on absent properties: a
    comparison with [undefined] is always false, so both clamped
    lookups return the default, whatever the bounds. *)
Theorem getValueMinMax_absent (objects : jsval N) objectName propertyName d mi ma :
  prop_of objects objectName propertyName = JUndefined ->
  getValueMinMax objects objectName propertyName d mi ma = Normal d /\
  getValueNumberMinMax objects objectName propertyName d mi ma = Normal d.
Proof.
  intros Hv. rewrite getValueMinMax_spec, getValueNumberMinMax_spec. simpl.
  rewrite Hv. unfold js_gt. by rewrite js_lt_undefined_l, js_lt_undefined_r.
Qed.

(** C27: with numeric bounds in order ([min <= max]), the two clamped
    lookups are the same function. *)
Theorem getValueMinMax_agree (objects : jsval N) objectName propertyName d (a b : N) :
  num_ltb b a = false ->
  getValueMinMax objects objectName propertyName d (JNum a) (JNum b)
  = getValueNumberMinMax objects objectName propertyName d (JNum a) (JNum b).
Proof.
  intros Hab. rewrite getValueMinMax_spec, getValueNumberMinMax_spec. simpl.
  unfold or_default, js_gt.
  destruct (js_is_undefined _) eqn:U.
  - apply js_is_undefined_true in U. rewrite U. by rewrite js_lt_undefined_l, js_lt_undefined_r.
  - rewrite js_lt_num_r, js_lt_num_l.
    destruct (num_ltb (js_to_number _) a) eqn:E1, (num_ltb b (js_to_number _)) eqn:E2;
      try done.
    by rewrite (num_ltb_trans _ _ _ E2 E1) in Hab.
Qed.

(** C29: with inverted bounds ([max < min]) the two differ: a value
    between them is clamped to [min] by [getValueMinMax] and to [max] by
    [getValueNumberMinMax]. *)
Theorem getValueMinMax_inverted (objects : jsval N) objectName propertyName d (a b : N) :
  num_ltb b (js_to_number (prop_of objects objectName propertyName)) = true ->
  num_ltb (js_to_number (prop_of objects objectName propertyName)) a = true ->
  getValueMinMax objects objectName propertyName d (JNum a) (JNum b) = Normal (JNum a) /\
  getValueNumberMinMax objects objectName propertyName d (JNum a) (JNum b) = Normal (JNum b).
Proof.
  intros Hb Ha. rewrite getValueMinMax_spec, getValueNumberMinMax_spec. simpl.
  unfold js_gt. rewrite js_lt_num_r, js_lt_num_l, Ha, Hb.
  destruct (prop_of _ _ _) eqn:V; try done.
  simpl in Hb. by rewrite num_ltb_nan_r in Hb.
Qed.
(** C28: with numeric bounds in order, [getValueNumberMinMax] is the
    clamp of the property's value when the tree holds one, and the
    default, unclamped, otherwise. *)
Theorem getValueNumberMinMax_clamp (objects : jsval N) objectName propertyName d (a b : N) :
  num_ltb b a = false ->
  getValueNumberMinMax objects objectName propertyName d (JNum a) (JNum b)
  = Normal (let v := prop_of objects objectName propertyName in
            if js_is_undefined v then d else inMinMax v (JNum a) (JNum b)).
Proof.
  intros Hab. rewrite getValueNumberMinMax_spec. simpl. f_equal.
  destruct (js_is_undefined _); [done|]. unfold inMinMax, js_gt.
  rewrite js_lt_num_r, js_lt_num_l.
  destruct (num_ltb (js_to_number _) a) eqn:E1, (num_ltb b (js_to_number _)) eqn:E2; try done.
  by rewrite (num_ltb_trans _ _ _ E2 E1) in Hab.
Qed.

End Specs.

Section Clamp.
Context {N : Type} `{JsNumberLaws N}.

Lemma inMinMax_bounds (x : jsval N) (a b : N) :
  num_ltb b a = false ->
  js_lt (inMinMax x (JNum a) (JNum b)) (JNum a) = false /\
  js_gt (inMinMax x (JNum a) (JNum b)) (JNum b) = false.
Proof.
  intros Hab. unfold inMinMax, js_gt.
  destruct (js_lt x (JNum a)) eqn:E1; [|destruct (js_lt (JNum b) x) eqn:E2];
    rewrite ?js_lt_irrefl; simpl; auto using num_ltb_irrefl.
Qed.

(** C11: with numeric bounds in order, the clamp's result is neither
    below the lower bound nor above the upper bound. *)
Theorem inMinMax_within (x : jsval N) (a b : N) :
  num_ltb b a = false ->
  js_lt (inMinMax x (JNum a) (JNum b)) (JNum a) = false /\
  js_gt (inMinMax x (JNum a) (JNum b)) (JNum b) = false.
Proof. apply inMinMax_bounds. Qed.

Lemma inMinMax_idempotent (x mi ma : jsval N) :
  js_lt ma mi = false ->
  inMinMax (inMinMax x mi ma) mi ma = inMinMax x mi ma.
Proof.
  intros Hab. unfold inMinMax, js_gt.
  destruct (js_lt x mi) eqn:E1; [|destruct (js_lt ma x) eqn:E2];
    rewrite ?js_lt_irrefl, ?Hab, ?E1, ?E2; done.
Qed.

(** A defined value clamped between defined bounds stays defined. *)
Lemma inMinMax_defined (x mi ma : jsval N) :
  js_is_undefined x = false -> js_is_undefined mi = false -> js_is_undefined ma = false ->
  js_is_undefined (inMinMax x mi ma) = false.
Proof. unfold inMinMax. by case_ifs. Qed.


(** C30: the clamp does not saturate a value that is not a number: a
    value whose ToNumber is NaN ([undefined], a non-numeric string, an
    object, NaN itself) is returned unchanged. *)
Theorem inMinMax_nan (x : jsval N) (a b : N) :
  js_to_number x = num_nan ->
  inMinMax x (JNum a) (JNum b) = x.
Proof.
  intros Hx. unfold inMinMax, js_gt.
  by rewrite js_lt_num_r, js_lt_num_l, Hx, num_ltb_nan_l, num_ltb_nan_r.
Qed.

(** C25: [getFillValue] throws a TypeError exactly when the property is
    [null], or is an object whose [solid] member is [null]: its guard
    tests [!== undefined] and then reads through the value. *)
Theorem getFillValue_throws (objects : jsval N) objectName propertyName d :
  getFillValue objects objectName propertyName d = Throw TypeError <->
  prop_of objects objectName propertyName = JNull \/
  exists fm, prop_of objects objectName propertyName = JObj fm /\ fm !! "solid" = Some JNull.
Proof.
  unfold getFillValue. lookup_cases G; [|split; [done|]; intros [?|(?&?&?)]; done].
  destruct (prop_of _ _ _) as [| | | | | fm]; simpl;
    try (split; [done|]; intros [?|(?&?&?)]; done); [naive_solver|].
  destruct (fm !! "solid") as [[| | | | | sm]|] eqn:S; simpl;
    try (split; [done|]; intros [?|(?&?&?)]; simplify_eq; done); [naive_solver|].
  destruct (sm !! "color") as [[]|]; simpl;
    split; try done; intros [?|(?&?&?)]; simplify_eq; done.
Qed.

(** C31: when the property holds [{solid: {color: c}}] with [c] defined,
    [getFillValue] returns [c]. *)
Theorem getFillValue_color (objects : jsval N) objectName propertyName d fm sm c :
  prop_of objects objectName propertyName = JObj fm ->
  fm !! "solid" = Some (JObj sm) -> sm !! "color" = Some c ->
  js_is_undefined c = false ->
  getFillValue objects objectName propertyName d = Normal c.
Proof.
  intros Hp Hs Hc Hu. unfold getFillValue. lookup_cases G.
  - rewrite Hp. simpl. rewrite Hs. simpl. rewrite Hc. simpl. by rewrite Hu.
  - by rewrite prop_of_group_falsy in Hp.
Qed.

(** C21: an index that denotes no element of the category's objects
    (not an array index, or past the end) reads [undefined], which the
    [if (categoryObject)] guard turns into the default: such an index
    never throws. *)
Theorem getCategoricalObjectValue_out_of_range c l (index : N) objectName propertyName d :
  cat_objects c = Some l ->
  (forall i, num_to_index index = Some i -> length l <= i) ->
  getCategoricalObjectValue (Some c) index objectName propertyName d = Normal d.
Proof.
  intros Hc Hi. unfold getCategoricalObjectValue, js_index. rewrite Hc.
  destruct (num_to_index index) as [i|]; [|done].
  by rewrite lookup_ge_None_2 by (by apply Hi).
Qed.

(** C32: on strings, [ifStringReturnStringClustersMethod] returns
    ["None"] unless the cluster count is ["auto"], ["fast"] for the
    method ["None"], and the method otherwise. *)
Theorem ifStringReturnStringClustersMethod_spec (m n : string) :
  ifStringReturnStringClustersMethod (N:=N) (JStr m) (JStr n)
  = JStr (if String.eqb n "auto" then (if String.eqb m "None" then "fast" else m)
          else "None").
Proof.
  unfold ifStringReturnStringClustersMethod. simpl.
  by destruct (String.eqb n "auto"), (String.eqb m "None").
Qed.

(** C33: with string controls and a boolean [logic],
    [ifStringReturnString] substitutes the output exactly when
    [applyNow] is truthy and the comparison's outcome equals [logic]. *)
Theorem ifStringReturnString_spec (inVal outVal applyNow : jsval N) (c c' : string) (logic : bool) :
  ifStringReturnString inVal (JStr c) (JStr c') outVal (JBool logic) applyNow
  = if js_truthy applyNow && Bool.eqb (String.eqb c c') logic then outVal else inVal.
Proof.
  unfold ifStringReturnString. simpl.
  by destruct (js_truthy applyNow), (String.eqb c c'), logic.
Qed.
End Clamp.

(** ** Witnesses on concrete metadata trees *)

Definition sample_objects : jsval znum :=
  JObj {[ "settings_algo_params" := JObj {[ "percentile" := JNum (ZFin 150) ]};
          "settings_plot_params" :=
            JObj {[ "lineCol" := JObj {[ "solid" := JObj {[ "color" := JStr "#ff0000" ]} ]};
                    "labelsCol" := JNull ]} ]}.

Lemma getValueMinMax_absent_witness :
  prop_of sample_objects "settings_algo_params" "degree" = JUndefined /\
  getValueMinMax sample_objects "settings_algo_params" "degree" (JBool false)
    (JNum (ZFin 1)) (JNum (ZFin 100)) = Normal (JBool false).
Proof.
  split; [by vm_compute|].
  apply (getValueMinMax_absent sample_objects _ _ _ _ _). by vm_compute.
Defined.

Lemma getValueMinMax_agree_witness :
  num_ltb (ZFin 100) (ZFin 1) = false /\
  getValueMinMax sample_objects "settings_algo_params" "percentile" (JNum (ZFin 50))
    (JNum (ZFin 1)) (JNum (ZFin 100))
  = getValueNumberMinMax sample_objects "settings_algo_params" "percentile" (JNum (ZFin 50))
    (JNum (ZFin 1)) (JNum (ZFin 100)).
Proof.
  split; [done|]. apply getValueMinMax_agree. done.
Defined.

Lemma getValueNumberMinMax_clamp_witness :
  num_ltb (ZFin 100) (ZFin 1) = false /\
  getValueNumberMinMax sample_objects "settings_algo_params" "percentile" (JNum (ZFin 500))
    (JNum (ZFin 1)) (JNum (ZFin 100))
  = Normal (JNum (ZFin 100)).
Proof.
  split; [done|]. rewrite (getValueNumberMinMax_clamp sample_objects _ _ _ (ZFin 1) (ZFin 100)) by done.
  by vm_compute.
Defined.

Lemma getValueMinMax_inverted_witness :
  getValueMinMax sample_objects "settings_algo_params" "percentile" (JNum (ZFin 50))
    (JNum (ZFin 200)) (JNum (ZFin 100)) = Normal (JNum (ZFin 200)) /\
  getValueNumberMinMax sample_objects "settings_algo_params" "percentile" (JNum (ZFin 50))
    (JNum (ZFin 200)) (JNum (ZFin 100)) = Normal (JNum (ZFin 100)).
Proof. apply getValueMinMax_inverted; by vm_compute. Defined.

Lemma inMinMax_within_witness :
  num_ltb (ZFin 100) (ZFin 1) = false /\
  js_lt (inMinMax (JNum (ZFin 150)) (JNum (ZFin 1)) (JNum (ZFin 100))) (JNum (ZFin 1)) = false /\
  js_gt (inMinMax (JNum (ZFin 150)) (JNum (ZFin 1)) (JNum (ZFin 100))) (JNum (ZFin 100)) = false.
Proof. split; [done|]. apply inMinMax_within. done. Defined.


Lemma inMinMax_nan_witness :
  js_to_number (N:=znum) (JStr "abc") = ZNaN /\
  inMinMax (JStr "abc") (JNum (ZFin 1)) (JNum (ZFin 100)) = JStr "abc".
Proof. split; [by vm_compute|]. apply inMinMax_nan. by vm_compute. Defined.

Lemma getCategoricalObjectValue_out_of_range_witness :
  cat_objects {| cat_objects := Some [sample_objects] |} = Some [sample_objects] /\
  getCategoricalObjectValue (Some {| cat_objects := Some [sample_objects] |}) (ZFin 3)
    "settings_plot_params" "lineCol" (JStr "red") = Normal (JStr "red").
Proof.
  split; [done|]. apply (getCategoricalObjectValue_out_of_range _ [sample_objects]); [done|].
  intros i Hi. vm_compute in Hi. injection Hi as <-. simpl. lia.
Defined.

Lemma getFillValue_throws_witness :
  getFillValue sample_objects "settings_plot_params" "labelsCol" (JStr "orange") = Throw TypeError.
Proof. apply getFillValue_throws. left. by vm_compute. Defined.

Lemma getFillValue_color_witness :
  getFillValue sample_objects "settings_plot_params" "lineCol" (JStr "red") = Normal (JStr "#ff0000").
Proof.
  eapply getFillValue_color; [by vm_compute | by vm_compute | by vm_compute | done].
Defined.

(** The examples of the specification (§8): [inMinMax(5, 1, 10)] is
    5, [inMinMax(-3, 1, 10)] is 1, [inMinMax(99, 1, 10)] is 10. *)
Example inMinMax_examples :
  inMinMax (JNum (ZFin 5)) (JNum (ZFin 1)) (JNum (ZFin 10)) = JNum (ZFin 5) /\
  inMinMax (JNum (ZFin (-3))) (JNum (ZFin 1)) (JNum (ZFin 10)) = JNum (ZFin 1) /\
  inMinMax (JNum (ZFin 99)) (JNum (ZFin 1)) (JNum (ZFin 10)) = JNum (ZFin 10).
Proof. repeat split. Qed.

(** The examples of the specification (§8):
    [ifStringReturnStringClustersMethod("None", "auto")] is ["fast"] and
    [ifStringReturnStringClustersMethod("x", "5")] is ["None"]. *)
Example ifStringReturnStringClustersMethod_examples :
  ifStringReturnStringClustersMethod (N:=znum) (JStr "None") (JStr "auto") = JStr "fast" /\
  ifStringReturnStringClustersMethod (N:=znum) (JStr "x") (JStr "5") = JStr "None".
Proof. split; reflexivity. Qed.
