(* ===== verification/Settings.v ===== *)
(** * The four settings groups

    One Module per settings group of visual.ts: its record type (the
    interfaces of lines 29-53, with every field a [jsval], since
    [getValue<T>] returns whatever the metadata tree holds), its defaults
    (the constructor, lines 77-101), its population from the metadata tree
    (the block of [update], lines 122-146), and its case of
    [enumerateObjectInstances] (lines 173-226), which pushes instance
    descriptors onto the enumeration array.

    [Settings] bundles the four groups, the adapter's private fields of
    lines 60-63; [populate_settings] and [default_settings] are the whole
    blocks of [update] and of the constructor, and
    [enumerate_settings] is the [switch] of [enumerateObjectInstances]. *)

From S2P Require Import Prelude JsNumber JsValue PropertyLookup.

(** An instance descriptor of the enumeration: an object literal
    [{objectName, properties, selector}] whose [properties] keep the
    literal's key order. *)
Record VisualObjectInstance (N : Type) := {
  objectName : string;
  properties : list (string * jsval N);
  selector : jsval N
}.
Arguments objectName {N} _.
Arguments properties {N} _.
Arguments selector {N} _.

Module ModelParams.
Record Visual_settings_model_params (N : Type) := {
  modelType : jsval N;
  targetSeasonality : jsval N;
  freq : jsval N
}.
Arguments modelType {N} _.
Arguments targetSeasonality {N} _.
Arguments freq {N} _.

Section Ops.
Context {N : Type} `{JsNumber N}.

Definition defaults : Visual_settings_model_params N := {|
  modelType := JStr "automatic";
  targetSeasonality := JStr "autodetect from date";
  freq := JNum (num_lit 12)
|}.

Definition populate (objects : jsval N) : completion (Visual_settings_model_params N) :=
  modelType ← getValue objects "settings_model_params" "modelType" (JStr "automatic");
  targetSeasonality ← getValue objects "settings_model_params" "targetSeasonality"
                        (JStr "autodetect from date");
  freq ← getValue objects "settings_model_params" "freq" (JNum (num_lit 12));
  mret {| modelType := modelType; targetSeasonality := targetSeasonality; freq := freq |}.

(** The base instance, then the frequency instance when the
    seasonality is loosely equal to ["manual"]. *)
Definition push_instances (name : string) (s : Visual_settings_model_params N)
    (objectEnumeration : list (VisualObjectInstance N)) : list (VisualObjectInstance N) :=
  let objectEnumeration :=
    objectEnumeration ++
      [{| objectName := name;
          properties := [("modelType", modelType s);
                         ("targetSeasonality", targetSeasonality s)];
          selector := JNull |}] in
  if js_loose_eq (targetSeasonality s) (JStr "manual") then
    objectEnumeration ++
      [{| objectName := name;
          properties := [("freq", inMinMax (freq s) (JNum (num_lit 1)) (JNum (num_lit 10000)))];
          selector := JNull |}]
  else objectEnumeration.
End Ops.
End ModelParams.

Module AlgoParams.
Record Visual_settings_algo_params (N : Type) := {
  degree : jsval N;
  robustToOutliers : jsval N;
  percentile : jsval N
}.
Arguments degree {N} _.
Arguments robustToOutliers {N} _.
Arguments percentile {N} _.

Section Ops.
Context {N : Type} `{JsNumber N}.

Definition defaults : Visual_settings_algo_params N := {|
  degree := JBool false;
  robustToOutliers := JBool true;
  percentile := JNum (num_lit 50)
|}.

Definition populate (objects : jsval N) : completion (Visual_settings_algo_params N) :=
  degree ← getValue objects "settings_algo_params" "degree" (JBool false);
  robustToOutliers ← getValue objects "settings_algo_params" "robustToOutliers" (JBool true);
  percentile ← getValue objects "settings_algo_params" "percentile" (JNum (num_lit 50));
  mret {| degree := degree; robustToOutliers := robustToOutliers; percentile := percentile |}.

Definition push_instances (name : string) (s : Visual_settings_algo_params N)
    (objectEnumeration : list (VisualObjectInstance N)) : list (VisualObjectInstance N) :=
  objectEnumeration ++
    [{| objectName := name;
        properties := [("degree", degree s);
                       ("robustToOutliers", robustToOutliers s);
                       ("percentile", inMinMax (percentile s) (JNum (num_lit 1)) (JNum (num_lit 100)))];
        selector := JNull |}].
End Ops.
End AlgoParams.

Module PlotParams.
Record Visual_settings_plot_params (N : Type) := {
  plotType : jsval N;
  weight : jsval N;
  lineCol : jsval N;
  labelsCol : jsval N;
  textSize : jsval N
}.
Arguments plotType {N} _.
Arguments weight {N} _.
Arguments lineCol {N} _.
Arguments labelsCol {N} _.
Arguments textSize {N} _.

Section Ops.
Context {N : Type} `{JsNumber N}.

Definition defaults : Visual_settings_plot_params N := {|
  plotType := JStr "all";
  weight := JNum (num_lit 10);
  lineCol := JStr "red";
  labelsCol := JStr "orange";
  textSize := JNum (num_lit 10)
|}.

Definition populate (objects : jsval N) : completion (Visual_settings_plot_params N) :=
  plotType ← getValue objects "settings_plot_params" "plotType" (JStr "all");
  weight ← getValue objects "settings_plot_params" "weight" (JNum (num_lit 10));
  lineCol ← getValue objects "settings_plot_params" "lineCol" (JStr "red");
  labelsCol ← getValue objects "settings_plot_params" "labelsCol" (JStr "orange");
  textSize ← getValue objects "settings_plot_params" "textSize" (JNum (num_lit 10));
  mret {| plotType := plotType; weight := weight; lineCol := lineCol;
          labelsCol := labelsCol; textSize := textSize |}.

Definition push_instances (name : string) (s : Visual_settings_plot_params N)
    (objectEnumeration : list (VisualObjectInstance N)) : list (VisualObjectInstance N) :=
  objectEnumeration ++
    [{| objectName := name;
        properties := [("plotType", plotType s);
                       ("weight", inMinMax (weight s) (JNum (num_lit 1)) (JNum (num_lit 50)));
                       ("lineCol", lineCol s);
                       ("labelsCol", labelsCol s);
                       ("textSize", inMinMax (textSize s) (JNum (num_lit 8)) (JNum (num_lit 40)))];
        selector := JNull |}].
End Ops.
End PlotParams.

Module ExtraParams.
Record Visual_settings_extra_params (N : Type) := {
  show : jsval N;
  textSize : jsval N;
  infoCol : jsval N
}.
Arguments show {N} _.
Arguments textSize {N} _.
Arguments infoCol {N} _.

Section Ops.
Context {N : Type} `{JsNumber N}.

Definition defaults : Visual_settings_extra_params N := {|
  show := JBool true;
  textSize := JNum (num_lit 10);
  infoCol := JStr "brown"
|}.

Definition populate (objects : jsval N) : completion (Visual_settings_extra_params N) :=
  show ← getValue objects "settings_extra_params" "show" (JBool true);
  textSize ← getValue objects "settings_extra_params" "textSize" (JNum (num_lit 10));
  infoCol ← getValue objects "settings_extra_params" "infoCol" (JStr "brown");
  mret {| show := show; textSize := textSize; infoCol := infoCol |}.

Definition push_instances (name : string) (s : Visual_settings_extra_params N)
    (objectEnumeration : list (VisualObjectInstance N)) : list (VisualObjectInstance N) :=
  objectEnumeration ++
    [{| objectName := name;
        properties := [("show", show s);
                       ("textSize", inMinMax (textSize s) (JNum (num_lit 8)) (JNum (num_lit 40)));
                       ("infoCol", infoCol s)];
        selector := JNull |}].
End Ops.
End ExtraParams.

(** The adapter's four settings fields. *)
Record Settings (N : Type) := {
  settings_model_params : ModelParams.Visual_settings_model_params N;
  settings_algo_params : AlgoParams.Visual_settings_algo_params N;
  settings_plot_params : PlotParams.Visual_settings_plot_params N;
  settings_extra_params : ExtraParams.Visual_settings_extra_params N
}.
Arguments settings_model_params {N} _.
Arguments settings_algo_params {N} _.
Arguments settings_plot_params {N} _.
Arguments settings_extra_params {N} _.

Section Groups.
Context {N : Type} `{JsNumber N}.

(** The constructor's block (visual.ts 77-101). *)
Definition default_settings : Settings N := {|
  settings_model_params := ModelParams.defaults;
  settings_algo_params := AlgoParams.defaults;
  settings_plot_params := PlotParams.defaults;
  settings_extra_params := ExtraParams.defaults
|}.

(** The block of [update] (visual.ts 122-146): the four groups replaced
    in order, each by a fresh record. *)
Definition populate_settings (objects : jsval N) : completion (Settings N) :=
  m ← ModelParams.populate objects;
  a ← AlgoParams.populate objects;
  p ← PlotParams.populate objects;
  e ← ExtraParams.populate objects;
  mret {| settings_model_params := m; settings_algo_params := a;
          settings_plot_params := p; settings_extra_params := e |}.

(** The [switch] of [enumerateObjectInstances] (visual.ts 168-229):
    the array starts empty, each case pushes its instances, and a name
    that matches no case leaves it empty. *)
Definition enumerate_settings (s : Settings N) (name : string) : list (VisualObjectInstance N) :=
  let objectEnumeration := [] in
  if String.eqb name "settings_model_params" then
    ModelParams.push_instances name (settings_model_params s) objectEnumeration
  else if String.eqb name "settings_algo_params" then
    AlgoParams.push_instances name (settings_algo_params s) objectEnumeration
  else if String.eqb name "settings_plot_params" then
    PlotParams.push_instances name (settings_plot_params s) objectEnumeration
  else if String.eqb name "settings_extra_params" then
    ExtraParams.push_instances name (settings_extra_params s) objectEnumeration
  else objectEnumeration.
End Groups.

(** ** The settings a metadata tree denotes *)

Section Denotation.
Context {N : Type} `{JsNumber N}.

(** Every settings field: its group, its property name, where it is in
    [Settings], and its default. *)
Definition settings_table : list (string * string * (Settings N -> jsval N) * jsval N) := [
  ("settings_model_params", "modelType",
    fun s => ModelParams.modelType (settings_model_params s), JStr "automatic");
  ("settings_model_params", "targetSeasonality",
    fun s => ModelParams.targetSeasonality (settings_model_params s), JStr "autodetect from date");
  ("settings_model_params", "freq",
    fun s => ModelParams.freq (settings_model_params s), JNum (num_lit 12));
  ("settings_algo_params", "degree",
    fun s => AlgoParams.degree (settings_algo_params s), JBool false);
  ("settings_algo_params", "robustToOutliers",
    fun s => AlgoParams.robustToOutliers (settings_algo_params s), JBool true);
  ("settings_algo_params", "percentile",
    fun s => AlgoParams.percentile (settings_algo_params s), JNum (num_lit 50));
  ("settings_plot_params", "plotType",
    fun s => PlotParams.plotType (settings_plot_params s), JStr "all");
  ("settings_plot_params", "weight",
    fun s => PlotParams.weight (settings_plot_params s), JNum (num_lit 10));
  ("settings_plot_params", "lineCol",
    fun s => PlotParams.lineCol (settings_plot_params s), JStr "red");
  ("settings_plot_params", "labelsCol",
    fun s => PlotParams.labelsCol (settings_plot_params s), JStr "orange");
  ("settings_plot_params", "textSize",
    fun s => PlotParams.textSize (settings_plot_params s), JNum (num_lit 10));
  ("settings_extra_params", "show",
    fun s => ExtraParams.show (settings_extra_params s), JBool true);
  ("settings_extra_params", "textSize",
    fun s => ExtraParams.textSize (settings_extra_params s), JNum (num_lit 10));
  ("settings_extra_params", "infoCol",
    fun s => ExtraParams.infoCol (settings_extra_params s), JStr "brown")
].

(** Every field holds a value other than [undefined]. *)
Definition settings_defined (s : Settings N) : bool :=
  forallb (fun '(_, _, proj, _) => negb (js_is_undefined (proj s))) settings_table.

(** The settings read from a tree, field by field, as §3 describes
    them: the host's value when there is one, the default otherwise. *)
Definition settings_of (objects : jsval N) : Settings N :=
  let rd g p d := or_default (prop_of objects g p) d in {|
  settings_model_params := {|
    ModelParams.modelType := rd "settings_model_params" "modelType" (JStr "automatic");
    ModelParams.targetSeasonality :=
      rd "settings_model_params" "targetSeasonality" (JStr "autodetect from date");
    ModelParams.freq := rd "settings_model_params" "freq" (JNum (num_lit 12)) |};
  settings_algo_params := {|
    AlgoParams.degree := rd "settings_algo_params" "degree" (JBool false);
    AlgoParams.robustToOutliers := rd "settings_algo_params" "robustToOutliers" (JBool true);
    AlgoParams.percentile := rd "settings_algo_params" "percentile" (JNum (num_lit 50)) |};
  settings_plot_params := {|
    PlotParams.plotType := rd "settings_plot_params" "plotType" (JStr "all");
    PlotParams.weight := rd "settings_plot_params" "weight" (JNum (num_lit 10));
    PlotParams.lineCol := rd "settings_plot_params" "lineCol" (JStr "red");
    PlotParams.labelsCol := rd "settings_plot_params" "labelsCol" (JStr "orange");
    PlotParams.textSize := rd "settings_plot_params" "textSize" (JNum (num_lit 10)) |};
  settings_extra_params := {|
    ExtraParams.show := rd "settings_extra_params" "show" (JBool true);
    ExtraParams.textSize := rd "settings_extra_params" "textSize" (JNum (num_lit 10));
    ExtraParams.infoCol := rd "settings_extra_params" "infoCol" (JStr "brown") |}
|}.
End Denotation.

Section PopulateSpec.
Context {N : Type} `{JsNumberLaws N}.

Lemma populate_settings_of (objects : jsval N) :
  populate_settings objects = Normal (settings_of objects).
Proof.
  unfold populate_settings, ModelParams.populate, AlgoParams.populate,
    PlotParams.populate, ExtraParams.populate.
  by rewrite !getValue_eq.
Qed.

Lemma settings_of_table (objects : jsval N) :
  Forall (fun '(g, p, proj, d) => proj (settings_of objects) = or_default (prop_of objects g p) d)
    settings_table.
Proof. repeat constructor. Qed.

Lemma settings_table_defaults :
  Forall (fun '(_, _, _, d) => js_is_undefined d = false) (settings_table (N:=N)).
Proof. repeat constructor. Qed.

Lemma or_default_defined (v d : jsval N) :
  js_is_undefined d = false -> js_is_undefined (or_default v d) = false.
Proof. unfold or_default. by destruct (js_is_undefined v) eqn:E. Qed.

(** C5: populating the settings never throws, and every field holds
    the host's value for it when the tree has one other than
    [undefined], its default otherwise: the host's values override
    exactly the fields they name. *)
Theorem populate_settings_spec (objects : jsval N) :
  exists s, populate_settings objects = Normal s /\
    Forall (fun '(g, p, proj, d) => proj s = or_default (prop_of objects g p) d) settings_table.
Proof.
  exists (settings_of objects). split; [apply populate_settings_of | apply settings_of_table].
Qed.

(** C6: a tree that holds no settings property yields exactly the
    defaults the constructor installs. *)
Theorem populate_settings_absent (objects : jsval N) :
  (forall g p, prop_of objects g p = JUndefined) ->
  populate_settings objects = Normal default_settings.
Proof.
  intros Habs. rewrite populate_settings_of. unfold settings_of, or_default.
  by rewrite !Habs.
Qed.

Lemma settings_of_defined (objects : jsval N) : settings_defined (settings_of objects) = true.
Proof.
  unfold settings_defined. apply forallb_forall. intros [[[g p] proj] d] Hin.
  apply list_elem_of_In in Hin.
  pose proof (proj1 (Forall_forall _ _) (settings_of_table objects) _ Hin) as Hp.
  pose proof (proj1 (Forall_forall _ _) settings_table_defaults _ Hin) as Hd.
  simpl in Hp, Hd. rewrite Hp, or_default_defined; done.
Qed.

(** C17: the invariant of §3, no field is ever [undefined]: it holds of
    the defaults and of every populated settings value. *)
Theorem settings_defined_populate (objects : jsval N) :
  settings_defined (default_settings (N:=N)) = true /\
  forall s, populate_settings objects = Normal s -> settings_defined s = true.
Proof.
  split; [done|]. intros s Hs.
  rewrite populate_settings_of in Hs. injection Hs as <-.
  apply settings_of_defined.
Qed.
End PopulateSpec.

Lemma populate_settings_absent_witness :
  (forall g p, prop_of (N:=znum) (JObj ∅) g p = JUndefined) /\
  populate_settings (N:=znum) (JObj ∅) = Normal default_settings.
Proof.
  split; [intros; done|]. apply populate_settings_absent. intros; done.
Defined.

(** ** Enumeration *)

Section EnumerateSpec.
Context {N : Type} `{JsNumberLaws N}.

(** The clamped fields of the enumeration and their ranges (§4.1). *)
Definition clamp_table : list (string * string * Z * Z) := [
  ("settings_model_params", "freq", 1, 10000);
  ("settings_algo_params", "percentile", 1, 100);
  ("settings_plot_params", "weight", 1, 50);
  ("settings_plot_params", "textSize", 8, 40);
  ("settings_extra_params", "textSize", 8, 40)
]%Z.

Lemma inMinMax_lit_within (x : jsval N) (lo hi : Z) :
  (0 <= lo)%Z -> (lo <= hi)%Z -> (hi <= 10000)%Z ->
  js_lt (inMinMax x (JNum (num_lit lo)) (JNum (num_lit hi))) (JNum (num_lit lo)) = false /\
  js_gt (inMinMax x (JNum (num_lit lo)) (JNum (num_lit hi))) (JNum (num_lit hi)) = false.
Proof.
  intros H1 H2 H3. apply inMinMax_bounds.
  rewrite num_ltb_lit; [apply Z.ltb_ge; lia | unfold safe_int; lia..].
Qed.

(** C9: enumerating [settings_model_params] yields two instances when
    the seasonality is the string ["manual"], one otherwise. *)
Theorem enumerate_model_params_count (s : Settings N) (t : string) :
  ModelParams.targetSeasonality (settings_model_params s) = JStr t ->
  length (enumerate_settings s "settings_model_params") = if String.eqb t "manual" then 2 else 1.
Proof.
  intros Ht. unfold enumerate_settings, ModelParams.push_instances. simpl.
  rewrite Ht. simpl. by destruct (String.eqb t "manual").
Qed.

(** C23: every enumerated instance carries the requested object name
    and the [null] selector. *)
Theorem enumerate_instances_named (s : Settings N) (name : string) inst :
  inst ∈ enumerate_settings s name -> objectName inst = name /\ selector inst = JNull.
Proof.
  unfold enumerate_settings, ModelParams.push_instances, AlgoParams.push_instances,
    PlotParams.push_instances, ExtraParams.push_instances.
  case_ifs; simpl; intros Hin; decompose_list_elem_of; by subst.
Qed.

(** C24: a name that is none of the four groups enumerates nothing. *)
Theorem enumerate_unknown (s : Settings N) (name : string) :
  name ∉ ["settings_model_params"; "settings_algo_params";
          "settings_plot_params"; "settings_extra_params"] ->
  enumerate_settings s name = [].
Proof.
  intros Hn. unfold enumerate_settings. case_ifs; try done;
    repeat match goal with H : String.eqb _ _ = true |- _ => apply String.eqb_eq in H end;
    subst; set_solver.
Qed.

(** C10: every clamped field of every enumerated instance lies in its
    range: it is neither below the lower nor above the upper bound. *)
Theorem enumerate_clamped (s : Settings N) (name : string) inst k v lo hi :
  inst ∈ enumerate_settings s name -> (k, v) ∈ properties inst ->
  (name, k, lo, hi) ∈ clamp_table ->
  js_lt v (JNum (num_lit lo)) = false /\ js_gt v (JNum (num_lit hi)) = false.
Proof.
  unfold enumerate_settings, ModelParams.push_instances, AlgoParams.push_instances,
    PlotParams.push_instances, ExtraParams.push_instances.
  unfold clamp_table. case_ifs; intros Hin Hkv Hc;
    repeat match goal with H : String.eqb _ _ = true |- _ => apply String.eqb_eq in H end;
    subst; simpl in *;
    decompose_list_elem_of; simplify_eq; simpl in *; decompose_list_elem_of; simplify_eq;
    apply inMinMax_lit_within; lia.
Qed.
End EnumerateSpec.

(** A settings value with a manual seasonality and an out-of-range
    frequency. *)
Definition sample_manual_settings : Settings znum := {|
  settings_model_params := {|
    ModelParams.modelType := JStr "additive";
    ModelParams.targetSeasonality := JStr "manual";
    ModelParams.freq := JNum (ZFin 20000) |};
  settings_algo_params := AlgoParams.defaults;
  settings_plot_params := PlotParams.defaults;
  settings_extra_params := ExtraParams.defaults
|}.

Definition sample_freq_instance : VisualObjectInstance znum := {|
  objectName := "settings_model_params";
  properties := [("freq", JNum (ZFin 10000))];
  selector := JNull
|}.

Lemma sample_freq_instance_elem :
  sample_freq_instance ∈ enumerate_settings sample_manual_settings "settings_model_params".
Proof. apply list_elem_of_In. simpl. right. left. reflexivity. Qed.

Lemma enumerate_model_params_count_witness :
  ModelParams.targetSeasonality (settings_model_params sample_manual_settings) = JStr "manual" /\
  length (enumerate_settings sample_manual_settings "settings_model_params") = 2.
Proof.
  split; [reflexivity|]. by rewrite (enumerate_model_params_count sample_manual_settings "manual").
Defined.

Lemma enumerate_instances_named_witness :
  sample_freq_instance ∈ enumerate_settings sample_manual_settings "settings_model_params" /\
  objectName sample_freq_instance = "settings_model_params" /\ selector sample_freq_instance = JNull.
Proof.
  split; [apply sample_freq_instance_elem|].
  apply (enumerate_instances_named sample_manual_settings), sample_freq_instance_elem.
Defined.

Lemma enumerate_unknown_witness :
  ("settings_unknown" ∉ ["settings_model_params"; "settings_algo_params";
                         "settings_plot_params"; "settings_extra_params"]) /\
  enumerate_settings sample_manual_settings "settings_unknown" = [].
Proof. split; [set_solver|]. apply enumerate_unknown. set_solver. Defined.

Lemma enumerate_clamped_witness :
  ("settings_model_params", "freq", 1%Z, 10000%Z) ∈ clamp_table /\
  js_lt (JNum (ZFin 10000)) (JNum (num_lit 1)) = false /\
  js_gt (JNum (ZFin 10000)) (JNum (num_lit 10000)) = false.
Proof.
  split; [apply list_elem_of_In; simpl; auto|].
  apply (enumerate_clamped sample_manual_settings "settings_model_params" sample_freq_instance "freq").
  - apply sample_freq_instance_elem.
  - apply list_elem_of_In. simpl. auto.
  - apply list_elem_of_In. simpl. auto.
Defined.

(** ** Round trip through the host's persistence

    When the user edits the property pane, the host writes the values of
    the enumerated instances into the metadata tree under their object
    name, and the next [update] reads them back.  [objects_of_instances]
    is that write-back (host behaviour, not repository code): the
    properties of every instance are stored in the group object of its
    name. *)

Section RoundTrip.
Context {N : Type} `{JsNumberLaws N}.

Definition persist_instance (m : gmap string (jsval N)) (inst : VisualObjectInstance N)
    : gmap string (jsval N) :=
  let group := match m !! objectName inst with Some (JObj g) => g | _ => ∅ end in
  <[objectName inst := JObj (fold_left (fun g kv => <[kv.1 := kv.2]> g) (properties inst) group)]> m.

Definition objects_of_instances (insts : list (VisualObjectInstance N)) : jsval N :=
  JObj (fold_left persist_instance insts ∅).

Lemma or_default_of_defined (v d : jsval N) : js_is_undefined v = false -> or_default v d = v.
Proof. unfold or_default. by intros ->. Qed.

Lemma lit_defined (z : Z) : js_is_undefined (JNum (num_lit (N:=N) z)) = false.
Proof. done. Qed.

Lemma lit_order (lo hi : Z) :
  (0 <= lo)%Z -> (lo <= hi)%Z -> (hi <= 10000)%Z ->
  js_lt (JNum (num_lit (N:=N) hi)) (JNum (num_lit lo)) = false.
Proof.
  intros. rewrite js_lt_num_l. cbn [js_to_number].
  rewrite num_ltb_lit; [apply Z.ltb_ge; lia | unfold safe_int; lia..].
Qed.

(** Split [settings_defined] into one fact per field. *)
Ltac split_defined H :=
  unfold settings_defined in H; simpl in H;
  repeat match type of H with
    | (?a && ?b) = true =>
        let H1 := fresh "Hd" in apply andb_prop in H as [H1 H]; apply negb_true_iff in H1
    end;
  try apply negb_true_iff in H.

Ltac roundtrip_tac :=
  cbn; simplify_map_eq;
  rewrite ?or_default_of_defined by (try apply inMinMax_defined; done);
  rewrite ?inMinMax_idempotent by (apply lit_order; lia).

Lemma roundtrip_model (s : Settings N) :
  settings_defined s = true ->
  enumerate_settings (settings_of (objects_of_instances (enumerate_settings s "settings_model_params")))
    "settings_model_params" = enumerate_settings s "settings_model_params".
Proof.
  intros Hdef. destruct s as [[mt ts f] a pl e]. split_defined Hdef. simpl in *.
  unfold enumerate_settings, ModelParams.push_instances. simpl.
  destruct (js_loose_eq ts (JStr "manual")) eqn:E; roundtrip_tac; by rewrite ?E.
Qed.

Lemma roundtrip_algo (s : Settings N) :
  settings_defined s = true ->
  enumerate_settings (settings_of (objects_of_instances (enumerate_settings s "settings_algo_params")))
    "settings_algo_params" = enumerate_settings s "settings_algo_params".
Proof.
  intros Hdef. destruct s as [m [d r p] pl e]. split_defined Hdef. simpl in *.
  by roundtrip_tac.
Qed.

Lemma roundtrip_plot (s : Settings N) :
  settings_defined s = true ->
  enumerate_settings (settings_of (objects_of_instances (enumerate_settings s "settings_plot_params")))
    "settings_plot_params" = enumerate_settings s "settings_plot_params".
Proof.
  intros Hdef. destruct s as [m a [pt w lc lbc ts] e]. split_defined Hdef. simpl in *.
  by roundtrip_tac.
Qed.

Lemma roundtrip_extra (s : Settings N) :
  settings_defined s = true ->
  enumerate_settings (settings_of (objects_of_instances (enumerate_settings s "settings_extra_params")))
    "settings_extra_params" = enumerate_settings s "settings_extra_params".
Proof.
  intros Hdef. destruct s as [m a pl [sh ts ic]]. split_defined Hdef. simpl in *.
  by roundtrip_tac.
Qed.

(** C12: the property pane is stable: when the host writes the
    enumerated values of a group back into the metadata tree and the
    next [update] populates the settings from it, the group enumerates to
    the same instances (the clamp is idempotent and no field is
    [undefined]); for an unknown name both sides are empty. *)
Theorem enumerate_roundtrip (s s' : Settings N) (name : string) :
  settings_defined s = true ->
  populate_settings (objects_of_instances (enumerate_settings s name)) = Normal s' ->
  enumerate_settings s' name = enumerate_settings s name.
Proof.
  intros Hdef Hp. rewrite populate_settings_of in Hp. injection Hp as <-.
  destruct (String.eqb_spec name "settings_model_params") as [->|]; [by apply roundtrip_model|].
  destruct (String.eqb_spec name "settings_algo_params") as [->|]; [by apply roundtrip_algo|].
  destruct (String.eqb_spec name "settings_plot_params") as [->|]; [by apply roundtrip_plot|].
  destruct (String.eqb_spec name "settings_extra_params") as [->|]; [by apply roundtrip_extra|].
  unfold enumerate_settings. by rewrite !string_eqb_neq.
Qed.
End RoundTrip.

Definition sample_written_back : Settings znum :=
  settings_of (objects_of_instances (enumerate_settings sample_manual_settings "settings_model_params")).

Lemma enumerate_roundtrip_witness :
  settings_defined sample_manual_settings = true /\
  populate_settings (objects_of_instances (enumerate_settings sample_manual_settings "settings_model_params"))
    = Normal sample_written_back /\
  enumerate_settings sample_written_back "settings_model_params"
  = enumerate_settings sample_manual_settings "settings_model_params".
Proof.
  assert (settings_defined sample_manual_settings = true) as Hd by reflexivity.
  assert (populate_settings (objects_of_instances
            (enumerate_settings sample_manual_settings "settings_model_params"))
          = Normal sample_written_back) as Hp by (vm_compute; reflexivity).
  split; [exact Hd|]. split; [exact Hp|]. by apply (enumerate_roundtrip _ _ _ Hd Hp).
Defined.

(** A metadata tree in which the host cleared the frequency to [null]. *)
Definition null_freq_objects : jsval znum :=
  JObj {[ "settings_model_params" :=
            JObj {[ "targetSeasonality" := JStr "manual"; "freq" := JNull ]} ]}.

(** A [null] value overrides the default: [getValue] tests only
    [!== undefined], so the frequency setting becomes [null], not 12, and
    the enumeration reports the clamp of [null], the lower bound 1
    ([null] converts to 0). *)
Example populate_null_override_example :
  (match populate_settings null_freq_objects with
   | Normal s => Some (ModelParams.freq (settings_model_params s))
   | Throw _ => None
   end) = Some JNull /\
  (match populate_settings null_freq_objects with
   | Normal s => enumerate_settings s "settings_model_params"
   | Throw _ => []
   end) =
  [{| objectName := "settings_model_params";
      properties := [("modelType", JStr "automatic"); ("targetSeasonality", JStr "manual")];
      selector := JNull |};
   {| objectName := "settings_model_params";
      properties := [("freq", JNum (ZFin 1))];
      selector := JNull |}].
Proof. split; vm_compute; reflexivity. Qed.
