(* ===== verification/SettingsTypes.v ===== *)
(** * The declared types of the settings fields

    visual.ts declares each settings group as an interface whose fields
    have TypeScript types (lines 29-53), and [update] fills them with
    [getValue<T>], which returns whatever the metadata tree holds, cast
    to [T] without a check.  This file states the declared types
    ([interface_types]), the test of a value against one ([has_type],
    what [typeof] tells), and shows that the settings [update] installs
    have their declared types exactly when the tree's values for them
    do: the interfaces' types are an assumption about the host's data,
    not something the code establishes.  When they hold, every value the
    property pane receives has its declared type. *)

From S2P Require Import Prelude JsNumber JsValue PropertyLookup Settings.

Inductive ts_type := TString | TNumber | TBoolean.

#[export] Instance ts_type_eq_dec : EqDecision ts_type.
Proof. solve_decision. Defined.

(** The fields of the four interfaces and their types. *)
Definition interface_types : list (string * string * ts_type) := [
  ("settings_model_params", "modelType", TString);
  ("settings_model_params", "targetSeasonality", TString);
  ("settings_model_params", "freq", TNumber);
  ("settings_algo_params", "degree", TBoolean);
  ("settings_algo_params", "robustToOutliers", TBoolean);
  ("settings_algo_params", "percentile", TNumber);
  ("settings_plot_params", "plotType", TString);
  ("settings_plot_params", "weight", TNumber);
  ("settings_plot_params", "lineCol", TString);
  ("settings_plot_params", "labelsCol", TString);
  ("settings_plot_params", "textSize", TNumber);
  ("settings_extra_params", "show", TBoolean);
  ("settings_extra_params", "textSize", TNumber);
  ("settings_extra_params", "infoCol", TString)].

Definition declared_type (g p : string) : option ts_type :=
  snd <$> find (fun '(g', p', _) => String.eqb g' g && String.eqb p' p) interface_types.

Section Types.
Context {N : Type} `{JsNumber N}.

(** A value of the TypeScript type: [typeof v] is its name. *)
Definition has_type (t : ts_type) (v : jsval N) : bool :=
  match t, v with
  | TString, JStr _ | TNumber, JNum _ | TBoolean, JBool _ => true
  | _, _ => false
  end.

(** Every field holds a value of its declared type. *)
Definition settings_typed (s : Settings N) : bool :=
  forallb (fun '(g, p, proj, _) =>
    match declared_type g p with Some t => has_type t (proj s) | None => false end)
    settings_table.

(** Every settings property the tree holds, other than [undefined], has
    the type its field declares. *)
Definition tree_typed (objects : jsval N) : bool :=
  forallb (fun '(g, p, _, _) =>
    match declared_type g p with
    | Some t => js_is_undefined (prop_of objects g p) || has_type t (prop_of objects g p)
    | None => false
    end) settings_table.
(** Every property of an instance has the type its interface declares
    for the instance's group. *)
Definition instance_typed (i : VisualObjectInstance N) : bool :=
  forallb (fun '(k, v) =>
    match declared_type (objectName i) k with Some t => has_type t v | None => false end)
    (properties i).
End Types.

Section TypeSpec.
Context {N : Type} `{JsNumberLaws N}.

Lemma has_type_or_default t (v d : jsval N) :
  has_type t d = true -> has_type t (or_default v d) = js_is_undefined v || has_type t v.
Proof. intros Hd. unfold or_default. by destruct (js_is_undefined v). Qed.

(** C13: the settings [update] installs have the types their interfaces
    declare exactly when every settings property of the metadata tree
    does: the defaults are well typed, and [getValue] passes a value of
    any other type through unchanged. *)
Theorem populate_settings_typed (objects : jsval N) (s : Settings N) :
  populate_settings objects = Normal s -> settings_typed s = tree_typed objects.
Proof.
  rewrite populate_settings_of. intros Hs%Normal_inj. subst s.
  unfold settings_typed, tree_typed, settings_of.
  cbn -[has_type js_is_undefined prop_of or_default].
  by rewrite !has_type_or_default.
Qed.
Lemma has_type_inMinMax (x : jsval N) a b :
  has_type TNumber x = true -> has_type TNumber (inMinMax x (JNum a) (JNum b)) = true.
Proof. intros Hx. unfold inMinMax. by case_ifs. Qed.

(** C19: the property pane receives values of the declared types: when
    the settings are well typed, every property of every enumerated
    instance has the type its interface declares for it (the clamp maps
    numbers to numbers), whatever group is asked for. *)
Theorem enumerate_typed (s : Settings N) (name : string) :
  settings_typed s = true -> Forall (fun i => instance_typed i = true) (enumerate_settings s name).
Proof.
  destruct s as [[m1 m2 m3] [a1 a2 a3] [p1 p2 p3 p4 p5] [e1 e2 e3]].
  unfold settings_typed. cbn -[has_type]. rewrite !andb_true_iff.
  intros (Hm1 & Hm2 & Hm3 & Ha1 & Ha2 & Ha3 & Hp1 & Hp2 & Hp3 & Hp4 & Hp5 & He1 & He2 & He3 & _).
  unfold enumerate_settings, ModelParams.push_instances, AlgoParams.push_instances,
    PlotParams.push_instances, ExtraParams.push_instances.
  case_ifs;
    repeat match goal with H : String.eqb _ _ = true |- _ => apply String.eqb_eq in H end;
    subst; repeat constructor; unfold instance_typed; cbn -[has_type inMinMax];
    rewrite ?has_type_inMinMax by done; rewrite ?Hm1, ?Hm2, ?Ha1, ?Ha2, ?Hp1, ?Hp3,
      ?Hp4, ?He1, ?He3; done.
Qed.
End TypeSpec.

(** The sample tree's [lineCol] is a fill object and its [labelsCol] is
    [null], neither a string: the settings are not well typed. *)
Definition sample_populated : Settings znum := settings_of sample_objects.

Example sample_populated_untyped : settings_typed sample_populated = false.
Proof. vm_compute. reflexivity. Qed.

Lemma populate_settings_typed_witness :
  populate_settings sample_objects = Normal sample_populated /\
  settings_typed sample_populated = tree_typed sample_objects.
Proof.
  assert (populate_settings sample_objects = Normal sample_populated) as Hp
    by (vm_compute; reflexivity).
  split; [exact Hp|]. exact (populate_settings_typed sample_objects sample_populated Hp).
Defined.

Lemma enumerate_typed_witness :
  settings_typed sample_manual_settings = true /\
  Forall (fun i => instance_typed i = true)
    (enumerate_settings sample_manual_settings "settings_model_params").
Proof.
  assert (settings_typed sample_manual_settings = true) as Ht by (vm_compute; reflexivity).
  split; [exact Ht|]. exact (enumerate_typed sample_manual_settings _ Ht).
Defined.
