(* ===== verification/Dom.v ===== *)
(** * The document the adapter renders into

    The adapter and the host share the document: the host hands the
    adapter a mount element, the adapter appends its container to it, and
    every later write of the adapter ([src], [style]) is seen through the
    host's element.  The document is therefore a store: a [gmap] from
    locations to element records, and the adapter and the host hold
    locations into it.

    These are the DOM operations the code calls, as the DOM standard
    defines them for the cases that arise: [document.createElement]
    allocates a fresh element; [appendChild] of a parentless element adds
    it at the end of the parent's children; the [className] and
    [style.height]/[style.width] setters store the assigned string (CSS
    validation of style values is not modelled); the [src] setter of an
    image stores the ToString of the assigned value, so [null] becomes
    the string ["null"].  Operations on a location outside the store
    leave it unchanged. *)

From S2P Require Import Prelude JsNumber JsValue.

Notation loc := positive (only parsing).

Record HTMLElement := {
  tagName : string;
  className : string;
  style_height : string;
  style_width : string;
  src : option string;
  children : list loc
}.

Notation document := (gmap loc HTMLElement) (only parsing).

Definition new_element (tag : string) : HTMLElement := {|
  tagName := tag; className := ""; style_height := ""; style_width := "";
  src := None; children := []
|}.

(** [document.createElement(tag)]: a fresh location. *)
Definition createElement (tag : string) (doc : document) : loc * document :=
  let l := fresh (dom doc) in (l, <[l := new_element tag]> doc).

(** The element records after one assignment. *)
Definition el_set_className (v : string) (e : HTMLElement) : HTMLElement :=
  {| tagName := tagName e; className := v; style_height := style_height e;
     style_width := style_width e; src := src e; children := children e |}.

Definition el_set_style_height (v : string) (e : HTMLElement) : HTMLElement :=
  {| tagName := tagName e; className := className e; style_height := v;
     style_width := style_width e; src := src e; children := children e |}.

Definition el_set_style_width (v : string) (e : HTMLElement) : HTMLElement :=
  {| tagName := tagName e; className := className e; style_height := style_height e;
     style_width := v; src := src e; children := children e |}.

Definition el_set_src (v : string) (e : HTMLElement) : HTMLElement :=
  {| tagName := tagName e; className := className e; style_height := style_height e;
     style_width := style_width e; src := Some v; children := children e |}.

Definition el_append_child (child : loc) (e : HTMLElement) : HTMLElement :=
  {| tagName := tagName e; className := className e; style_height := style_height e;
     style_width := style_width e; src := src e; children := children e ++ [child] |}.

(** [el.className = v]. *)
Definition set_className (l : loc) (v : string) (doc : document) : document :=
  alter (el_set_className v) l doc.

(** [el.style.height = v]. *)
Definition set_style_height (l : loc) (v : string) (doc : document) : document :=
  alter (el_set_style_height v) l doc.

(** [el.style.width = v]. *)
Definition set_style_width (l : loc) (v : string) (doc : document) : document :=
  alter (el_set_style_width v) l doc.

(** [img.src = v]: the attribute holds ToString(v). *)
Definition set_src {N : Type} `{JsNumber N} (l : loc) (v : jsval N) (doc : document) : document :=
  alter (el_set_src (js_to_string v)) l doc.

(** [parent.appendChild(child)] for a child with no parent. *)
Definition appendChild (parent child : loc) (doc : document) : document :=
  alter (el_append_child child) parent doc.

(** ** Store lemmas *)

Lemma createElement_fresh tag doc :
  doc !! (createElement tag doc).1 = None.
Proof. simpl. apply not_elem_of_dom, is_fresh. Qed.

Lemma createElement_lookup tag doc l :
  (createElement tag doc).2 !! l =
  if decide ((createElement tag doc).1 = l) then Some (new_element tag) else doc !! l.
Proof. simpl. by rewrite lookup_insert. Qed.

#[export] Hint Rewrite @lookup_alter_eq : pbi.
