(* ===== verification/Realm.v ===== *)
(** * The script realm: objects with identity, shared between scripts

    The compiled bundle ([src/.tmp/drop/visual.js]) is three scripts run
    one after the other in one realm.  Each opens a chain of namespace
    objects with the idiom [x = p.x || (p.x = {})] and writes functions
    into the last one; the second script reopens the objects the first
    created, and the functions read the namespace object when they are
    called.  Unlike the host's metadata tree (a [jsval], a value), these
    objects have identity, so this file models them as a store: a [gmap]
    from locations to cells, each cell the object's own data properties
    and, for a function object, its code (a type [C] of closures, chosen
    by the client).

    The operations are those of ECMAScript the bundle performs: property
    read [v[k]] and write [v[k] = x] (both throw on [undefined] and
    [null]; a write to a primitive is lost, the bundle has no ["use
    strict"]), allocation of objects and of function objects with their
    [prototype], [var] declarations of globals, and the [||] idiom
    ([or_init], [global_or_init]), iterated along a path of property
    names ([ensure_path]).

    The lemmas describe the store abstractly: [slot] reads a property,
    [path_at] follows a path of objects, [keeps K h h'] says that [h']
    keeps every object of [h], its code, and each property whose name is
    not in [K]; [path_ok] is the condition under which [ensure_path]
    ends on an object ([ensure_path_spec]).

    Not repository code: an abstraction of the object model.  Not
    modelled: accessors, inherited properties (no name the bundle reads
    is inherited from a prototype), functions of the host (a cell without
    code is not callable). *)

From S2P Require Import Prelude JsNumber JsValue Dom.

Inductive rval (N : Type) :=
  | RUndefined
  | RNull
  | RBool (b : bool)
  | RNum (n : N)
  | RStr (s : string)
  | RObj (l : loc).
Arguments RUndefined {N}.
Arguments RNull {N}.
Arguments RBool {N} b.
Arguments RNum {N} n.
Arguments RStr {N} s.
Arguments RObj {N} l.

Record cell (C N : Type) := {
  props : gmap string (rval N);
  code : option C
}.
Arguments props {C N} _.
Arguments code {C N} _.

Record realm (C N : Type) := {
  heap : gmap loc (cell C N);
  globals : gmap string (rval N)
}.
Arguments heap {C N} _.
Arguments globals {C N} _.

Section Store.
Context {C N : Type} `{JsNumber N}.
Notation store := (gmap loc (cell C N)) (only parsing).

(** ToBoolean. *)
Definition r_truthy (v : rval N) : bool :=
  match v with
  | RUndefined | RNull => false
  | RBool b => b
  | RNum n => js_truthy (JNum n)
  | RStr s => js_truthy (JStr s)
  | RObj _ => true
  end.

(** The own property [k] of the object at [l]. *)
Definition slot (h : store) (l : loc) (k : string) : option (rval N) :=
  h !! l ≫= fun c => props c !! k.

(** The code of the object at [l]: [Some] for a function object. *)
Definition code_of (h : store) (l : loc) : option C :=
  h !! l ≫= code.

(** [v[k]]. *)
Definition get_prop (h : store) (v : rval N) (k : string) : completion (rval N) :=
  match v with
  | RUndefined | RNull => Throw TypeError
  | RObj l => Normal (default RUndefined (slot h l k))
  | _ => Normal RUndefined
  end.

Definition cell_set (k : string) (x : rval N) (c : cell C N) : cell C N :=
  {| props := <[k := x]> (props c); code := code c |}.

(** [v[k] = x]. *)
Definition set_prop (h : store) (v : rval N) (k : string) (x : rval N) : completion store :=
  match v with
  | RUndefined | RNull => Throw TypeError
  | RObj l => Normal (alter (cell_set k x) l h)
  | _ => Normal h
  end.

Definition alloc (c : cell C N) (h : store) : loc * store :=
  let l := fresh (dom h) in (l, <[l := c]> h).

(** [{}]. *)
Definition new_object (h : store) : loc * store :=
  alloc {| props := ∅; code := None |} h.

(** A [function] declaration or expression: the function object, then
    its [prototype] object whose [constructor] is the function. *)
Definition new_function (f : C) (h : store) : loc * store :=
  let '(fl, h) := alloc {| props := ∅; code := Some f |} h in
  let '(pl, h) := alloc {| props := {[ "constructor" := RObj fl ]}; code := None |} h in
  (fl, alter (cell_set "prototype" (RObj pl)) fl h).

(** [p.k || (p.k = {})]. *)
Definition or_init (h : store) (p : rval N) (k : string) : completion (rval N * store) :=
  x ← get_prop h p k;
  if r_truthy x then mret (x, h)
  else
    let '(l, h) := new_object h in
    h ← set_prop h p k (RObj l);
    mret (RObj l, h).

(** The chain of [||] idioms of nested namespaces [p.k1.k2...]. *)
Fixpoint ensure_path (h : store) (p : rval N) (ks : list string)
    : completion (rval N * store) :=
  match ks with
  | [] => mret (p, h)
  | k :: ks => '(x, h) ← or_init h p k; ensure_path h x ks
  end.

(** The expression [p.k1.k2...]. *)
Fixpoint read_path (h : store) (p : rval N) (ks : list string) : completion (rval N) :=
  match ks with
  | [] => mret p
  | k :: ks => x ← get_prop h p k; read_path h x ks
  end.

(** [var x;] at the top of a script: the global keeps its value when it
    exists. *)
Definition declare_var (x : string) (r : realm C N) : realm C N :=
  match globals r !! x with
  | Some _ => r
  | None => {| heap := heap r; globals := <[x := RUndefined]> (globals r) |}
  end.

(** [x || (x = {})] on a global variable. *)
Definition global_or_init (x : string) (r : realm C N) : rval N * realm C N :=
  let v := default RUndefined (globals r !! x) in
  if r_truthy v then (v, r)
  else
    let '(l, h) := new_object (heap r) in
    (RObj l, {| heap := h; globals := <[x := RObj l]> (globals r) |}).
End Store.

(** ** The store, abstractly *)

Section Abstract.
Context {C N : Type} `{JsNumber N}.
Notation store := (gmap loc (cell C N)) (only parsing).

(** The object reached from [l] along a path of properties that all hold
    objects. *)
Fixpoint path_at (h : store) (l : loc) (ks : list string) : option loc :=
  match ks with
  | [] => Some l
  | k :: ks => match slot h l k with Some (RObj l') => path_at h l' ks | _ => None end
  end.

(** The condition for [ensure_path] to end on an object: along the part
    of the path that exists, every property is an object or falsy (a
    falsy one is replaced by a fresh object). *)
Fixpoint path_ok (h : store) (l : loc) (ks : list string) : bool :=
  match ks with
  | [] => true
  | k :: ks =>
      match slot h l k with
      | Some (RObj l') => path_ok h l' ks
      | Some x => negb (r_truthy x)
      | None => true
      end
  end.

(** Every property of every object that holds an object names an
    allocated one. *)
Definition heap_wf (h : store) : Prop :=
  forall l k l', slot h l k = Some (RObj l') -> is_Some (h !! l').

Definition val_wf (h : store) (v : rval N) : Prop :=
  forall l, v = RObj l -> is_Some (h !! l).

Definition realm_wf (r : realm C N) : Prop :=
  heap_wf (heap r) /\ forall x v, globals r !! x = Some v -> val_wf (heap r) v.

(** [h'] keeps every object of [h] with its code and every property
    whose name is not in [K]. *)
Definition keeps (K : list string) (h h' : store) : Prop :=
  forall l, is_Some (h !! l) ->
    is_Some (h' !! l) /\ code_of h' l = code_of h l /\
    forall k, k ∉ K -> slot h' l k = slot h l k.
End Abstract.

(** ** Reading and writing *)

Section StoreLemmas.
Context {C N : Type} `{JsNumber N}.
Notation store := (gmap loc (cell C N)) (only parsing).
Implicit Types (h : store) (l : loc) (k : string) (x : rval N).

Lemma slot_set_eq h l k x :
  is_Some (h !! l) -> slot (alter (cell_set k x) l h) l k = Some x.
Proof.
  intros [c Hc]. unfold slot. rewrite lookup_alter_eq, Hc. simpl.
  apply lookup_insert_eq.
Qed.

Lemma slot_set_ne h l k x l' k' :
  l' <> l \/ k' <> k -> slot (alter (cell_set k x) l h) l' k' = slot h l' k'.
Proof.
  intros Hd. unfold slot. destruct (decide (l' = l)) as [->|Hl].
  - rewrite lookup_alter_eq. destruct (h !! l); simpl; [|done].
    rewrite lookup_insert_ne; [done|]. destruct Hd; congruence.
  - by rewrite lookup_alter_ne by congruence.
Qed.

Lemma code_of_set h l k x l' : code_of (alter (cell_set k x) l h) l' = code_of h l'.
Proof.
  unfold code_of. destruct (decide (l' = l)) as [->|Hl].
  - rewrite lookup_alter_eq. by destruct (h !! l).
  - by rewrite lookup_alter_ne by congruence.
Qed.

Lemma alloc_fresh (c : cell C N) h : h !! (alloc c h).1 = None.
Proof. apply not_elem_of_dom_1, is_fresh. Qed.

Lemma alloc_lookup (c : cell C N) h : (alloc c h).2 !! (alloc c h).1 = Some c.
Proof. apply lookup_insert_eq. Qed.

Lemma alloc_old (c : cell C N) h l : is_Some (h !! l) -> (alloc c h).2 !! l = h !! l.
Proof.
  intros Hl. apply lookup_insert_ne. intros Heq.
  pose proof (alloc_fresh c h) as F. simpl in F. rewrite Heq in F.
  destruct Hl; congruence.
Qed.

Lemma slot_alloc_old (c : cell C N) h l k : is_Some (h !! l) -> slot (alloc c h).2 l k = slot h l k.
Proof. intros Hl. unfold slot. by rewrite alloc_old. Qed.

(** ** Frames *)

Lemma keeps_refl K h : keeps K h h.
Proof. intros l Hl. by split_and!. Qed.

Lemma keeps_trans K1 K2 h1 h2 h3 :
  keeps K1 h1 h2 -> keeps K2 h2 h3 -> keeps (K1 ++ K2) h1 h3.
Proof.
  intros H12 H23 l Hl. destruct (H12 l Hl) as (Hl2 & Hc2 & Hs2).
  destruct (H23 l Hl2) as (Hl3 & Hc3 & Hs3). split_and!; [done|congruence|].
  intros k Hk. rewrite Hs3, Hs2; [done|..]; set_solver.
Qed.

Lemma keeps_weaken K K' h h' : K ⊆ K' -> keeps K h h' -> keeps K' h h'.
Proof.
  intros HK Hh l Hl. destruct (Hh l Hl) as (? & ? & Hs). split_and!; [done..|].
  intros k Hk. apply Hs. set_solver.
Qed.

Lemma keeps_set h l k x : keeps [k] h (alter (cell_set k x) l h).
Proof.
  intros l' Hl'. split_and!.
  - by apply lookup_alter_is_Some.
  - apply code_of_set.
  - intros k' Hk'. apply slot_set_ne. right. set_solver.
Qed.

Lemma keeps_alloc (c : cell C N) h : keeps [] h (alloc c h).2.
Proof.
  intros l Hl. split_and!.
  - by rewrite alloc_old.
  - unfold code_of. by rewrite alloc_old.
  - intros k _. by apply slot_alloc_old.
Qed.

Lemma keeps_is_Some K h h' l : keeps K h h' -> is_Some (h !! l) -> is_Some (h' !! l).
Proof. intros Hh Hl. apply (Hh l Hl). Qed.

Lemma keeps_slot K h h' l k :
  keeps K h h' -> is_Some (h !! l) -> k ∉ K -> slot h' l k = slot h l k.
Proof. intros Hh Hl. apply (Hh l Hl). Qed.

Lemma keeps_code K h h' l : keeps K h h' -> is_Some (h !! l) -> code_of h' l = code_of h l.
Proof. intros Hh Hl. apply (Hh l Hl). Qed.

Lemma val_wf_keeps K h h' v : keeps K h h' -> val_wf h v -> val_wf h' v.
Proof. intros Hh Hv l ->. eapply keeps_is_Some; eauto. Qed.

(** ** Well-formedness *)

Lemma heap_wf_set h l k x : heap_wf h -> val_wf h x -> heap_wf (alter (cell_set k x) l h).
Proof.
  intros Hwf Hx l1 k1 l' Hs. apply lookup_alter_is_Some.
  destruct (decide (l1 = l /\ k1 = k)) as [[-> ->]|Hne].
  - destruct (h !! l) as [c|] eqn:E.
    + rewrite slot_set_eq in Hs by eauto. injection Hs as Hxl. subst x. by apply Hx.
    + unfold slot in Hs. by rewrite lookup_alter_eq, E in Hs.
  - rewrite slot_set_ne in Hs by (destruct (decide (l1 = l)); naive_solver).
    by apply (Hwf l1 k1).
Qed.

Lemma heap_wf_alloc (c : cell C N) h :
  heap_wf h -> (forall k l', props c !! k = Some (RObj l') -> is_Some ((alloc c h).2 !! l')) ->
  heap_wf (alloc c h).2.
Proof.
  intros Hwf Hc l k l' Hs. destruct (decide (l = (alloc c h).1)) as [->|Hne].
  - unfold slot in Hs. rewrite alloc_lookup in Hs. by apply (Hc k).
  - unfold slot in Hs. simpl in Hs, Hne. rewrite lookup_insert_ne in Hs by congruence.
    apply (keeps_is_Some [] h); [apply keeps_alloc|]. by apply (Hwf l k).
Qed.
Lemma code_of_is_Some h l (c : C) : code_of h l = Some c -> is_Some (h !! l).
Proof. unfold code_of. destruct (h !! l); [by eexists|done]. Qed.

Lemma keeps_alter_fresh K h h1 l k x :
  keeps K h h1 -> h !! l = None -> keeps K h (alter (cell_set k x) l h1).
Proof.
  intros Hk Hl l' Hl'. assert (l' <> l) by (intros ->; destruct Hl'; congruence).
  destruct (Hk l' Hl') as (Hs & Hc & Hsl). split_and!.
  - by apply lookup_alter_is_Some.
  - by rewrite code_of_set.
  - intros k' Hk'. rewrite slot_set_ne by auto. by apply Hsl.
Qed.

Lemma keeps_unchanged_after K h h1 h2 :
  keeps K h h1 -> (forall l, is_Some (h !! l) -> h2 !! l = h1 !! l) -> keeps K h h2.
Proof.
  intros Hk Hu l Hl. destruct (Hk l Hl) as (Hs & Hc & Hsl).
  unfold code_of, slot in *. rewrite !Hu by done. split_and!; [done|done|].
  intros k' Hk'. by apply Hsl.
Qed.

Lemma keeps_unchanged K h h' : (forall l, is_Some (h !! l) -> h' !! l = h !! l) -> keeps K h h'.
Proof. intros Hu l Hl. unfold code_of, slot. rewrite !Hu by done. by split_and!. Qed.

Lemma new_object_spec h l h' :
  heap_wf h -> new_object h = (l, h') ->
  h !! l = None /\ h' !! l = Some {| props := ∅; code := None |} /\ heap_wf h' /\ keeps [] h h'.
Proof.
  intros Hwf Heq. set (c0 := {| props := ∅; code := None |} : cell C N).
  assert (l = (alloc c0 h).1 /\ h' = (alloc c0 h).2) as [-> ->]
    by (unfold new_object in Heq; fold c0 in Heq; by rewrite Heq).
  split_and!; [apply alloc_fresh|apply alloc_lookup| |apply keeps_alloc].
  apply heap_wf_alloc; [done|]. intros k l' Hk. simpl in Hk. by rewrite lookup_empty in Hk.
Qed.

(** A new function object is fresh, has its code, and its [prototype]
    is a fresh object. *)
Lemma new_function_spec (f : C) h fl h' :
  heap_wf h -> new_function f h = (fl, h') ->
  h !! fl = None /\ heap_wf h' /\ keeps [] h h' /\ code_of h' fl = Some f /\
  exists pl, slot h' fl "prototype" = Some (RObj pl) /\ h !! pl = None /\ is_Some (h' !! pl).
Proof.
  intros Hwf Heq.
  set (c1 := {| props := ∅; code := Some f |} : cell C N).
  set (l1 := (alloc c1 h).1). set (h1 := (alloc c1 h).2).
  set (c2 := {| props := {[ "constructor" := RObj l1 ]}; code := None |} : cell C N).
  set (l2 := (alloc c2 h1).1). set (h2 := (alloc c2 h1).2).
  assert (new_function f h = (l1, alter (cell_set "prototype" (RObj l2)) l1 h2)) as Hnf
    by reflexivity.
  rewrite Hnf in Heq. injection Heq as <- <-.
  assert (h !! l1 = None) as F1 by apply alloc_fresh.
  assert (h1 !! l1 = Some c1) as L1 by apply alloc_lookup.
  assert (h1 !! l2 = None) as F2 by apply alloc_fresh.
  assert (h2 !! l2 = Some c2) as L2 by apply alloc_lookup.
  assert (l1 <> l2) as Hne by congruence.
  assert (h2 !! l1 = Some c1) as L1' by (unfold h2; rewrite (alloc_old c2 h1 l1); [done|by eexists]).
  assert (keeps [] h h2) as K2 by (apply (keeps_trans [] [] h h1 h2); apply keeps_alloc).
  assert (heap_wf h2) as W2.
  { apply heap_wf_alloc.
    - apply heap_wf_alloc; [done|]. intros k l' Hk. simpl in Hk. by rewrite lookup_empty in Hk.
    - intros k l' Hk. simpl in Hk. apply lookup_singleton_Some in Hk as [_ [= <-]]. by eexists. }
  split_and!.
  - done.
  - apply heap_wf_set; [done|]. intros l' [= <-]. by eexists.
  - by apply keeps_alter_fresh.
  - rewrite code_of_set. unfold code_of. by rewrite L1'.
  - exists l2. split_and!.
    + apply slot_set_eq. by eexists.
    + destruct (h !! l2) eqn:E; [|done].
      pose proof (alloc_old c1 h l2 ltac:(by eexists)) as E'. fold h1 in E'. congruence.
    + apply lookup_alter_is_Some. by eexists.
Qed.
End StoreLemmas.

(** ** Paths *)

Section Paths.
Context {C N : Type} `{JsNumber N}.
Notation store := (gmap loc (cell C N)) (only parsing).
Implicit Types (h : store) (l : loc) (k : string) (ks : list string).

Lemma path_at_keeps K ks h h' l :
  heap_wf h -> keeps K h h' -> (forall k, k ∈ ks -> k ∉ K) -> is_Some (h !! l) ->
  path_at h' l ks = path_at h l ks.
Proof.
  intros Hwf Hh. revert l. induction ks as [|k ks IH]; intros l HK Hl; simpl in *; [done|].
  rewrite (keeps_slot K h h' l k Hh Hl) by set_solver.
  destruct (slot h l k) as [[| | | | |l1]|] eqn:Hs; try done.
  apply IH; [set_solver|by eapply Hwf].
Qed.

Lemma path_ok_keeps K ks h h' l :
  heap_wf h -> keeps K h h' -> (forall k, k ∈ ks -> k ∉ K) -> is_Some (h !! l) ->
  path_ok h l ks = true -> path_ok h' l ks = true.
Proof.
  intros Hwf Hh. revert l. induction ks as [|k ks IH]; intros l HK Hl Hp; simpl in *; [done|].
  rewrite (keeps_slot K h h' l k Hh Hl) by set_solver.
  destruct (slot h l k) as [[| | | | |l1]|] eqn:Hs; try done.
  apply IH; [set_solver|by eapply Hwf|done].
Qed.

Lemma path_at_is_Some ks h l l' :
  heap_wf h -> is_Some (h !! l) -> path_at h l ks = Some l' -> is_Some (h !! l').
Proof.
  intros Hwf. revert l. induction ks as [|k ks IH]; intros l Hl Hp; simpl in *.
  - by injection Hp as <-.
  - destruct (slot h l k) as [[| | | | |l1]|] eqn:Hs; try done.
    apply (IH l1); [by eapply Hwf|done].
Qed.

Lemma path_ok_empty ks h l :
  h !! l = Some {| props := ∅; code := None |} -> path_ok h l ks = true.
Proof. intros Hl. destruct ks; simpl; [done|]. unfold slot. by rewrite Hl. Qed.

Lemma read_path_at ks h l l' :
  path_at h l ks = Some l' -> read_path h (RObj l) ks = Normal (RObj l').
Proof.
  revert l. induction ks as [|k ks IH]; intros l Hp; simpl in *; [by injection Hp as ->|].
  destruct (slot h l k) as [[| | | | |l1]|]; try done. by apply IH.
Qed.

(** Along a path of objects, the [||] idioms only read. *)
Lemma ensure_path_at ks h l l' :
  path_at h l ks = Some l' -> ensure_path h (RObj l) ks = Normal (RObj l', h).
Proof.
  revert l. induction ks as [|k ks IH]; intros l Hp; simpl in *; [by injection Hp as ->|].
  unfold or_init. simpl.
  destruct (slot h l k) as [[| | | | |l1]|]; try done. by apply IH.
Qed.

Lemma path_ok_one h l k :
  path_ok h l [k] = true ->
  (exists l1, slot h l k = Some (RObj l1)) \/ r_truthy (default RUndefined (slot h l k)) = false.
Proof.
  simpl. destruct (slot h l k) as [[| | | | |l1]|]; simpl; intros Hok;
    first [by left; eexists | by right; apply negb_true_iff].
Qed.

(** One [||] idiom on an allocated object whose property is an object or
    falsy ends on an object, which is the old one or a fresh empty one. *)
Lemma or_init_spec h l k :
  heap_wf h -> is_Some (h !! l) -> path_ok h l [k] = true ->
  exists l' h', or_init h (RObj l) k = Normal (RObj l', h') /\ heap_wf h' /\
    keeps [k] h h' /\ slot h' l k = Some (RObj l') /\
    ((slot h l k = Some (RObj l') /\ h' = h) \/
     (h !! l' = None /\ h' !! l' = Some {| props := ∅; code := None |})).
Proof.
  intros Hwf Hl Hok. unfold or_init. simpl.
  destruct (path_ok_one h l k Hok) as [[l1 Hs]|Ht].
  - rewrite Hs. exists l1, h. split_and!; [done..|apply keeps_refl|done|by left].
  - rewrite Ht.
    set (c0 := {| props := ∅; code := None |} : cell C N).
    set (l1 := (alloc c0 h).1). set (h1 := (alloc c0 h).2).
    assert (h !! l1 = None) as Hf by apply alloc_fresh.
    assert (l <> l1) as Hne by (intros ->; destruct Hl; congruence).
    exists l1, (alter (cell_set k (RObj l1)) l h1). split_and!.
    + done.
    + apply heap_wf_set.
      * apply heap_wf_alloc; [done|]. intros k' l' Hk'. unfold c0 in Hk'. simpl in Hk'. by rewrite lookup_empty in Hk'.
      * intros l' [= <-]. eexists. apply alloc_lookup.
    + apply (keeps_trans [] [k] h h1); [apply keeps_alloc|apply keeps_set].
    + apply slot_set_eq. apply (keeps_is_Some [] h); [apply keeps_alloc|done].
    + right. split; [done|]. rewrite lookup_alter_ne by done. apply alloc_lookup.
Qed.

(** The chain of [||] idioms along a path without repeated names, where
    every existing property is an object or falsy, ends on an object
    reached by that path afterwards, which is the object the path reached
    before or a fresh one; it writes no other property name. *)
Lemma ensure_path_spec ks h l :
  heap_wf h -> is_Some (h !! l) -> NoDup ks -> path_ok h l ks = true ->
  exists l' h', ensure_path h (RObj l) ks = Normal (RObj l', h') /\ heap_wf h' /\
    keeps ks h h' /\ path_at h' l ks = Some l' /\
    (path_at h l ks = Some l' \/
     (h !! l' = None /\ h' !! l' = Some {| props := ∅; code := None |})).
Proof.
  revert h l. induction ks as [|k ks IH]; intros h l Hwf Hl Hnd Hok.
  - exists l, h. split_and!; [done|done|apply keeps_refl|done|by left].
  - apply NoDup_cons in Hnd as [Hk Hnd].
    assert (path_ok h l [k] = true) as Hok1.
    { simpl in *. by destruct (slot h l k) as [[]|]. }
    destruct (or_init_spec h l k Hwf Hl Hok1) as (l1 & h1 & Hor & Hwf1 & Hk1 & Hs1 & Hold).
    assert (is_Some (h1 !! l1)) as Hl1 by (by eapply Hwf1).
    assert (path_ok h1 l1 ks = true) as Hok2.
    { destruct Hold as [[Hs ->]|[_ He]]; [|by apply path_ok_empty].
      simpl in Hok. by rewrite Hs in Hok. }
    destruct (IH h1 l1 Hwf1 Hl1 Hnd Hok2) as (l' & h' & Hens & Hwf' & Hk' & Hp' & Hnew).
    exists l', h'. split_and!.
    + simpl. by rewrite Hor.
    + done.
    + by apply (keeps_trans [k] ks h h1 h').
    + simpl. rewrite (keeps_slot ks h1 h' l k Hk') by (try apply (keeps_is_Some [k] h); done).
      by rewrite Hs1.
    + destruct Hold as [[Hs ->]|[Hf He]].
      * simpl. rewrite Hs. done.
      * right. destruct Hnew as [Hp|[Hn He']].
        -- destruct ks as [|k' ks]; simpl in Hp.
           ++ injection Hp as <-. simpl in Hens. injection Hens as <-. done.
           ++ unfold slot in Hp. by rewrite He in Hp.
        -- split; [|done]. destruct (h !! l') eqn:E; [|done].
           destruct (keeps_is_Some [k] h h1 l' Hk1 ltac:(by eexists)); congruence.
Qed.

Lemma path_at_one h l k l' : path_at h l [k] = Some l' <-> slot h l k = Some (RObj l').
Proof. simpl. destruct (slot h l k) as [[| | | | |l1]|]; naive_solver. Qed.

Lemma path_at_ok h l ks l' : path_at h l ks = Some l' -> path_ok h l ks = true.
Proof.
  revert l. induction ks as [|k ks IH]; intros l; simpl; [done|].
  destruct (slot h l k) as [[| | | | |l1]|]; [done..|apply IH|done].
Qed.

Lemma path_at_app ks1 ks2 h l :
  path_at h l (ks1 ++ ks2) = path_at h l ks1 ≫= fun l' => path_at h l' ks2.
Proof.
  revert l. induction ks1 as [|k ks1 IH]; intros l; simpl; [done|].
  by destruct (slot h l k) as [[| | | | |l1]|].
Qed.

Lemma path_ok_app ks1 ks2 h l l' :
  path_at h l ks1 = Some l' -> path_ok h l (ks1 ++ ks2) = path_ok h l' ks2.
Proof.
  revert l. induction ks1 as [|k ks1 IH]; intros l Hp; simpl in *; [by injection Hp as ->|].
  destruct (slot h l k) as [[| | | | |l1]|]; try done; by apply IH.
Qed.

Lemma path_ok_prefix ks1 ks2 h l :
  heap_wf h -> is_Some (h !! l) -> path_ok h l (ks1 ++ ks2) = true -> path_ok h l ks1 = true.
Proof.
  intros Hwf. revert l. induction ks1 as [|k ks1 IH]; intros l Hl Hp; simpl in *; [done|].
  destruct (slot h l k) as [[| | | | |l1]|] eqn:Hs; try done. apply IH; [by eapply Hwf|done].
Qed.

Lemma ensure_path_app ks1 ks2 h p :
  ensure_path h p (ks1 ++ ks2) = '(x, h) ← ensure_path h p ks1; ensure_path h x ks2.
Proof.
  revert h p. induction ks1 as [|k ks1 IH]; intros h p; simpl; [done|].
  destruct (or_init h p k) as [[x h1]|e]; simpl; [apply IH|done].
Qed.
End Paths.

(** ** Global variables *)

Section Globals.
Context {C N : Type} `{JsNumber N}.
Implicit Types (r : realm C N) (x : string).

(** The global [x] holds an object or a falsy value, so that
    [x || (x = {})] ends on an object. *)
Definition global_ok r x : bool :=
  match default RUndefined (globals r !! x) with
  | RObj _ => true
  | v => negb (r_truthy v)
  end.

Lemma declare_var_heap r x : heap (declare_var x r) = heap r.
Proof. unfold declare_var. by destruct (globals r !! x). Qed.

Lemma declare_var_value r x y :
  default RUndefined (globals (declare_var x r) !! y) = default RUndefined (globals r !! y).
Proof.
  unfold declare_var. destruct (globals r !! x) eqn:E; [done|]. simpl.
  destruct (decide (y = x)) as [->|Hne]; [by rewrite lookup_insert_eq, E|].
  by rewrite lookup_insert_ne by congruence.
Qed.

Lemma declare_var_wf r x : realm_wf r -> realm_wf (declare_var x r).
Proof.
  intros [Hh Hg]. unfold declare_var. destruct (globals r !! x) eqn:E; [done|].
  split; [done|]. intros y v Hy. simpl in Hy.
  destruct (decide (y = x)) as [->|Hne].
  - rewrite lookup_insert_eq in Hy. by injection Hy as <-.
  - rewrite lookup_insert_ne in Hy by congruence. by apply (Hg y).
Qed.

Lemma declare_var_other r x y : y <> x -> globals (declare_var x r) !! y = globals r !! y.
Proof.
  intros Hne. unfold declare_var. destruct (globals r !! x); [done|].
  simpl. by rewrite lookup_insert_ne by congruence.
Qed.

Lemma global_ok_declare r x : global_ok (declare_var x r) x = global_ok r x.
Proof. unfold global_ok. by rewrite declare_var_value. Qed.

(** [x || (x = {})] on a global holding an object or a falsy value ends
    on an object: the old one, or a fresh one then stored in [x]. *)
Lemma global_or_init_spec r x :
  realm_wf r -> global_ok r x = true ->
  exists p r', global_or_init x r = (RObj p, r') /\ realm_wf r' /\
    keeps [] (heap r) (heap r') /\
    default RUndefined (globals r' !! x) = RObj p /\
    (forall y, y <> x -> globals r' !! y = globals r !! y) /\
    ((default RUndefined (globals r !! x) = RObj p /\ r' = r) \/
     (heap r !! p = None /\ heap r' !! p = Some {| props := ∅; code := None |})).
Proof.
  intros [Hh Hg] Hok. unfold global_ok, global_or_init in *.
  destruct (default RUndefined (globals r !! x)) as [| | | | |p] eqn:E; simpl in Hok |- *;
    rewrite ?Hok.
  all: try (exists p, r; split_and!; [done|by split|apply keeps_refl|done|done|by left]).
  all: try (apply negb_true_iff in Hok; rewrite Hok).
  all: set (c0 := {| props := ∅; code := None |} : cell C N).
  all: exists (alloc c0 (heap r)).1,
    {| heap := (alloc c0 (heap r)).2; globals := <[x := RObj (alloc c0 (heap r)).1]> (globals r) |}.
  all: split_and!; [done| |apply keeps_alloc|simpl; by rewrite lookup_insert_eq
                   |intros y Hy; simpl; by rewrite lookup_insert_ne by congruence
                   |right; split; [apply alloc_fresh|apply alloc_lookup]].
  all: split; simpl; [apply heap_wf_alloc; [done|]; intros k l' Hk; unfold c0 in Hk; simpl in Hk;
                      by rewrite lookup_empty in Hk|].
  all: intros y v Hy; destruct (decide (y = x)) as [->|Hne];
         [rewrite lookup_insert_eq in Hy; injection Hy as <-; intros l [= <-]; eexists;
          apply alloc_lookup
         |rewrite lookup_insert_ne in Hy by congruence;
          apply (val_wf_keeps [] (heap r)); [apply keeps_alloc|by apply (Hg y)]].
Qed.
End Globals.

(** ** Deciding well-formedness *)

Section Decide.
Context {C N : Type} `{JsNumber N}.
Notation store := (gmap loc (cell C N)) (only parsing).

#[export] Instance val_wf_dec (h : store) (v : rval N) : Decision (val_wf h v).
Proof.
  destruct v as [| | | | |l]; try (left; by intros ? ?).
  destruct (h !! l) eqn:E.
  - left. intros ? [= <-]. by eexists.
  - right. intros Hv. destruct (Hv l eq_refl); congruence.
Defined.

Lemma heap_wf_alt (h : store) :
  heap_wf h <-> map_Forall (fun _ c => map_Forall (fun _ v => val_wf h v) (props c)) h.
Proof.
  split.
  - intros Hwf l c Hc k v Hv l' ->. apply (Hwf l k l'). unfold slot. by rewrite Hc.
  - intros Hf l k l' Hs. unfold slot in Hs. destruct (h !! l) as [c|] eqn:E; [|done].
    exact (Hf l c E k (RObj l') Hs l' eq_refl).
Qed.

#[export] Instance heap_wf_dec (h : store) : Decision (heap_wf h).
Proof.
  refine (cast_if (decide (map_Forall (fun _ c => map_Forall (fun _ v => val_wf h v) (props c)) h)));
    by rewrite heap_wf_alt.
Defined.

#[export] Instance realm_wf_dec (r : realm C N) : Decision (realm_wf r).
Proof.
  refine (cast_if (decide (heap_wf (heap r) /\ map_Forall (fun _ v => val_wf (heap r) v) (globals r))));
    done.
Defined.
End Decide.
