(* ===== verification/HostApi.v ===== *)
(** * The host's side of the plugin contract

    The host (Power BI) owns the visual's lifecycle.  This file holds what
    the host hands to the adapter (the option records of the visuals API:
    data views with their metadata and script result, the viewport, the
    mount element, the enumeration request), the contract [IVisual] the
    adapter implements (§9: construct / update / resize / enumerate), the
    laws [IVisualLaws] of that contract the host relies on, and the host's
    runs: sequences of lifecycle events.

    The client theorem [host_enumerate_last_update] is proved against the
    interface alone: after any run, the property pane shows what the last
    accepted update alone would have produced.  [Visual] discharges the
    laws for the adapter. *)

From S2P Require Import Prelude JsNumber JsValue Settings Dom.
From Stdlib Require Import Morphisms RelationClasses.

(** ** The option records of the visuals API *)

Record IViewport (N : Type) := { height : N; width : N }.
Arguments height {N} _.
Arguments width {N} _.

(** [metadata.objects] may be absent: it is then [JUndefined]. *)
Record DataViewMetadata (N : Type) := { objects : jsval N }.
Arguments objects {N} _.

Record DataViewScriptResult (N : Type) := { payloadBase64 : jsval N }.
Arguments payloadBase64 {N} _.

(** A missing or [null] member is [None]. *)
Record DataView (N : Type) := {
  metadata : option (DataViewMetadata N);
  scriptResult : option (DataViewScriptResult N)
}.
Arguments metadata {N} _.
Arguments scriptResult {N} _.

(** [dataViews] may be absent or [null] ([None]), and its entries may be
    [null] ([None]). *)
Record VisualUpdateOptions (N : Type) := {
  dataViews : option (list (option (DataView N)));
  viewport : IViewport N
}.
Arguments dataViews {N} _.
Arguments viewport {N} _.

Record VisualConstructorOptions := { element : loc }.

Record EnumerateVisualObjectInstancesOptions := { enum_objectName : string }.

(** The data view an update is about, as §4.1 states the guard of
    [update]: the first data view of a non-empty list, when it is not
    [null]; the update goes ahead when it has metadata. *)
Definition first_dataView {N : Type} (o : VisualUpdateOptions N) : option (DataView N) :=
  match dataViews o with
  | Some (Some dv :: _) => Some dv
  | _ => None
  end.

Definition accepted_metadata {N : Type} (o : VisualUpdateOptions N) : option (DataViewMetadata N) :=
  match first_dataView o with Some dv => metadata dv | None => None end.

(** ** The contract *)

Class IVisual (S N : Type) := {
  iv_update : VisualUpdateOptions N -> S -> completion S;
  iv_onResizing : IViewport N -> S -> S;
  iv_enumerate : S -> EnumerateVisualObjectInstancesOptions -> list (VisualObjectInstance N)
}.

(** What the host relies on: updates do not throw; an update the guard
    rejects changes nothing; an accepted update replaces the settings
    wholesale, so what is enumerated after it does not depend on the
    state before it; a resize does not change what is enumerated. *)
Class IVisualLaws (S N : Type) `{IVisual S N} := {
  iv_update_total o s : exists s', iv_update o s = Normal s';
  iv_update_reject o s : accepted_metadata o = None -> iv_update o s = Normal s;
  iv_update_wholesale o s1 s2 s1' s2' :
    accepted_metadata o <> None -> iv_update o s1 = Normal s1' -> iv_update o s2 = Normal s2' ->
    iv_enumerate s1' = iv_enumerate s2';
  iv_resize_enumerate vp s : iv_enumerate (iv_onResizing vp s) = iv_enumerate s
}.

(** ** Host runs *)

Inductive host_event (N : Type) :=
  | EvUpdate (o : VisualUpdateOptions N)
  | EvResize (vp : IViewport N)
  | EvEnumerate (opts : EnumerateVisualObjectInstancesOptions).
Arguments EvUpdate {N} o.
Arguments EvResize {N} vp.
Arguments EvEnumerate {N} opts.

Section Runs.
Context {S N : Type} `{IVisual S N}.

(** The host calls the lifecycle operations one at a time (§5); an
    enumeration reads the state. *)
Fixpoint run_trace (tr : list (host_event N)) (s : S) : completion S :=
  match tr with
  | [] => Normal s
  | EvUpdate o :: tr' => s' ← iv_update o s; run_trace tr' s'
  | EvResize vp :: tr' => run_trace tr' (iv_onResizing vp s)
  | EvEnumerate _ :: tr' => run_trace tr' s
  end.

(** The last update of a run that its guard accepts. *)
Fixpoint last_accepted (tr : list (host_event N)) : option (VisualUpdateOptions N) :=
  match tr with
  | [] => None
  | EvUpdate o :: tr' =>
      match last_accepted tr' with
      | Some o' => Some o'
      | None => match accepted_metadata o with Some _ => Some o | None => None end
      end
  | _ :: tr' => last_accepted tr'
  end.

(** The last event of a run that sets the size of the visual: a resize,
    or an update its guard accepts (which resizes to its viewport). *)
Fixpoint last_viewport (tr : list (host_event N)) : option (IViewport N) :=
  match tr with
  | [] => None
  | ev :: tr' =>
      match last_viewport tr' with
      | Some vp => Some vp
      | None =>
          match ev with
          | EvUpdate o => match accepted_metadata o with Some _ => Some (viewport o) | None => None end
          | EvResize vp => Some vp
          | EvEnumerate _ => None
          end
      end
  end.

Lemma last_accepted_accepted (tr : list (host_event N)) o :
  last_accepted tr = Some o -> is_Some (accepted_metadata o).
Proof.
  induction tr as [|[o'|vp|e] tr IH]; simpl; try done.
  destruct (last_accepted tr); [by apply IH|].
  destruct (accepted_metadata o') eqn:?; intros; simplify_eq; eauto.
Qed.

(** Two states the property pane cannot tell apart. *)
Definition pane_equiv (s1 s2 : S) : Prop :=
  forall opts, iv_enumerate s1 opts = iv_enumerate s2 opts.

#[export] Instance pane_equiv_equivalence : Equivalence pane_equiv.
Proof. split; repeat intro; congruence. Qed.
End Runs.

Section Client.
Context {S N : Type} `{IVisualLaws S N}.

#[export] Instance iv_onResizing_proper vp : Proper (pane_equiv ==> pane_equiv) (iv_onResizing vp).
Proof. intros s1 s2 Hs opts. by rewrite !iv_resize_enumerate. Qed.

Lemma iv_update_reject_eq o s s' :
  accepted_metadata o = None -> iv_update o s = Normal s' -> s' = s.
Proof. intros Hr Hu. rewrite iv_update_reject in Hu by done. by injection Hu. Qed.

(** After any run, the property pane shows what the last accepted update
    alone produces from any state, and what it showed before the run when
    no update was accepted. *)
Lemma host_enumerate_last_update (tr : list (host_event N)) (s s' : S) :
  run_trace tr s = Normal s' ->
  match last_accepted tr with
  | None => pane_equiv s' s
  | Some o => forall s0 s0', iv_update o s0 = Normal s0' -> pane_equiv s' s0'
  end.
Proof.
  revert s. induction tr as [|[o|vp|opts] tr IH]; intros s Hrun; simpl in *.
  - injection Hrun as ->. reflexivity.
  - destruct (iv_update o s) as [s1|e] eqn:Hu; [|discriminate].
    specialize (IH s1 Hrun). destruct (last_accepted tr) as [o'|]; [done|].
    destruct (accepted_metadata o) eqn:Ha.
    + intros s0 s0' Hu0 opts. rewrite IH.
      by rewrite (iv_update_wholesale o s s0 s1 s0') by (rewrite ?Ha; done).
    + by rewrite IH, (iv_update_reject_eq o s s1).
  - specialize (IH _ Hrun). destruct (last_accepted tr); [done|].
    rewrite IH. intros opts. by rewrite iv_resize_enumerate.
  - by apply IH.
Qed.
End Client.
