(* ===== verification/Visual.v ===== *)
(** * The adapter: class [Visual] of visual.ts

    The adapter's state is its two element locations and its four
    settings groups ([Visual]); the document it renders into is shared
    with the host, so every operation takes and returns the pair of the
    adapter and the document.  [constructor], [update], [onResizing] and
    [enumerateObjectInstances] are the class's four methods, each the
    whole method body: the guard chain of [update] keeps the source's
    redundant tests, and [update] calls [onResizing] last, as the source
    does.

    The theorems give the functional behaviour of [update] on every branch
    of its guard and its frame (no other element changes), the invariant
    of the adapter's part of the document over the lifecycle relation of
    the host's calls, and, over every run of host events, what the
    property pane enumerates and what the page shows: the image source of
    the last accepted update and the size of the last sizing event. *)

From S2P Require Import Prelude JsNumber JsValue PropertyLookup Settings Dom HostApi.

Record Visual (N : Type) := {
  imageDiv : loc;
  imageElement : loc;
  settings : Settings N
}.
Arguments imageDiv {N} _.
Arguments imageElement {N} _.
Arguments settings {N} _.

Section Adapter.
Context {N : Type} `{JsNumber N}.

(** visual.ts 66-102: the container, then the image inside it, then the
    defaults. *)
Definition constructor (options : VisualConstructorOptions) (doc : document)
    : Visual N * document :=
  let '(imageDiv, doc) := createElement "div" doc in
  let doc := set_className imageDiv "rcv_autoScaleImageContainer" doc in
  let doc := appendChild (element options) imageDiv doc in
  let '(imageElement, doc) := createElement "img" doc in
  let doc := set_className imageElement "rcv_autoScaleImage" doc in
  let doc := appendChild imageDiv imageElement doc in
  ({| imageDiv := imageDiv; imageElement := imageElement; settings := default_settings |}, doc).

(** visual.ts 162-165. *)
Definition onResizing (finalViewport : IViewport N) (st : Visual N * document)
    : Visual N * document :=
  let '(v, doc) := st in
  let doc := set_style_height (imageDiv v) (num_to_string (height finalViewport) ++ "px") doc in
  let doc := set_style_width (imageDiv v) (num_to_string (width finalViewport) ++ "px") doc in
  (v, doc).

Definition image_prefix : string := "data:image/png;base64,".

(** visual.ts 104-160. *)
Definition update (options : VisualUpdateOptions N) (st : Visual N * document)
    : completion (Visual N * document) :=
  let '(v, doc) := st in
  match dataViews options with
  | None => mret st
  | Some dvs =>
      if Nat.eqb (length dvs) 0 then mret st else
      match dataViews options with
      | None => mret st
      | Some _ =>
          let dataView := match dvs !! 0 with Some dv => dv | None => None end in
          match dataView with
          | None => mret st
          | Some dataView =>
              match metadata dataView with
              | None => mret st
              | Some md =>
                  s ← populate_settings (objects md);
                  let v := {| imageDiv := imageDiv v; imageElement := imageElement v;
                              settings := s |} in
                  let imageUrl : jsval N :=
                    match scriptResult dataView with
                    | Some sr =>
                        if js_truthy (payloadBase64 sr)
                        then JStr (image_prefix ++ js_to_string (payloadBase64 sr))
                        else JNull
                    | None => JNull
                    end in
                  let doc := if js_truthy imageUrl then set_src (imageElement v) imageUrl doc
                             else set_src (imageElement v) JNull doc in
                  mret (onResizing (viewport options) (v, doc))
              end
          end
      end
  end.

(** visual.ts 167-230. *)
Definition enumerateObjectInstances (st : Visual N * document)
    (options : EnumerateVisualObjectInstancesOptions) : list (VisualObjectInstance N) :=
  enumerate_settings (settings st.1) (enum_objectName options).
End Adapter.

(** ** What [update] does *)

Section UpdateSpec.
Context {N : Type} `{JsNumberLaws N}.

(** The text of the image's [src] attribute after an accepted update
    (§6): the data URI of a truthy payload, and otherwise the ToString of
    [null]. *)
Definition displayed_src (dv : DataView N) : string :=
  match scriptResult dv with
  | Some sr =>
      if js_truthy (payloadBase64 sr) then image_prefix ++ js_to_string (payloadBase64 sr)
      else "null"
  | None => "null"
  end.

Lemma update_eq (o : VisualUpdateOptions N) (v : Visual N) (doc : document) :
  update o (v, doc) =
  match first_dataView o with
  | Some dv =>
      match metadata dv with
      | Some md =>
          Normal (onResizing (viewport o)
            ({| imageDiv := imageDiv v; imageElement := imageElement v;
                settings := settings_of (objects md) |},
             alter (el_set_src (displayed_src dv)) (imageElement v) doc))
      | None => Normal (v, doc)
      end
  | None => Normal (v, doc)
  end.
Proof.
  unfold update, first_dataView.
  destruct (dataViews o) as [[|[dv|] dvs]|]; simpl; try done.
  destruct (metadata dv) as [md|]; [|done].
  rewrite populate_settings_of. unfold displayed_src, set_src.
  destruct (scriptResult dv) as [sr|]; [destruct (js_truthy (payloadBase64 sr))|]; done.
Qed.

(** C1: [update] never throws.  When the first data view is missing,
    [null] or without metadata it changes nothing; otherwise it replaces
    the settings by those the metadata tree denotes, writes the image's
    [src] attribute, and resizes the container to the viewport. *)
Theorem update_spec (o : VisualUpdateOptions N) (v : Visual N) (doc : document) :
  update o (v, doc) =
  match first_dataView o with
  | Some dv =>
      match metadata dv with
      | Some md =>
          Normal (onResizing (viewport o)
            ({| imageDiv := imageDiv v; imageElement := imageElement v;
                settings := settings_of (objects md) |},
             alter (el_set_src (displayed_src dv)) (imageElement v) doc))
      | None => Normal (v, doc)
      end
  | None => Normal (v, doc)
  end.
Proof. apply update_eq. Qed.

(** C7: an update whose data views are absent, empty, or whose first
    entry is [null] or has no metadata leaves the adapter and the
    document as they were (§8). *)
Theorem update_reject (o : VisualUpdateOptions N) (st : Visual N * document) :
  accepted_metadata o = None -> update o st = Normal st.
Proof.
  destruct st as [v doc]. unfold accepted_metadata. rewrite update_eq.
  destruct (first_dataView o) as [dv|]; [|done]. by intros ->.
Qed.

(** [onResizing] writes the two style declarations of the container. *)
Lemma onResizing_eq (vp : IViewport N) (v : Visual N) (doc : document) :
  onResizing vp (v, doc) =
  (v, alter (el_set_style_width (num_to_string (width vp) ++ "px")) (imageDiv v)
        (alter (el_set_style_height (num_to_string (height vp) ++ "px")) (imageDiv v) doc)).
Proof. done. Qed.


(** C20: [update] writes no element but the adapter's container and
    image: every other element of the shared document, the host's mount
    element included, is unchanged. *)
Theorem update_frame (o : VisualUpdateOptions N) (v v' : Visual N) (doc doc' : document) (l : loc) :
  l <> imageDiv v -> l <> imageElement v ->
  update o (v, doc) = Normal (v', doc') -> doc' !! l = doc !! l.
Proof.
  intros Hd Hi. rewrite update_eq.
  destruct (first_dataView o) as [dv|]; [destruct (metadata dv) as [md|]|];
    rewrite ?onResizing_eq; intros Hu; injection Hu as <- <-; try done.
  simpl. by rewrite !lookup_alter_ne.
Qed.
End UpdateSpec.

(** ** The adapter's part of the document *)

Section DomInvariant.
Context {N : Type} `{JsNumberLaws N}.

(** The element at [l] exists with this tag, class and children. *)
Definition el_shape (doc : document) (l : loc) (tag cls : string) (kids : list loc) : Prop :=
  exists e, doc !! l = Some e /\ tagName e = tag /\ className e = cls /\ children e = kids.

(** The invariant: the container hangs under the host's mount element
    and holds exactly the image; the three elements are distinct. *)
Definition dom_wf (mount : loc) (st : Visual N * document) : Prop :=
  let '(v, doc) := st in
  imageDiv v <> imageElement v /\ mount <> imageDiv v /\ mount <> imageElement v /\
  (exists e, doc !! mount = Some e /\ imageDiv v ∈ children e) /\
  el_shape doc (imageDiv v) "div" "rcv_autoScaleImageContainer" [imageElement v] /\
  el_shape doc (imageElement v) "img" "rcv_autoScaleImage" [].

(** The invariant is decidable, so it evaluates on concrete states. *)
#[export] Instance lookup_such_that_dec (doc : document) (l : loc) (P : HTMLElement -> Prop)
    `{forall e, Decision (P e)} : Decision (exists e, doc !! l = Some e /\ P e).
Proof.
  destruct (doc !! l) as [e|] eqn:E.
  - destruct (decide (P e)) as [Y|Nn]; [left; eauto|].
    right. intros (e' & E' & ?). simplify_eq. done.
  - right. intros (e' & E' & _). congruence.
Defined.

#[export] Instance el_shape_dec doc l tag cls kids : Decision (el_shape doc l tag cls kids).
Proof. unfold el_shape. apply _. Defined.

#[export] Instance dom_wf_dec mount (st : Visual N * document) : Decision (dom_wf mount st).
Proof. destruct st. unfold dom_wf. apply _. Defined.

(** An element update that keeps tag, class and children. *)
Definition shape_preserving (f : HTMLElement -> HTMLElement) : Prop :=
  forall e, tagName (f e) = tagName e /\ className (f e) = className e /\ children (f e) = children e.

Lemma el_set_src_shape s : shape_preserving (el_set_src s).
Proof. by intros []. Qed.
Lemma el_set_style_height_shape s : shape_preserving (el_set_style_height s).
Proof. by intros []. Qed.
Lemma el_set_style_width_shape s : shape_preserving (el_set_style_width s).
Proof. by intros []. Qed.

#[local] Hint Resolve el_set_src_shape el_set_style_height_shape el_set_style_width_shape : pbi.

Lemma alter_keeps_shape f l (doc : document) x e :
  shape_preserving f -> doc !! x = Some e ->
  exists e', alter f l doc !! x = Some e' /\
    tagName e' = tagName e /\ className e' = className e /\ children e' = children e.
Proof.
  intros Hf Hx. destruct (decide (l = x)) as [<-|Hne].
  - exists (f e). by rewrite lookup_alter_eq, Hx.
  - exists e. by rewrite lookup_alter_ne.
Qed.

Lemma el_shape_alter f l doc x tag cls kids :
  shape_preserving f -> el_shape doc x tag cls kids -> el_shape (alter f l doc) x tag cls kids.
Proof.
  intros Hf (e & Hx & Ht & Hc & Hk).
  destruct (alter_keeps_shape f l doc x e Hf Hx) as (e' & ? & ? & ? & ?).
  exists e'. naive_solver.
Qed.

Lemma dom_wf_alter mount (v : Visual N) doc f l :
  shape_preserving f -> dom_wf mount (v, doc) -> dom_wf mount (v, alter f l doc).
Proof.
  intros Hf (? & ? & ? & (e & Hm & Hin) & Hd & Hi).
  do 3 (split; [done|]). split; [|split; by apply el_shape_alter].
  destruct (alter_keeps_shape f l doc mount e Hf Hm) as (e' & ? & _ & _ & Hk).
  exists e'. by rewrite Hk.
Qed.

Lemma onResizing_keeps_wf mount vp (st : Visual N * document) :
  dom_wf mount st -> dom_wf mount (onResizing vp st).
Proof.
  destruct st as [v doc]. rewrite onResizing_eq. intros Hwf.
  by apply dom_wf_alter, dom_wf_alter; auto with pbi.
Qed.

Lemma update_keeps_wf mount o (st st' : Visual N * document) :
  dom_wf mount st -> update o st = Normal st' -> dom_wf mount st'.
Proof.
  destruct st as [v doc]. rewrite update_eq. intros Hwf.
  destruct (first_dataView o) as [dv|]; [destruct (metadata dv) as [md|]|];
    intros Hu%Normal_inj; subst st'; try done.
  apply onResizing_keeps_wf, dom_wf_alter; [apply el_set_src_shape | exact Hwf].
Qed.


End DomInvariant.

Section Construct.
Context {N : Type} `{JsNumberLaws N}.

(** The two fresh locations of the constructor. *)
Lemma constructor_locs (mount : loc) (doc : document) :
  is_Some (doc !! mount) ->
  let '(v, _) := constructor (N:=N) {| element := mount |} doc in
  mount <> imageDiv v /\ mount <> imageElement v /\ imageDiv v <> imageElement v.
Proof.
  intros [e He]. unfold constructor, createElement. simpl.
  set (d := fresh (dom doc)).
  set (doc3 := appendChild mount d (set_className d "rcv_autoScaleImageContainer"
                 (<[d := new_element "div"]> doc))).
  pose proof (is_fresh (dom doc)) as Fd. fold d in Fd.
  pose proof (is_fresh (dom doc3)) as Fi.
  assert (d ∈ dom doc3) as Hd3.
  { apply elem_of_dom. unfold doc3, appendChild, set_className.
    rewrite !lookup_alter_is_Some. by rewrite lookup_insert_eq. }
  assert (mount ∈ dom doc) as Hm by (apply elem_of_dom; eauto).
  assert (d <> mount) as Hdm by set_solver.
  assert (mount ∈ dom doc3) as Hm3.
  { apply elem_of_dom. unfold doc3, appendChild, set_className.
    rewrite !lookup_alter_is_Some, lookup_insert_is_Some. right. eauto. }
  split; [congruence|split]; intros Heq; apply Fi; by rewrite <- Heq.
Qed.

Lemma constructor_establishes_wf (mount : loc) (doc : document) :
  is_Some (doc !! mount) ->
  settings (constructor (N:=N) {| element := mount |} doc).1 = default_settings /\
  dom_wf mount (constructor (N:=N) {| element := mount |} doc).
Proof.
  intros Hm. pose proof (constructor_locs mount doc Hm) as Hl.
  destruct Hm as [e He]. split; [done|].
  revert Hl. unfold constructor, createElement. simpl.
  set (d := fresh (dom doc)).
  set (i := fresh (dom (appendChild mount d (set_className d "rcv_autoScaleImageContainer"
                 (<[d := new_element "div"]> doc))))).
  intros (Hmd & Hmi & Hdi).
  unfold appendChild, set_className.
  do 3 (split; [done|]). split; [|split].
  - exists (el_append_child d e). split; [|apply list_elem_of_In, in_or_app; simpl; auto].
    rewrite lookup_alter_ne, lookup_alter_ne, lookup_insert_ne, lookup_alter_eq by done.
    rewrite lookup_alter_ne, lookup_insert_ne, He by done. done.
  - eexists. rewrite lookup_alter_eq, lookup_alter_ne, lookup_insert_ne by done.
    rewrite lookup_alter_ne, lookup_alter_eq, lookup_insert_eq by done. done.
  - eexists. rewrite lookup_alter_ne, lookup_alter_eq, lookup_insert_eq by done. done.
Qed.

(** C22: the constructor installs the default settings and establishes
    the invariant: a fresh container under the host's mount element,
    holding a fresh image (§4.1). *)
Theorem constructor_wf (mount : loc) (doc : document) :
  is_Some (doc !! mount) ->
  settings (constructor (N:=N) {| element := mount |} doc).1 = default_settings /\
  dom_wf mount (constructor (N:=N) {| element := mount |} doc).
Proof. apply constructor_establishes_wf. Qed.
End Construct.

(** ** The lifecycle *)

Section Lifecycle.
Context {N : Type} `{JsNumberLaws N}.

(** The states the host can bring the adapter to: it constructs it on a
    mount element of its document, then updates and resizes it in any
    order (enumerations do not change the state). *)
Inductive reachable (mount : loc) (doc0 : document) : Visual N * document -> Prop :=
  | reach_construct :
      is_Some (doc0 !! mount) ->
      reachable mount doc0 (constructor {| element := mount |} doc0)
  | reach_update o st st' :
      reachable mount doc0 st -> update o st = Normal st' -> reachable mount doc0 st'
  | reach_resize vp st :
      reachable mount doc0 st -> reachable mount doc0 (onResizing vp st).

(** The settings after an update are those before it or those of a
    metadata tree. *)
Lemma update_settings o (st st' : Visual N * document) :
  update o st = Normal st' ->
  settings st'.1 = settings st.1 \/ exists md, settings st'.1 = settings_of (objects md).
Proof.
  destruct st as [v doc]. rewrite update_eq.
  destruct (first_dataView o) as [dv|]; [destruct (metadata dv) as [md|]|];
    intros Hu%Normal_inj; subst st'; [right; by exists md | by left..].
Qed.

Lemma reachable_invariant mount doc0 (st : Visual N * document) :
  reachable mount doc0 st -> dom_wf mount st /\ settings_defined (settings st.1) = true.
Proof.
  induction 1 as [Hm | o st st' Hr [Hwf Hdef] Hu | vp st Hr [Hwf Hdef]].
  - destruct (constructor_establishes_wf mount doc0 Hm) as [-> ?]. split; [done|].
    reflexivity.
  - split; [by apply (update_keeps_wf mount o st st')|].
    destruct (update_settings o st st' Hu) as [-> | [md ->]]; [done|].
    apply settings_of_defined.
  - split; [by apply onResizing_keeps_wf|]. by destruct st.
Qed.

(** C16: every state the host can reach satisfies the document invariant
    and has no [undefined] settings field. *)
Theorem reachable_inv mount doc0 (st : Visual N * document) :
  reachable mount doc0 st -> dom_wf mount st /\ settings_defined (settings st.1) = true.
Proof. apply reachable_invariant. Qed.

(** The adapter implements the host's contract. *)
#[export] Instance Visual_IVisual : IVisual (Visual N * document) N := {|
  iv_update := update;
  iv_onResizing := onResizing;
  iv_enumerate := enumerateObjectInstances
|}.

(** A host run keeps the adapter among the reachable states. *)
Lemma run_trace_reachable mount doc0 (tr : list (host_event N)) (st st' : Visual N * document) :
  reachable mount doc0 st -> run_trace tr st = Normal st' -> reachable mount doc0 st'.
Proof.
  revert st. induction tr as [|[o|vp|opts] tr IH]; intros st Hr Hrun; simpl in Hrun.
  - by injection Hrun as <-.
  - destruct (update o st) as [st1|e] eqn:Hu; [|discriminate].
    apply (IH st1); [by apply (reach_update _ _ o st st1) | exact Hrun].
  - apply (IH (onResizing vp st)); [by apply reach_resize | exact Hrun].
  - by apply (IH st).
Qed.

(** An accepted update fixes what is enumerated: the enumeration of the
    settings its metadata tree denotes. *)
Lemma update_enumerate o md (st st' : Visual N * document) :
  accepted_metadata o = Some md -> update o st = Normal st' ->
  enumerateObjectInstances st' = fun opts => enumerate_settings (settings_of (objects md)) (enum_objectName opts).
Proof.
  destruct st as [v doc]. unfold accepted_metadata. rewrite update_eq.
  destruct (first_dataView o) as [dv|]; [|done].
  intros -> Hu%Normal_inj. by subst st'.
Qed.

#[export] Instance Visual_IVisualLaws : IVisualLaws (Visual N * document) N.
Proof.
  split; simpl.
  - intros o [v doc]. rewrite update_eq.
    destruct (first_dataView o) as [dv|]; [destruct (metadata dv)|]; eauto.
  - intros o [v doc]. unfold accepted_metadata. rewrite update_eq.
    destruct (first_dataView o) as [dv|]; [|done]. by intros ->.
  - intros o s1 s2 s1' s2' Ha Hu1 Hu2.
    destruct (accepted_metadata o) as [md|] eqn:Hmd; [|done].
    by rewrite (update_enumerate o md s1 s1'), (update_enumerate o md s2 s2').
  - by intros vp [v doc].
Qed.

(** C2: after any run of host events, the property pane shows the
    enumeration of the settings the last accepted update's metadata tree
    denotes, and what it showed before the run when no update was
    accepted: the settings are replaced wholesale on every accepted update
    and nothing else changes them. *)
Theorem visual_run_enumerate (tr : list (host_event N)) (st st' : Visual N * document) opts :
  run_trace tr st = Normal st' ->
  enumerateObjectInstances st' opts =
  match last_accepted tr with
  | Some o =>
      match accepted_metadata o with
      | Some md => enumerate_settings (settings_of (objects md)) (enum_objectName opts)
      | None => enumerateObjectInstances st opts
      end
  | None => enumerateObjectInstances st opts
  end.
Proof.
  intros Hrun. pose proof (host_enumerate_last_update tr st st' Hrun) as Hh.
  destruct (last_accepted tr) as [o|] eqn:Hl; [|apply Hh].
  destruct (accepted_metadata o) as [md|] eqn:Hmd.
  - destruct (iv_update_total o st) as [s0' Hu].
    etransitivity; [apply (Hh st s0' Hu opts)|].
    simpl. by rewrite (update_enumerate o md st s0').
  - destruct (last_accepted_accepted tr o Hl) as [md Hmd']. congruence.
Qed.
End Lifecycle.

(** ** What the page displays *)

Section Display.
Context {N : Type} `{JsNumberLaws N}.

(** The image's [src] attribute and the container's two style sizes:
    what the page shows of the adapter. *)
Definition shown_src (st : Visual N * document) : option (option string) :=
  src <$> st.2 !! imageElement st.1.

Definition shown_size (st : Visual N * document) : option (string * string) :=
  (fun e => (style_height e, style_width e)) <$> st.2 !! imageDiv st.1.

(** The adapter's two elements are in the document. *)
Definition adapter_present (st : Visual N * document) : Prop :=
  is_Some (st.2 !! imageDiv st.1) /\ is_Some (st.2 !! imageElement st.1).

#[export] Instance adapter_present_dec st : Decision (adapter_present st).
Proof. unfold adapter_present. apply _. Defined.

Lemma onResizing_display vp st :
  adapter_present st ->
  adapter_present (onResizing vp st) /\ shown_src (onResizing vp st) = shown_src st /\
  shown_size (onResizing vp st) =
    Some ((num_to_string (height vp) ++ "px")%string, (num_to_string (width vp) ++ "px")%string).
Proof.
  destruct st as [v doc]. rewrite onResizing_eq.
  unfold adapter_present, shown_src, shown_size. simpl. intros [[d Hd] [i Hi]].
  rewrite !lookup_alter_is_Some. split_and!; [by eexists|by eexists| |].
  - destruct (decide (imageDiv v = imageElement v)) as [<-|Hne].
    + by rewrite !lookup_alter_eq, Hd.
    + by rewrite !lookup_alter_ne.
  - by rewrite !lookup_alter_eq, Hd.
Qed.

(** What one update shows: the source and size of an accepted update,
    and what was shown before otherwise. *)
Lemma update_display o st st' :
  adapter_present st -> update o st = Normal st' ->
  adapter_present st' /\
  shown_src st' = match first_dataView o with
                  | Some dv => match metadata dv with
                               | Some _ => Some (Some (displayed_src dv))
                               | None => shown_src st
                               end
                  | None => shown_src st
                  end /\
  shown_size st' = match accepted_metadata o with
                   | Some _ => Some ((num_to_string (height (viewport o)) ++ "px")%string,
                                     (num_to_string (width (viewport o)) ++ "px")%string)
                   | None => shown_size st
                   end.
Proof.
  destruct st as [v doc]. unfold accepted_metadata. rewrite update_eq. intros Hp.
  destruct (first_dataView o) as [dv|]; [destruct (metadata dv) as [md|]|];
    intros Hu%Normal_inj; subst st'; [|done..].
  set (st1 := ({| imageDiv := imageDiv v; imageElement := imageElement v;
                  settings := settings_of (objects md) |},
               alter (el_set_src (displayed_src dv)) (imageElement v) doc)).
  destruct Hp as [[d Hd] [i Hi]]; simpl in Hd, Hi.
  assert (adapter_present st1) as Hp1.
  { unfold adapter_present, st1. simpl. rewrite !lookup_alter_is_Some. by split; eexists. }
  destruct (onResizing_display (viewport o) st1 Hp1) as (? & -> & ->).
  unfold shown_src, st1. simpl. by rewrite lookup_alter_eq, Hi.
Qed.

(** C15: after any run of host events the page shows the source of the
    last update the guard accepted, and the size of the last resize or
    accepted update, whichever came later; what it showed before where
    the run has no such event.  A rejected update, an enumeration and
    the order of the other events change neither. *)
Theorem visual_run_display (tr : list (host_event N)) (st st' : Visual N * document) :
  adapter_present st -> run_trace tr st = Normal st' ->
  shown_src st' = match last_accepted tr ≫= first_dataView with
                  | Some dv => Some (Some (displayed_src dv))
                  | None => shown_src st
                  end /\
  shown_size st' = match last_viewport tr with
                   | Some vp => Some ((num_to_string (height vp) ++ "px")%string,
                                      (num_to_string (width vp) ++ "px")%string)
                   | None => shown_size st
                   end.
Proof.
  revert st. induction tr as [|[o|vp|opts] tr IH]; intros st Hp Hrun; simpl in Hrun |- *.
  - by injection Hrun as <-.
  - destruct (update o st) as [st1|e] eqn:Hu; [|discriminate].
    destruct (update_display o st st1 Hp Hu) as (Hp1 & Hs1 & Hz1).
    destruct (IH st1 Hp1 Hrun) as [-> ->]. rewrite Hs1, Hz1. split.
    + destruct (last_accepted tr) as [o'|] eqn:Hl.
      * destruct (last_accepted_accepted tr o' Hl) as [md Hmd]. unfold accepted_metadata in Hmd.
        simpl. by destruct (first_dataView o').
      * unfold accepted_metadata. destruct (first_dataView o) as [dv|] eqn:Hf; [|done].
        destruct (metadata dv); simpl; rewrite ?Hf; done.
    + destruct (last_viewport tr); [done|]. by destruct (accepted_metadata o).
  - destruct (onResizing_display vp st Hp) as (Hp1 & Hs1 & Hz1).
    destruct (IH _ Hp1 Hrun) as [-> ->]. rewrite Hs1, Hz1.
    by destruct (last_viewport tr).
  - destruct (IH st Hp Hrun) as [-> ->]. split; [done|]. by destruct (last_viewport tr).
Qed.
End Display.

(** ** Concrete runs *)

(** A host document with one mount element, and the adapter built on it. *)
Definition sample_doc : document := {[ 1%positive := new_element "body" ]}.

Definition sample_state : Visual znum * document :=
  constructor {| element := 1%positive |} sample_doc.

Definition sample_viewport : IViewport znum := {| height := ZFin 300; width := ZFin 400 |}.

Definition options_with (dvs : option (list (option (DataView znum)))) : VisualUpdateOptions znum :=
  {| dataViews := dvs; viewport := sample_viewport |}.

Definition payload_options : VisualUpdateOptions znum :=
  options_with (Some [Some {| metadata := Some {| objects := sample_objects |};
                              scriptResult := Some {| payloadBase64 := JStr "AAAA" |} |}]).

Definition no_payload_options : VisualUpdateOptions znum :=
  options_with (Some [Some {| metadata := Some {| objects := JUndefined |};
                              scriptResult := None |}]).

(** The [src] attribute of the adapter's image after an update. *)
Definition image_src_after (o : VisualUpdateOptions znum) (st : Visual znum * document) : option string :=
  match update o st with
  | Normal (v, doc) => doc !! imageElement v ≫= src
  | Throw _ => None
  end.

Definition sample_after_update : Visual znum * document :=
  match update payload_options sample_state with Normal st => st | Throw _ => sample_state end.

(** The example of §8: a script result whose payload is ["AAAA"] makes
    the image's source ["data:image/png;base64,AAAA"]. *)
Example update_payload_example :
  image_src_after payload_options sample_state = Some "data:image/png;base64,AAAA".
Proof. vm_compute. reflexivity. Qed.

(** Without a script result the image's source is not cleared: the
    assignment of [null] to [src] stores the string ["null"]. *)
Example update_no_payload_example :
  image_src_after no_payload_options sample_state = Some "null".
Proof. vm_compute. reflexivity. Qed.

Lemma update_reject_witness :
  accepted_metadata (options_with (Some [])) = None /\
  update (options_with (Some [])) sample_state = Normal sample_state.
Proof. split; [done|]. by apply update_reject. Defined.

Lemma update_frame_witness :
  1%positive <> imageDiv sample_state.1 /\ 1%positive <> imageElement sample_state.1 /\
  update payload_options sample_state = Normal sample_after_update /\
  sample_after_update.2 !! 1%positive = sample_state.2 !! 1%positive.
Proof.
  assert (update payload_options sample_state = Normal sample_after_update) as Hu
    by (vm_compute; reflexivity).
  split; [by vm_compute|]. split; [by vm_compute|]. split; [exact Hu|].
  apply (update_frame payload_options sample_state.1 sample_after_update.1
           sample_state.2 sample_after_update.2); [by vm_compute | by vm_compute | exact Hu].
Defined.

Lemma constructor_wf_witness :
  is_Some (sample_doc !! 1%positive) /\
  settings (constructor (N:=znum) {| element := 1%positive |} sample_doc).1 = default_settings /\
  dom_wf 1%positive (constructor (N:=znum) {| element := 1%positive |} sample_doc).
Proof.
  assert (is_Some (sample_doc !! 1%positive)) as Hm by (eexists; reflexivity).
  split; [exact Hm|]. by apply constructor_wf.
Defined.

Lemma reachable_inv_witness :
  reachable 1%positive sample_doc sample_after_update /\
  dom_wf 1%positive sample_after_update /\ settings_defined (settings sample_after_update.1) = true.
Proof.
  assert (reachable 1%positive sample_doc sample_after_update) as Hr.
  { apply (reach_update _ _ payload_options sample_state).
    - constructor. eexists; reflexivity.
    - vm_compute. reflexivity. }
  split; [exact Hr|]. by apply (reachable_inv 1%positive sample_doc).
Defined.

Definition sample_trace : list (host_event znum) :=
  [EvUpdate payload_options; EvResize sample_viewport;
   EvUpdate (options_with None); EvEnumerate {| enum_objectName := "settings_algo_params" |}].

Definition sample_final : Visual znum * document :=
  match run_trace sample_trace sample_state with Normal st => st | Throw _ => sample_state end.

Lemma visual_run_enumerate_witness :
  run_trace sample_trace sample_state = Normal sample_final /\
  enumerateObjectInstances sample_final {| enum_objectName := "settings_algo_params" |}
  = enumerate_settings (settings_of sample_objects) "settings_algo_params".
Proof.
  assert (run_trace sample_trace sample_state = Normal sample_final) as Hr
    by (vm_compute; reflexivity).
  split; [exact Hr|].
  etransitivity; [apply (visual_run_enumerate sample_trace sample_state sample_final _ Hr)|].
  reflexivity.
Defined.

Lemma visual_run_display_witness :
  adapter_present sample_state /\ run_trace sample_trace sample_state = Normal sample_final /\
  shown_src sample_final = Some (Some "data:image/png;base64,AAAA") /\
  shown_size sample_final = Some ("300px", "400px")%string.
Proof.
  assert (adapter_present sample_state) as Hp by decide_closed.
  assert (run_trace sample_trace sample_state = Normal sample_final) as Hr
    by (vm_compute; reflexivity).
  destruct (visual_run_display sample_trace sample_state sample_final Hp Hr) as [Hs Hz].
  split_and!; [exact Hp|exact Hr|rewrite Hs|rewrite Hz]; vm_compute; reflexivity.
Defined.
