(* ===== verification/Plugin.v ===== *)
(** * The registration descriptor

    visualPlugin.ts registers the visual with the host's plugin loader:
    a static record of metadata and a factory [create] that constructs
    the adapter.  Its [create] is the constructor of [Visual.v], so the
    lifecycle theorems there ([Visual.reachable_inv] and the run
    theorems) are what the host gets through the descriptor; the
    compiled descriptor literal of visual.js is [Bundle.descriptor_literal]. *)

From S2P Require Import Prelude JsNumber JsValue PropertyLookup Settings Dom HostApi Visual.

Record PluginDescriptor (S : Type) := {
  name : string;
  displayName : string;
  class : string;
  version : string;
  apiVersion : string;
  create : VisualConstructorOptions -> document -> S;
  custom : bool
}.
Arguments name {S} _.
Arguments displayName {S} _.
Arguments class {S} _.
Arguments version {S} _.
Arguments apiVersion {S} _.
Arguments create {S} _ _ _.
Arguments custom {S} _.

(** visualPlugin.ts 2-10. *)
Definition PBI_CV_CAD60C71_FAD5_4B59_A498_A7FB0DDC7A2B {N : Type} `{JsNumber N}
    : PluginDescriptor (Visual N * document) := {|
  name := "PBI_CV_CAD60C71_FAD5_4B59_A498_A7FB0DDC7A2B";
  displayName := "Time series decomposition";
  class := "Visual";
  version := "1.0.1";
  apiVersion := "1.3.0";
  create := fun options doc => constructor options doc;
  custom := true
|}.
