(* ===== verification/Bundle.v ===== *)
(** * The compiled bundle: visual.js as three scripts sharing a realm

    [src/.tmp/drop/visual.js] is what the host loads: the compiler's
    output for the helpers (lines 1-164), for [visual.ts] (lines 165-349)
    and for [visualPlugin.ts] (lines 350-367), run in that order in one
    realm ([Realm]).  The first two scripts open the namespace
    [powerbi.extensibility.visual.PBI_CV_...] with the [||] idiom and
    store into it the eight helpers and the class [Visual]; the third
    opens [powerbi.visuals.plugins] and stores the descriptor there.  The
    compiled class differs from [visual.ts] in one respect: its methods
    call the helpers through the namespace object, read when the call is
    made ([PBI_CV_....getValue(...)]), and [update] calls [onResizing]
    through the instance's prototype ([this.onResizing(...)]).

    [closure] is the code of the function objects the bundle creates,
    each with the variables of the enclosing scope its body reads: the
    methods [update] and [enumerateObjectInstances] read the namespace,
    [create] reads the [powerbi] object of the third script.  Calling a
    helper runs the helper of [PropertyLookup]; a call that the model
    does not cover ([getCategoricalObjectValue] with a [jsval] argument:
    the model has no arrays; a class or method called as a helper) gives
    [None], so the compiled methods compute in [jsm], [option] over
    [completion].  The bodies of the constructor and of [onResizing] are
    those of [visual.ts] verbatim and are modelled by [Visual.constructor]
    and [Visual.onResizing].

    Not modelled: the function objects of the module wrappers
    [(function (powerbi) { ... })], which nothing keeps after the call. *)

From S2P Require Import Prelude JsNumber JsValue PropertyLookup Settings Dom Realm HostApi Visual.

Definition GUID : string := "PBI_CV_CAD60C71_FAD5_4B59_A498_A7FB0DDC7A2B".

Inductive helper :=
  | HgetValue
  | HgetValueMinMax
  | HgetValueNumberMinMax
  | HifStringReturnString
  | HifStringReturnStringClustersMethod
  | HinMinMax
  | HgetCategoricalObjectValue
  | HgetFillValue.

#[export] Instance helper_eq_dec : EqDecision helper.
Proof. solve_decision. Defined.

Inductive closure (N : Type) :=
  | Helper (f : helper)
  | VisualCtor
  | UpdateMethod (ns : rval N)
  | OnResizingMethod
  | EnumerateMethod (ns : rval N)
  | CreateFn (powerbi : rval N).
Arguments Helper {N} f.
Arguments VisualCtor {N}.
Arguments UpdateMethod {N} ns.
Arguments OnResizingMethod {N}.
Arguments EnumerateMethod {N} ns.
Arguments CreateFn {N} powerbi.

(** ** Computations that may leave the model *)

Definition jsm (A : Type) : Type := option (completion A).

#[export] Instance jsm_ret : MRet jsm := fun A a => Some (Normal a).
#[export] Instance jsm_bind : MBind jsm := fun A B k c =>
  match c with
  | Some (Normal a) => k a
  | Some (Throw e) => Some (Throw e)
  | None => None
  end.

(** The namespace path, and the path of the plugin table. *)
Definition ns_path : list string := ["extensibility"; "visual"; GUID].
Definition plugin_path : list string := ["visuals"; "plugins"].

(** The eight exports of the first script, in the order of the source. *)
Definition helper_exports : list (string * helper) := [
  ("getValue", HgetValue);
  ("getValueMinMax", HgetValueMinMax);
  ("getValueNumberMinMax", HgetValueNumberMinMax);
  ("ifStringReturnString", HifStringReturnString);
  ("ifStringReturnStringClustersMethod", HifStringReturnStringClustersMethod);
  ("inMinMax", HinMinMax);
  ("getCategoricalObjectValue", HgetCategoricalObjectValue);
  ("getFillValue", HgetFillValue)].

Section Loading.
Context {N : Type} `{JsNumber N}.
Notation brealm := (realm (closure N) N) (only parsing).
Notation bstore := (gmap loc (cell (closure N) N)) (only parsing).

(** [var powerbi;] and the arguments of the four nested wrappers:
    [powerbi || (powerbi = {})], then [powerbi.extensibility || ...],
    [extensibility.visual || ...], [visual.PBI_CV_... || ...]. *)
Definition open_namespace (r : brealm) : completion (rval N * brealm) :=
  let r := declare_var "powerbi" r in
  let '(p, r) := global_or_init "powerbi" r in
  '(ns, h) ← ensure_path (heap r) p ns_path;
  mret (ns, {| heap := h; globals := globals r |}).

(** Function declarations are hoisted: their objects exist before the
    first statement of the wrapper runs. *)
Fixpoint declare_functions (fs : list (closure N)) (h : bstore) : list loc * bstore :=
  match fs with
  | [] => ([], h)
  | f :: fs =>
      let '(l, h) := new_function f h in
      let '(ls, h) := declare_functions fs h in
      (l :: ls, h)
  end.

(** The statements [PBI_CV_....name = name;]. *)
Fixpoint assign_exports (h : bstore) (ns : rval N) (xs : list (string * loc)) : completion bstore :=
  match xs with
  | [] => mret h
  | (x, l) :: xs => h ← set_prop h ns x (RObj l); assign_exports h ns xs
  end.

(** The first script: the helpers and their exports. *)
Definition load_helpers_module (r : brealm) : completion brealm :=
  '(ns, r) ← open_namespace r;
  let '(ls, h) := declare_functions (map (fun e => Helper e.2) helper_exports) (heap r) in
  h ← assign_exports h ns (zip (map fst helper_exports) ls);
  mret {| heap := h; globals := globals r |}.

(** [Visual.prototype.m = function (...) {...};]: the reference
    [Visual.prototype] is read before the function expression is
    evaluated. *)
Definition define_method (h : bstore) (cls : loc) (m : string) (f : closure N) : completion bstore :=
  proto ← get_prop h (RObj cls) "prototype";
  let '(fl, h) := new_function f h in
  set_prop h proto m (RObj fl).

(** The class expression [(function () { function Visual(options) {...}
    Visual.prototype.update = ...; ...; return Visual; }())]: the
    function [Visual] is hoisted, then the three prototype assignments
    run in order. *)
Definition class_expression (h : bstore) (ns : rval N) : completion (loc * bstore) :=
  let '(cls, h) := new_function VisualCtor h in
  h ← define_method h cls "update" (UpdateMethod ns);
  h ← define_method h cls "onResizing" OnResizingMethod;
  h ← define_method h cls "enumerateObjectInstances" (EnumerateMethod ns);
  mret (cls, h).

(** The second script: [var Visual = (class expression);], then
    [PBI_CV_....Visual = Visual]. *)
Definition load_visual_module (r : brealm) : completion brealm :=
  '(ns, r) ← open_namespace r;
  '(cls, h) ← class_expression (heap r) ns;
  h ← set_prop h ns "Visual" (RObj cls);
  mret {| heap := h; globals := globals r |}.

(** The properties of an object literal, defined in order. *)
Fixpoint define_props (h : bstore) (o : rval N) (ps : list (string * rval N)) : completion bstore :=
  match ps with
  | [] => mret h
  | (k, v) :: ps => h ← set_prop h o k v; define_props h o ps
  end.

(** The descriptor's object literal, [create] being the function object
    of its function expression. *)
Definition descriptor_literal (create : loc) : list (string * rval N) := [
  ("name", RStr GUID);
  ("displayName", RStr "Time series decomposition");
  ("class", RStr "Visual");
  ("version", RStr "1.0.1");
  ("apiVersion", RStr "1.3.0");
  ("create", RObj create);
  ("custom", RBool true)].

(** The third script: [plugins.PBI_CV_... = { name: ..., create: function
    (options) {...}, custom: true }]; the literal's object is created
    before the function of its [create] property. *)
Definition load_plugin_module (r : brealm) : completion brealm :=
  let r := declare_var "powerbi" r in
  let '(p, r) := global_or_init "powerbi" r in
  '(plugins, h) ← ensure_path (heap r) p plugin_path;
  let '(d, h) := new_object h in
  let '(fc, h) := new_function (CreateFn p) h in
  h ← define_props h (RObj d) (descriptor_literal fc);
  h ← set_prop h plugins GUID (RObj d);
  mret {| heap := h; globals := globals r |}.

(** The host runs the file: its three scripts, in order. *)
Definition load_bundle (r : brealm) : completion brealm :=
  r ← load_helpers_module r;
  r ← load_visual_module r;
  load_plugin_module r.
End Loading.

(** ** Calls and the compiled methods *)

Section Compiled.
Context {N : Type} `{JsNumber N}.
Notation bstore := (gmap loc (cell (closure N) N)) (only parsing).

(** A helper called with JavaScript arguments: a missing argument is
    [undefined], and a property name is converted by ToString, as
    [objects[objectName]] does. *)
Definition call_helper (f : helper) (args : list (jsval N)) : jsm (jsval N) :=
  let a i := default JUndefined (args !! i) in
  match f with
  | HgetValue => Some (getValue (a 0) (js_to_string (a 1)) (js_to_string (a 2)) (a 3))
  | HgetValueMinMax =>
      Some (getValueMinMax (a 0) (js_to_string (a 1)) (js_to_string (a 2)) (a 3) (a 4) (a 5))
  | HgetValueNumberMinMax =>
      Some (getValueNumberMinMax (a 0) (js_to_string (a 1)) (js_to_string (a 2)) (a 3) (a 4) (a 5))
  | HifStringReturnString => mret (ifStringReturnString (a 0) (a 1) (a 2) (a 3) (a 4) (a 5))
  | HifStringReturnStringClustersMethod => mret (ifStringReturnStringClustersMethod (a 0) (a 1))
  | HinMinMax => mret (inMinMax (a 0) (a 1) (a 2))
  | HgetCategoricalObjectValue => None
  | HgetFillValue => Some (getFillValue (a 0) (js_to_string (a 1)) (js_to_string (a 2)) (a 3))
  end.

(** The function object [v.m] refers to, and its code; a property that is
    not a function object cannot be called: TypeError. *)
Definition resolve_fn (h : bstore) (v : rval N) (m : string) : completion (loc * closure N) :=
  x ← get_prop h v m;
  match x with
  | RObj l => match code_of h l with Some c => mret (l, c) | None => Throw TypeError end
  | _ => Throw TypeError
  end.

(** [ns.name(args)] where [ns.name] should be a helper. *)
Definition call_ns (h : bstore) (ns : rval N) (name : string) (args : list (jsval N))
    : jsm (jsval N) :=
  match resolve_fn h ns name with
  | Normal (_, Helper f) => call_helper f args
  | Normal _ => None
  | Throw e => Some (Throw e)
  end.

(** [PBI_CV_....getValue(dataView.metadata.objects, group, property, default)]. *)
Definition getValue_js (h : bstore) (ns : rval N) (objects : jsval N) (g p : string)
    (d : jsval N) : jsm (jsval N) :=
  call_ns h ns "getValue" [objects; JStr g; JStr p; d].

(** The four object literals of the compiled [update], each property a
    call through the namespace, in the order of the source. *)
Definition populate_settings_js (h : bstore) (ns : rval N) (objects : jsval N) : jsm (Settings N) :=
  modelType ← getValue_js h ns objects "settings_model_params" "modelType" (JStr "automatic");
  targetSeasonality ← getValue_js h ns objects "settings_model_params" "targetSeasonality"
                        (JStr "autodetect from date");
  freq ← getValue_js h ns objects "settings_model_params" "freq" (JNum (num_lit 12));
  degree ← getValue_js h ns objects "settings_algo_params" "degree" (JBool false);
  robustToOutliers ← getValue_js h ns objects "settings_algo_params" "robustToOutliers" (JBool true);
  percentile ← getValue_js h ns objects "settings_algo_params" "percentile" (JNum (num_lit 50));
  plotType ← getValue_js h ns objects "settings_plot_params" "plotType" (JStr "all");
  weight ← getValue_js h ns objects "settings_plot_params" "weight" (JNum (num_lit 10));
  lineCol ← getValue_js h ns objects "settings_plot_params" "lineCol" (JStr "red");
  labelsCol ← getValue_js h ns objects "settings_plot_params" "labelsCol" (JStr "orange");
  plot_textSize ← getValue_js h ns objects "settings_plot_params" "textSize" (JNum (num_lit 10));
  show ← getValue_js h ns objects "settings_extra_params" "show" (JBool true);
  extra_textSize ← getValue_js h ns objects "settings_extra_params" "textSize" (JNum (num_lit 10));
  infoCol ← getValue_js h ns objects "settings_extra_params" "infoCol" (JStr "brown");
  mret {| settings_model_params := {| ModelParams.modelType := modelType;
            ModelParams.targetSeasonality := targetSeasonality; ModelParams.freq := freq |};
          settings_algo_params := {| AlgoParams.degree := degree;
            AlgoParams.robustToOutliers := robustToOutliers; AlgoParams.percentile := percentile |};
          settings_plot_params := {| PlotParams.plotType := plotType; PlotParams.weight := weight;
            PlotParams.lineCol := lineCol; PlotParams.labelsCol := labelsCol;
            PlotParams.textSize := plot_textSize |};
          settings_extra_params := {| ExtraParams.show := show;
            ExtraParams.textSize := extra_textSize; ExtraParams.infoCol := infoCol |} |}.

(** [this.onResizing(viewport)] on an instance whose prototype is
    [proto]. *)
Definition call_onResizing (h : bstore) (proto : rval N) (vp : IViewport N)
    (st : Visual N * document) : jsm (Visual N * document) :=
  match resolve_fn h proto "onResizing" with
  | Normal (_, OnResizingMethod) => mret (onResizing vp st)
  | Normal _ => None
  | Throw e => Some (Throw e)
  end.

(** The compiled [Visual.prototype.update]: the guard chain of
    [visual.ts], the populate block through the namespace, the image,
    then [this.onResizing]. *)
Definition update_js (h : bstore) (ns proto : rval N) (options : VisualUpdateOptions N)
    (st : Visual N * document) : jsm (Visual N * document) :=
  let '(v, doc) := st in
  match dataViews options with
  | None => mret st
  | Some dvs =>
      if Nat.eqb (length dvs) 0 then mret st else
      match dataViews options with
      | None => mret st
      | Some _ =>
          let dataView := match dvs !! 0 with Some dv => dv | None => None end in
          match dataView with
          | None => mret st
          | Some dataView =>
              match metadata dataView with
              | None => mret st
              | Some md =>
                  s ← populate_settings_js h ns (objects md);
                  let v := {| imageDiv := imageDiv v; imageElement := imageElement v;
                              settings := s |} in
                  let imageUrl : jsval N :=
                    match scriptResult dataView with
                    | Some sr =>
                        if js_truthy (payloadBase64 sr)
                        then JStr (image_prefix ++ js_to_string (payloadBase64 sr))
                        else JNull
                    | None => JNull
                    end in
                  let doc := if js_truthy imageUrl then set_src (imageElement v) imageUrl doc
                             else set_src (imageElement v) JNull doc in
                  call_onResizing h proto (viewport options) (v, doc)
              end
          end
      end
  end.

(** [PBI_CV_....inMinMax(x, lo, hi)]. *)
Definition inMinMax_js (h : bstore) (ns : rval N) (x lo hi : jsval N) : jsm (jsval N) :=
  call_ns h ns "inMinMax" [x; lo; hi].

(** The compiled [Visual.prototype.enumerateObjectInstances]. *)
Definition enumerate_js (h : bstore) (ns : rval N) (st : Visual N * document)
    (options : EnumerateVisualObjectInstancesOptions) : jsm (list (VisualObjectInstance N)) :=
  let s := settings st.1 in
  let objectName := enum_objectName options in
  let objectEnumeration : list (VisualObjectInstance N) := [] in
  if String.eqb objectName "settings_model_params" then
    let m := settings_model_params s in
    let objectEnumeration := objectEnumeration ++
      [{| objectName := objectName;
          properties := [("modelType", ModelParams.modelType m);
                         ("targetSeasonality", ModelParams.targetSeasonality m)];
          selector := JNull |}] in
    if js_loose_eq (ModelParams.targetSeasonality m) (JStr "manual") then
      freq ← inMinMax_js h ns (ModelParams.freq m) (JNum (num_lit 1)) (JNum (num_lit 10000));
      mret (objectEnumeration ++
        [{| objectName := objectName; properties := [("freq", freq)]; selector := JNull |}])
    else mret objectEnumeration
  else if String.eqb objectName "settings_algo_params" then
    let a := settings_algo_params s in
    percentile ← inMinMax_js h ns (AlgoParams.percentile a) (JNum (num_lit 1)) (JNum (num_lit 100));
    mret (objectEnumeration ++
      [{| objectName := objectName;
          properties := [("degree", AlgoParams.degree a);
                         ("robustToOutliers", AlgoParams.robustToOutliers a);
                         ("percentile", percentile)];
          selector := JNull |}])
  else if String.eqb objectName "settings_plot_params" then
    let p := settings_plot_params s in
    weight ← inMinMax_js h ns (PlotParams.weight p) (JNum (num_lit 1)) (JNum (num_lit 50));
    textSize ← inMinMax_js h ns (PlotParams.textSize p) (JNum (num_lit 8)) (JNum (num_lit 40));
    mret (objectEnumeration ++
      [{| objectName := objectName;
          properties := [("plotType", PlotParams.plotType p); ("weight", weight);
                         ("lineCol", PlotParams.lineCol p); ("labelsCol", PlotParams.labelsCol p);
                         ("textSize", textSize)];
          selector := JNull |}])
  else if String.eqb objectName "settings_extra_params" then
    let e := settings_extra_params s in
    textSize ← inMinMax_js h ns (ExtraParams.textSize e) (JNum (num_lit 8)) (JNum (num_lit 40));
    mret (objectEnumeration ++
      [{| objectName := objectName;
          properties := [("show", ExtraParams.show e); ("textSize", textSize);
                         ("infoCol", ExtraParams.infoCol e)];
          selector := JNull |}])
  else mret objectEnumeration.

(** The body of [create]: [new powerbi.extensibility.visual.PBI_CV_....Visual(options)],
    with [powerbi] the object the third script captured.  [new] reads the
    class's [prototype], which becomes the instance's prototype; the
    host keeps it with the adapter's state. *)
Definition create_js (h : bstore) (powerbi : rval N) (options : VisualConstructorOptions)
    (doc : document) : jsm (rval N * (Visual N * document)) :=
  match read_path h powerbi ns_path with
  | Throw e => Some (Throw e)
  | Normal nsv =>
      match resolve_fn h nsv "Visual" with
      | Normal (cls, VisualCtor) =>
          match get_prop h (RObj cls) "prototype" with
          | Normal proto => mret (proto, constructor options doc)
          | Throw e => Some (Throw e)
          end
      | Normal _ => None
      | Throw e => Some (Throw e)
      end
  end.
End Compiled.

(** ** The host's calls into the loaded bundle *)

Section Host.
Context {N : Type} `{JsNumber N}.
Notation brealm := (realm (closure N) N) (only parsing).
Notation bstore := (gmap loc (cell (closure N) N)) (only parsing).

(** The descriptor the host finds in its plugin table under the
    visual's name. *)
Definition registered_plugin (r : brealm) : completion (rval N) :=
  read_path (heap r) (default RUndefined (globals r !! "powerbi")) (plugin_path ++ [GUID]).

(** [descriptor.create(options)]. *)
Definition host_create (h : bstore) (descriptor : rval N) (options : VisualConstructorOptions)
    (doc : document) : jsm (rval N * (Visual N * document)) :=
  match resolve_fn h descriptor "create" with
  | Normal (_, CreateFn p) => create_js h p options doc
  | Normal _ => None
  | Throw e => Some (Throw e)
  end.

(** [visual.update(options)], [visual.onResizing(viewport)] and
    [visual.enumerateObjectInstances(options)] on an instance whose
    prototype is [proto]: the instance has no own property of these
    names, so the methods are the prototype's. *)
Definition host_update (h : bstore) (proto : rval N) (o : VisualUpdateOptions N)
    (st : Visual N * document) : jsm (Visual N * document) :=
  match resolve_fn h proto "update" with
  | Normal (_, UpdateMethod ns) => update_js h ns proto o st
  | Normal _ => None
  | Throw e => Some (Throw e)
  end.

Definition host_enumerate (h : bstore) (proto : rval N) (st : Visual N * document)
    (opts : EnumerateVisualObjectInstancesOptions) : jsm (list (VisualObjectInstance N)) :=
  match resolve_fn h proto "enumerateObjectInstances" with
  | Normal (_, EnumerateMethod ns) => enumerate_js h ns st opts
  | Normal _ => None
  | Throw e => Some (Throw e)
  end.

(** A run of host events against the instance, as [HostApi.run_trace]. *)
Fixpoint bundle_run (h : bstore) (proto : rval N) (tr : list (host_event N))
    (st : Visual N * document) : jsm (Visual N * document) :=
  match tr with
  | [] => mret st
  | EvUpdate o :: tr => st ← host_update h proto o st; bundle_run h proto tr st
  | EvResize vp :: tr => st ← call_onResizing h proto vp st; bundle_run h proto tr st
  | EvEnumerate opts :: tr => _ ← host_enumerate h proto st opts; bundle_run h proto tr st
  end.

(** The function object's code at property [k] of the object at [l]. *)
Definition fn_at (h : bstore) (l : loc) (k : string) : option (closure N) :=
  match slot h l k with Some (RObj f) => code_of h f | _ => None end.

(** The namespace at [ns] holds the eight helpers. *)
Definition exports_installed (h : bstore) (ns : loc) : Prop :=
  Forall (fun e => fn_at h ns e.1 = Some (Helper e.2)) helper_exports.

(** The namespace at [ns] holds the class, whose prototype holds the
    three methods reading that namespace. *)
Definition class_installed (h : bstore) (ns : loc) : Prop :=
  exists cls proto,
    slot h ns "Visual" = Some (RObj cls) /\ code_of h cls = Some VisualCtor /\
    slot h cls "prototype" = Some (RObj proto) /\
    fn_at h proto "update" = Some (UpdateMethod (RObj ns)) /\
    fn_at h proto "onResizing" = Some OnResizingMethod /\
    fn_at h proto "enumerateObjectInstances" = Some (EnumerateMethod (RObj ns)).

(** What the loaded bundle provides: the global [powerbi] leads to the
    namespace, which holds the helpers and the class; the plugin table
    holds the descriptor, whose [create] reads that [powerbi]. *)
Definition bundle_installed (r : brealm) : Prop :=
  exists p ns d,
    globals r !! "powerbi" = Some (RObj p) /\
    path_at (heap r) p ns_path = Some ns /\
    exports_installed (heap r) ns /\ class_installed (heap r) ns /\
    path_at (heap r) p (plugin_path ++ [GUID]) = Some d /\
    fn_at (heap r) d "create" = Some (CreateFn (RObj p)).

(** A page the bundle can be loaded into: the global [powerbi] is
    absent, falsy or an object; along both paths every existing property
    is an object or falsy; and the objects at [powerbi.extensibility.visual]
    and [powerbi.visuals.plugins], when both exist, differ (otherwise the
    descriptor would overwrite the namespace). *)
Definition bundle_ready (r : brealm) : bool :=
  match default RUndefined (globals r !! "powerbi") with
  | RObj p =>
      path_ok (heap r) p ns_path && path_ok (heap r) p plugin_path &&
      match path_at (heap r) p ["extensibility"; "visual"], path_at (heap r) p plugin_path with
      | Some a, Some b => negb (bool_decide (a = b))
      | _, _ => true
      end
  | v => negb (r_truthy v)
  end.
End Host.

(** ** The compiled class is the class of visual.ts *)

Section Equivalence.
Context {N : Type} `{JsNumberLaws N}.
Notation bstore := (gmap loc (cell (closure N) N)) (only parsing).

Lemma resolve_fn_slot (h : bstore) l m f c :
  slot h l m = Some (RObj f) -> code_of h f = Some c -> resolve_fn h (RObj l) m = Normal (f, c).
Proof. intros Hs Hc. unfold resolve_fn, get_prop. rewrite Hs. simpl. by rewrite Hc. Qed.

Lemma resolve_fn_at (h : bstore) l m c :
  fn_at h l m = Some c -> exists f, resolve_fn h (RObj l) m = Normal (f, c).
Proof.
  unfold fn_at, resolve_fn, get_prop.
  destruct (slot h l m) as [[| | | | |f]|]; try done. intros Hc. exists f. simpl. by rewrite Hc.
Qed.

Lemma populate_settings_js_eq (h : bstore) ns f objects :
  resolve_fn h ns "getValue" = Normal (f, Helper HgetValue) ->
  populate_settings_js h ns objects = Some (populate_settings objects).
Proof.
  intros Hr. unfold populate_settings_js, getValue_js, call_ns. rewrite Hr.
  cbn [call_helper]. rewrite populate_settings_of, !getValue_eq. done.
Qed.

Lemma update_js_eq (h : bstore) ns proto f g o (st : Visual N * document) :
  resolve_fn h ns "getValue" = Normal (f, Helper HgetValue) ->
  resolve_fn h proto "onResizing" = Normal (g, OnResizingMethod) ->
  update_js h ns proto o st = Some (update o st).
Proof.
  intros Hg Ho. destruct st as [v doc]. unfold update_js, update.
  destruct (dataViews o) as [dvs|]; [|done]. destruct (Nat.eqb _ 0); [done|].
  destruct (match dvs !! 0 with Some dv => dv | None => None end) as [dv|]; [|done].
  destruct (metadata dv) as [md|]; [|done].
  rewrite (populate_settings_js_eq h ns f), populate_settings_of by done.
  simpl. unfold call_onResizing. by rewrite Ho.
Qed.

Lemma enumerate_js_eq (h : bstore) ns f st opts :
  resolve_fn h ns "inMinMax" = Normal (f, Helper HinMinMax) ->
  enumerate_js h ns st opts = Some (Normal (enumerateObjectInstances st opts)).
Proof.
  intros Hr. unfold enumerate_js, enumerateObjectInstances, enumerate_settings,
    inMinMax_js, call_ns. rewrite Hr.
  unfold ModelParams.push_instances, AlgoParams.push_instances,
    PlotParams.push_instances, ExtraParams.push_instances.
  by case_ifs.
Qed.
End Equivalence.

(** ** Late binding *)

Section LateBinding.
Context {N : Type} `{JsNumberLaws N}.
Notation bstore := (gmap loc (cell (closure N) N)) (only parsing).

(** C14: the compiled [update] looks [getValue] up in the namespace each
    time it runs, not when the file is loaded: with a namespace that has
    no [getValue], an update the guard rejects still returns the state
    unchanged, and an accepted one throws a TypeError (the call of
    [undefined]) instead of returning a state. *)
Theorem update_js_unbound (h : bstore) ns proto o (st : Visual N * document) :
  get_prop h ns "getValue" = Normal RUndefined ->
  update_js h ns proto o st =
  match accepted_metadata o with
  | None => Some (Normal st)
  | Some _ => Some (Throw TypeError)
  end.
Proof.
  intros Hg. destruct st as [v doc].
  unfold update_js, accepted_metadata, first_dataView.
  destruct (dataViews o) as [[|[dv|] dvs]|]; simpl; try done.
  destruct (metadata dv) as [md|]; [|done].
  unfold populate_settings_js, getValue_js, call_ns, resolve_fn. by rewrite Hg.
Qed.
End LateBinding.

Lemma update_js_unbound_witness :
  get_prop (∅ : gmap loc (cell (closure znum) znum)) (RObj 1%positive) "getValue" = Normal RUndefined /\
  update_js ∅ (RObj 1%positive) (RObj 2%positive) payload_options sample_state
    = Some (Throw TypeError).
Proof.
  assert (get_prop (∅ : gmap loc (cell (closure znum) znum)) (RObj 1%positive) "getValue"
          = Normal RUndefined) as Hg by reflexivity.
  split; [exact Hg|].
  rewrite (update_js_unbound ∅ (RObj 1%positive) (RObj 2%positive) payload_options sample_state Hg).
  vm_compute. reflexivity.
Defined.

(** ** Through the registered descriptor, the bundle is the model of visual.ts *)

Section Refinement.
Context {N : Type} `{JsNumberLaws N}.
Notation brealm := (realm (closure N) N) (only parsing).
Notation bstore := (gmap loc (cell (closure N) N)) (only parsing).

Lemma jsm_bind_some {A B} (c : completion A) (k : A -> jsm B) :
  (x ← (Some c : jsm A); k x) = match c with Normal a => k a | Throw e => Some (Throw e) end.
Proof. by destruct c. Qed.

(** The host's calls on an instance whose prototype holds the three
    methods, reading a namespace that holds [getValue] and [inMinMax],
    are the adapter's operations. *)
Lemma bundle_run_eq (h : bstore) proto (tr : list (host_event N)) st :
  (forall o st, host_update h proto o st = Some (update o st)) ->
  (forall vp st, call_onResizing h proto vp st = Some (Normal (onResizing vp st))) ->
  (forall st opts, host_enumerate h proto st opts = Some (Normal (enumerateObjectInstances st opts))) ->
  bundle_run h proto tr st = Some (run_trace tr st).
Proof.
  intros Hu Hr He. revert st. induction tr as [|[o|vp|opts] tr IH]; intros st; simpl.
  - done.
  - rewrite Hu, jsm_bind_some. cbn. destruct (update o st); [apply IH|done].
  - rewrite Hr. apply IH.
  - rewrite He. apply IH.
Qed.

Lemma installed_dispatch (r : brealm) :
  bundle_installed r ->
  exists d proto, registered_plugin r = Normal d /\
    (forall options doc, host_create (heap r) d options doc
                         = Some (Normal (proto, constructor options doc))) /\
    (forall o st, host_update (heap r) proto o st = Some (update o st)) /\
    (forall vp st, call_onResizing (heap r) proto vp st = Some (Normal (onResizing vp st))) /\
    (forall st opts, host_enumerate (heap r) proto st opts
                     = Some (Normal (enumerateObjectInstances st opts))).
Proof.
  intros (p & ns & d & Hp & Hns & Hex & (cls & proto & Hv & Hcls & Hproto & Hu & Ho & He) & Hd & Hc).
  unfold exports_installed, helper_exports in Hex. rewrite !Forall_cons in Hex. destruct Hex as (Hgv & _ & _ & _ & _ & Him & _).
  destruct (resolve_fn_at _ _ _ _ Hgv) as [fg Hgv'].
  destruct (resolve_fn_at _ _ _ _ Him) as [fi Him'].
  destruct (resolve_fn_at _ _ _ _ Hu) as [fu Hu'].
  destruct (resolve_fn_at _ _ _ _ Ho) as [fo Ho'].
  destruct (resolve_fn_at _ _ _ _ He) as [fe He'].
  destruct (resolve_fn_at _ _ _ _ Hc) as [fc Hc'].
  pose proof (resolve_fn_slot _ _ _ _ _ Hv Hcls) as Hvis'.
  exists (RObj d), (RObj proto). split_and!.
  - unfold registered_plugin. rewrite Hp. by apply read_path_at.
  - intros options doc. unfold host_create, create_js. rewrite Hc', (read_path_at _ _ _ _ Hns), Hvis'.
    cbn [get_prop]. by rewrite Hproto.
  - intros o st. unfold host_update. rewrite Hu'. by eapply update_js_eq.
  - intros vp st. unfold call_onResizing. by rewrite Ho'.
  - intros st opts. unfold host_enumerate. rewrite He'. by eapply enumerate_js_eq.
Qed.
End Refinement.
