(* ===== verification/BundleLoad.v ===== *)
(** * Loading the bundle into a page

    What the three scripts of visual.js leave in the realm
    ([Bundle.load_bundle]): on every page the bundle can be loaded into
    ([Bundle.bundle_ready]), loading succeeds, keeps the realm well
    formed, installs what [Bundle.bundle_installed] describes, and keeps
    every property of the page's existing objects except those of the
    names it writes, so that the namespace objects are shared with what
    was there and every other registered plugin stays registered; the
    page is then ready for the bundle again, so reloading it succeeds.

    The proof follows the scripts: one lemma per kind of statement
    (the [||] chains, hoisted functions, export assignments, prototype
    methods, the class expression, the descriptor literal), then one
    lemma per script, and frame lemmas that carry what an earlier script
    installed across the later ones. *)

From S2P Require Import Prelude JsNumber JsValue PropertyLookup Settings Dom Realm HostApi Visual Bundle.

(** The property names the bundle writes into objects that may exist
    before it runs. *)
Definition bundle_keys : list string :=
  ns_path ++ map fst helper_exports ++
  ["update"; "onResizing"; "enumerateObjectInstances"; "Visual"] ++ plugin_path.

Section Statements.
Context {N : Type} `{JsNumber N}.
Notation bstore := (gmap loc (cell (closure N) N)) (only parsing).
Implicit Types (h : bstore).

Lemma fn_at_keeps K h h' l k :
  heap_wf h -> keeps K h h' -> is_Some (h !! l) -> k ∉ K -> fn_at h' l k = fn_at h l k.
Proof.
  intros Hwf Hk Hl Hn. unfold fn_at. rewrite (keeps_slot K h h' l k Hk Hl Hn).
  destruct (slot h l k) as [[| | | | |f]|] eqn:Hs; try done.
  apply (keeps_code K h h'); [done|]. by eapply Hwf.
Qed.

Lemma fn_at_set_ne h l0 k0 x l k :
  l <> l0 \/ k <> k0 -> fn_at (alter (cell_set k0 x) l0 h) l k = fn_at h l k.
Proof.
  intros Hne. unfold fn_at. rewrite slot_set_ne by done.
  destruct (slot h l k) as [[| | | | |f]|]; try done. apply code_of_set.
Qed.

(** Assignments to the properties of one object. *)
Lemma define_props_spec h o ps :
  heap_wf h -> is_Some (h !! o) -> Forall (fun kv => val_wf h kv.2) ps ->
  exists h', define_props h (RObj o) ps = Normal h' /\ heap_wf h' /\
    keeps (map fst ps) h h' /\ (forall l, l <> o -> h' !! l = h !! l) /\
    (NoDup (map fst ps) -> Forall (fun kv => slot h' o kv.1 = Some kv.2) ps).
Proof.
  revert h. induction ps as [|[k v] ps IH]; intros h Hwf Ho Hps.
  - exists h. split_and!; [done|done|apply keeps_refl|done|constructor].
  - apply Forall_cons in Hps as [Hv Hps]. simpl in Hv.
    set (h1 := alter (cell_set k v) o h).
    assert (heap_wf h1) as Hwf1 by (by apply heap_wf_set).
    assert (is_Some (h1 !! o)) as Ho1 by (by apply lookup_alter_is_Some).
    destruct (IH h1 Hwf1 Ho1) as (h' & Hd & Hwf' & Hk' & Hu' & Hs').
    { eapply Forall_impl; [exact Hps|]. intros kv Hkv.
      by eapply val_wf_keeps; [apply keeps_set|]. }
    exists h'. split_and!.
    + done.
    + done.
    + apply (keeps_trans [k] (map fst ps) h h1 h'); [apply keeps_set|done].
    + intros l Hl. rewrite Hu' by done. unfold h1. by rewrite lookup_alter_ne.
    + intros Hnd. apply NoDup_cons in Hnd as [Hk Hnd]. constructor.
      * simpl. rewrite (keeps_slot (map fst ps) h1 h' o k Hk' Ho1 Hk). by apply slot_set_eq.
      * by apply Hs'.
Qed.

Lemma assign_exports_props h ns xs :
  assign_exports h ns xs = define_props h ns (map (fun xl => (xl.1, RObj xl.2)) xs).
Proof.
  revert h. induction xs as [|[x l] xs IH]; intros h; simpl; [done|].
  destruct (set_prop h ns x (RObj l)); [apply IH|done].
Qed.

(** Hoisted declarations: fresh function objects with their code. *)
Lemma declare_functions_spec fs h ls h' :
  heap_wf h -> declare_functions fs h = (ls, h') ->
  heap_wf h' /\ keeps [] h h' /\
  Forall2 (fun f l => code_of h' l = Some f /\ h !! l = None) fs ls.
Proof.
  revert h ls. induction fs as [|f fs IH]; intros h ls Hwf Hd; cbn [declare_functions] in Hd.
  - injection Hd as <- <-. split_and!; [done|apply keeps_refl|constructor].
  - destruct (new_function f h) as [l1 h1] eqn:Hn.
    destruct (declare_functions fs h1) as [ls1 h2] eqn:Hfs. injection Hd as <- <-.
    destruct (new_function_spec f h l1 h1 Hwf Hn) as (Hf1 & Hwf1 & Hk1 & Hc1 & _).
    destruct (IH h1 ls1 Hwf1 Hfs) as (Hwf2 & Hk2 & HF).
    split_and!; [done|by apply (keeps_trans [] [] h h1 h2)|constructor].
    + split; [|done]. rewrite (keeps_code [] h1 h2 l1 Hk2); [done|]. by eapply code_of_is_Some.
    + eapply Forall2_impl; [exact HF|]. intros f' l' [Hc Hn']. split; [done|].
      destruct (h !! l') eqn:E; [|done].
      destruct (keeps_is_Some [] h h1 l' Hk1 ltac:(by eexists)); congruence.
Qed.

(** [Visual.prototype.m = function ...]. *)
Lemma define_method_spec h cls pl m f :
  heap_wf h -> slot h cls "prototype" = Some (RObj pl) -> is_Some (h !! pl) ->
  exists h', define_method h cls m f = Normal h' /\ heap_wf h' /\ keeps [m] h h' /\
    fn_at h' pl m = Some f.
Proof.
  intros Hwf Hs Hpl. unfold define_method.
  assert (get_prop h (RObj cls) "prototype" = Normal (RObj pl)) as Hg by (simpl; by rewrite Hs).
  rewrite Hg. cbn [mbind completion_bind].
  destruct (new_function f h) as [fl h1] eqn:Hn.
  destruct (new_function_spec f h fl h1 Hwf Hn) as (Hf & Hwf1 & Hk1 & Hc & _).
  exists (alter (cell_set m (RObj fl)) pl h1). split_and!.
  - done.
  - apply heap_wf_set; [done|]. intros l [= <-]. by eapply code_of_is_Some.
  - apply (keeps_trans [] [m] h h1); [done|apply keeps_set].
  - unfold fn_at. rewrite slot_set_eq by (by eapply keeps_is_Some). by rewrite code_of_set.
Qed.
End Statements.

(** ** The scripts *)

Section Scripts.
Context {N : Type} `{JsNumber N}.
Notation brealm := (realm (closure N) N) (only parsing).
Notation bstore := (gmap loc (cell (closure N) N)) (only parsing).

(** What the [||] chains of the scripts need from the object in
    [powerbi]. *)
Definition paths_ready (h : bstore) (p : loc) : Prop :=
  path_ok h p ns_path = true /\ path_ok h p plugin_path = true /\
  forall a b, path_at h p ["extensibility"; "visual"] = Some a ->
    path_at h p plugin_path = Some b -> a <> b.

Lemma global_step (r : brealm) :
  realm_wf r -> bundle_ready r = true ->
  exists p rg, global_or_init "powerbi" (declare_var "powerbi" r) = (RObj p, rg) /\
    realm_wf rg /\ keeps [] (heap r) (heap rg) /\ globals rg !! "powerbi" = Some (RObj p) /\
    (forall y, y <> "powerbi" -> globals rg !! y = globals r !! y) /\
    is_Some (heap rg !! p) /\ paths_ready (heap rg) p.
Proof.
  intros Hwf Hr.
  assert (global_ok (declare_var "powerbi" r) "powerbi" = true) as Hok.
  { rewrite global_ok_declare. unfold global_ok, bundle_ready in *.
    by destruct (default RUndefined (globals r !! "powerbi")). }
  destruct (global_or_init_spec _ _ (declare_var_wf r _ Hwf) Hok)
    as (p & rg & Hg & Hwf' & Hk & Hp & Ho & Hold).
  rewrite declare_var_heap in Hk.
  assert (globals rg !! "powerbi" = Some (RObj p)) as Hpw
    by (destruct (globals rg !! "powerbi"); simpl in Hp; by subst).
  exists p, rg. split_and!; try done.
  - intros y Hy. rewrite Ho by done. by apply declare_var_other.
  - by apply (proj2 Hwf' "powerbi" (RObj p)).
  - destruct Hold as [[Hv ->]|[_ He]].
    + rewrite declare_var_value in Hv. rewrite declare_var_heap.
      unfold bundle_ready in Hr. rewrite Hv in Hr.
      apply andb_true_iff in Hr as [[H1 H2]%andb_true_iff H3]. split_and!; [done|done|].
      intros a b Ha Hb. rewrite Ha, Hb in H3. apply negb_true_iff, bool_decide_eq_false in H3.
      done.
    + split_and!; [by apply path_ok_empty..|]. intros a b Ha. simpl in Ha.
      unfold slot in Ha. by rewrite He in Ha.
Qed.

Lemma open_namespace_unfold (r : brealm) :
  open_namespace r =
  let '(p, rg) := global_or_init "powerbi" (declare_var "powerbi" r) in
  '(ns, h) ← ensure_path (heap rg) p ns_path; mret (ns, {| heap := h; globals := globals rg |}).
Proof. reflexivity. Qed.

(** The chains [powerbi.extensibility || ...], [.visual || ...] and
    [.PBI_CV_... || ...] from an object whose paths are ready end on the
    namespace, under an object [powerbi.extensibility.visual] that is not
    the plugin table. *)
Lemma ensure_ns_spec (h : bstore) p :
  heap_wf h -> is_Some (h !! p) -> paths_ready h p ->
  exists vis n h', ensure_path h (RObj p) ns_path = Normal (RObj n, h') /\ heap_wf h' /\
    keeps ns_path h h' /\ path_at h' p ["extensibility"; "visual"] = Some vis /\
    slot h' vis GUID = Some (RObj n) /\ is_Some (h' !! n) /\
    path_ok h' p plugin_path = true /\
    (forall b, path_at h' p plugin_path = Some b -> b <> vis).
Proof.
  intros Hwf Hpl (Hok1 & Hok2 & Halias).
  assert (path_ok h p ["extensibility"; "visual"] = true) as Hok0
    by (by apply (path_ok_prefix _ [GUID])).
  destruct (ensure_path_spec ["extensibility"; "visual"] h p Hwf Hpl ltac:(decide_closed) Hok0)
    as (vis & ha & He1 & Hwfa & Hka & Hpa & Hva).
  assert (is_Some (ha !! vis)) as Hvis
    by (eapply path_at_is_Some; [done| |done]; by eapply keeps_is_Some).
  assert (path_ok ha vis [GUID] = true) as Hok3.
  { destruct Hva as [Hold|[_ Hemp]]; [|by apply path_ok_empty].
    apply (path_ok_keeps ["extensibility"; "visual"] _ h); try done;
      [keys_disjoint|by eapply path_at_is_Some|].
    by rewrite <- (path_ok_app _ _ h p vis Hold). }
  destruct (ensure_path_spec [GUID] ha vis Hwfa Hvis (NoDup_singleton _) Hok3)
    as (n & hb & He2 & Hwfb & Hkb & Hpb & _).
  assert (keeps ns_path h hb) as Hhb by exact (keeps_trans _ _ _ _ _ Hka Hkb).
  exists vis, n, hb. split_and!; try done.
  - change ns_path with (["extensibility"; "visual"] ++ [GUID]).
    rewrite ensure_path_app, He1. cbn [mbind completion_bind]. by rewrite He2.
  - rewrite (path_at_keeps [GUID] _ ha hb); [done|done|done|keys_disjoint|].
    by eapply keeps_is_Some.
  - by apply path_at_one in Hpb.
  - eapply path_at_is_Some; [done| |exact Hpb]. exact (keeps_is_Some _ _ _ _ Hkb Hvis).
  - by apply (path_ok_keeps ns_path _ h); [..|keys_disjoint| |].
  - intros b Hb. rewrite (path_at_keeps ns_path _ h) in Hb by (done || keys_disjoint).
    intros Heq. subst b. destruct Hva as [Hold|[Hf _]]; [exact (Halias vis vis Hold Hb eq_refl)|].
    apply path_at_is_Some in Hb; [|done|done]. destruct Hb; congruence.
Qed.

(** [var powerbi;] and the four wrapper arguments of a script. *)
Lemma open_namespace_spec (r : brealm) :
  realm_wf r -> bundle_ready r = true ->
  exists p vis n r', open_namespace r = Normal (RObj n, r') /\ realm_wf r' /\
    globals r' !! "powerbi" = Some (RObj p) /\
    (forall y, y <> "powerbi" -> globals r' !! y = globals r !! y) /\
    keeps ns_path (heap r) (heap r') /\
    path_at (heap r') p ["extensibility"; "visual"] = Some vis /\
    slot (heap r') vis GUID = Some (RObj n) /\ is_Some (heap r' !! n) /\
    path_ok (heap r') p plugin_path = true /\
    (forall b, path_at (heap r') p plugin_path = Some b -> b <> vis).
Proof.
  intros Hwf Hr.
  destruct (global_step r Hwf Hr) as (p & rg & Hg & [Hwfg Hglg] & Hkg & Hp & Ho & Hpl & Hready).
  destruct (ensure_ns_spec (heap rg) p Hwfg Hpl Hready)
    as (vis & n & hb & He & Hwfb & Hgb & Hvis & Hsl & Hn & Hok & Hal).
  exists p, vis, n, {| heap := hb; globals := globals rg |}.
  split_and!; cbn [heap globals]; try done.
  - rewrite open_namespace_unfold, Hg. cbv beta iota. by rewrite He.
  - split; [done|]. intros y v Hy. eapply val_wf_keeps; [exact Hgb|]. by apply (Hglg y).
  - exact (keeps_trans _ _ _ _ _ Hkg Hgb).
Qed.
End Scripts.

Section Script1.
Context {N : Type} `{JsNumber N}.
Notation brealm := (realm (closure N) N) (only parsing).
Notation bstore := (gmap loc (cell (closure N) N)) (only parsing).

(** The hoisted helpers and the eight export statements. *)
Lemma exports_spec (h : bstore) n ls h1 :
  heap_wf h -> is_Some (h !! n) ->
  declare_functions (map (fun e => Helper e.2) helper_exports) h = (ls, h1) ->
  exists h', assign_exports h1 (RObj n) (zip (map fst helper_exports) ls) = Normal h' /\
    heap_wf h' /\ keeps (map fst helper_exports) h h' /\
    Forall (fun e => fn_at h' n e.1 = Some (Helper e.2)) helper_exports.
Proof.
  intros Hwf Hn Hd.
  destruct (declare_functions_spec _ h ls h1 Hwf Hd) as (Hwf1 & Hk1 & HF).
  assert (length (map fst helper_exports) = length ls) as Hlen
    by (apply Forall2_length in HF; by rewrite !length_map in *).
  rewrite assign_exports_props.
  destruct (define_props_spec h1 n (map (fun xl => (xl.1, RObj xl.2)) (zip (map fst helper_exports) ls))
              Hwf1 (keeps_is_Some _ _ _ _ Hk1 Hn)) as (h2 & Hdp & Hwf2 & Hk2 & _ & Hs2).
  { apply Forall_map. apply (Forall_zip_snd _ (fun l => val_wf h1 (RObj l)) _ _ _ HF).
    intros c l [Hc _] l' [= <-].
    by eapply code_of_is_Some. }
  assert (map fst (map (fun xl => (xl.1, RObj (N:=N) xl.2)) (zip (map fst helper_exports) ls))
          = map fst helper_exports) as Hfst by (rewrite map_map; by apply map_fst_zip).
  rewrite Hfst in Hk2, Hs2.
  exists h2. split_and!; [done|done|exact (keeps_trans _ _ _ _ _ Hk1 Hk2)|].
  assert (NoDup (map fst helper_exports)) as Hnd by decide_closed. specialize (Hs2 Hnd). apply Forall_map in Hs2.
  apply (Forall_zip_combine fst (fun e => Helper e.2) _ _ _ helper_exports ls HF Hs2).
  intros [x f] l [Hc _] Hsl. unfold fn_at. simpl in Hsl |- *. rewrite Hsl.
  rewrite (keeps_code _ h1 h2 l Hk2); [done|by eapply code_of_is_Some].
Qed.

(** The first script: the namespace holds the eight helpers. *)
Lemma helpers_module_spec (r : brealm) :
  realm_wf r -> bundle_ready r = true ->
  exists p vis n r1, load_helpers_module r = Normal r1 /\ realm_wf r1 /\
    globals r1 !! "powerbi" = Some (RObj p) /\
    (forall y, y <> "powerbi" -> globals r1 !! y = globals r !! y) /\
    keeps (ns_path ++ map fst helper_exports) (heap r) (heap r1) /\
    path_at (heap r1) p ["extensibility"; "visual"] = Some vis /\
    slot (heap r1) vis GUID = Some (RObj n) /\ is_Some (heap r1 !! n) /\
    Forall (fun e => fn_at (heap r1) n e.1 = Some (Helper e.2)) helper_exports /\
    path_ok (heap r1) p plugin_path = true /\
    (forall b, path_at (heap r1) p plugin_path = Some b -> b <> vis).
Proof.
  intros Hwf Hr.
  destruct (open_namespace_spec r Hwf Hr)
    as (p & vis & n & r' & Ho & [Hwf' Hgl'] & Hp & Hoth & Hk & Hvis & Hsl & Hn & Hok & Hal).
  destruct (declare_functions (map (fun e => Helper e.2) helper_exports) (heap r'))
    as [ls h1] eqn:Hd.
  destruct (exports_spec (heap r') n ls h1 Hwf' Hn Hd) as (h' & He & Hwfh & Hkh & Hex).
  assert (is_Some (heap r' !! p)) as Hpl by (by apply (Hgl' "powerbi" (RObj p))).
  assert (is_Some (heap r' !! vis)) as Hvl by (by eapply path_at_is_Some).
  exists p, vis, n, {| heap := h'; globals := globals r' |}. split_and!; cbn [heap globals].
  - unfold load_helpers_module. rewrite Ho. cbn [mbind completion_bind]. rewrite Hd.
    by rewrite He.
  - split; [done|]. intros y v Hy. eapply val_wf_keeps; [exact Hkh|]. by apply (Hgl' y).
  - done.
  - done.
  - exact (keeps_trans _ _ _ _ _ Hk Hkh).
  - by rewrite (path_at_keeps (map fst helper_exports) _ (heap r') h'); [..|keys_disjoint|].
  - rewrite (keeps_slot (map fst helper_exports) (heap r') h'); [done..|decide_closed].
  - by eapply keeps_is_Some.
  - done.
  - by apply (path_ok_keeps (map fst helper_exports) _ (heap r')); [..|keys_disjoint| |].
  - intros b Hb. rewrite (path_at_keeps (map fst helper_exports) _ (heap r') h') in Hb;
      [by apply Hal|done|done|keys_disjoint|done].
Qed.
End Script1.

Section Script2.
Context {N : Type} `{JsNumber N}.
Notation brealm := (realm (closure N) N) (only parsing).
Notation bstore := (gmap loc (cell (closure N) N)) (only parsing).

(** Once [powerbi] leads to the namespace, the [||] chains only read. *)
Lemma open_namespace_loaded (r : brealm) p vis n :
  globals r !! "powerbi" = Some (RObj p) ->
  path_at (heap r) p ["extensibility"; "visual"] = Some vis ->
  slot (heap r) vis GUID = Some (RObj n) ->
  open_namespace r = Normal (RObj n, {| heap := heap r; globals := globals r |}).
Proof.
  intros Hp Hvis Hn. rewrite open_namespace_unfold.
  assert (declare_var "powerbi" r = r) as -> by (unfold declare_var; by rewrite Hp).
  unfold global_or_init. rewrite Hp. cbn [default from_option id r_truthy].
  rewrite (ensure_path_at _ _ _ n); [done|].
  change ns_path with (["extensibility"; "visual"] ++ [GUID]).
  rewrite path_at_app, Hvis. simpl. by apply path_at_one.
Qed.

(** The class expression: a fresh class whose fresh prototype holds
    the three methods. *)
Lemma class_expression_spec (h : bstore) ns :
  heap_wf h ->
  exists cls pl h', class_expression h ns = Normal (cls, h') /\ heap_wf h' /\
    keeps ["update"; "onResizing"; "enumerateObjectInstances"] h h' /\ h !! cls = None /\
    code_of h' cls = Some VisualCtor /\ slot h' cls "prototype" = Some (RObj pl) /\
    fn_at h' pl "update" = Some (UpdateMethod ns) /\
    fn_at h' pl "onResizing" = Some OnResizingMethod /\
    fn_at h' pl "enumerateObjectInstances" = Some (EnumerateMethod ns).
Proof.
  intros Hwf.
  destruct (new_function VisualCtor h) as [cls ha] eqn:Hnf.
  destruct (new_function_spec _ _ _ _ Hwf Hnf) as (Hfc & Hwfa & Hka & Hca & pl & Hpla & _ & Hpl).
  assert (is_Some (ha !! cls)) as Hcl by (by eapply code_of_is_Some).
  destruct (define_method_spec ha cls pl "update" (UpdateMethod ns) Hwfa Hpla Hpl)
    as (hb & Hdb & Hwfb & Hkb & Hub).
  assert (is_Some (hb !! pl)) as Hplb by exact (keeps_is_Some _ _ _ _ Hkb Hpl).
  assert (is_Some (hb !! cls)) as Hclb by exact (keeps_is_Some _ _ _ _ Hkb Hcl).
  assert (slot hb cls "prototype" = Some (RObj pl)) as Hplab
    by (rewrite (keeps_slot _ _ _ cls "prototype" Hkb Hcl); [done|decide_closed]).
  destruct (define_method_spec hb cls pl "onResizing" OnResizingMethod Hwfb Hplab Hplb)
    as (hc & Hdc & Hwfc & Hkc & Hoc).
  assert (is_Some (hc !! pl)) as Hplc by exact (keeps_is_Some _ _ _ _ Hkc Hplb).
  assert (is_Some (hc !! cls)) as Hclc by exact (keeps_is_Some _ _ _ _ Hkc Hclb).
  assert (slot hc cls "prototype" = Some (RObj pl)) as Hplac
    by (rewrite (keeps_slot _ _ _ cls "prototype" Hkc Hclb); [done|decide_closed]).
  destruct (define_method_spec hc cls pl "enumerateObjectInstances" (EnumerateMethod ns)
              Hwfc Hplac Hplc) as (hd & Hdd & Hwfd & Hkd & Hed).
  exists cls, pl, hd. split_and!; try done.
  - unfold class_expression. rewrite Hnf, Hdb. cbn [mbind completion_bind].
    rewrite Hdc. cbn [mbind completion_bind]. by rewrite Hdd.
  - exact (keeps_trans _ _ _ _ _ Hka (keeps_trans _ _ _ _ _ Hkb (keeps_trans _ _ _ _ _ Hkc Hkd))).
  - by rewrite (keeps_code _ _ _ cls Hkd Hclc), (keeps_code _ _ _ cls Hkc Hclb),
      (keeps_code _ _ _ cls Hkb Hcl).
  - rewrite (keeps_slot _ _ _ cls "prototype" Hkd Hclc); [done|decide_closed].
  - rewrite (fn_at_keeps _ _ _ pl "update" Hwfc Hkd Hplc), (fn_at_keeps _ _ _ pl "update" Hwfb Hkc Hplb);
      [done|decide_closed..].
  - rewrite (fn_at_keeps _ _ _ pl "onResizing" Hwfc Hkd Hplc); [done|decide_closed].
Qed.

(** The second script: the namespace's [Visual] is the class. *)
Lemma visual_module_spec (r1 : brealm) p vis n :
  realm_wf r1 -> globals r1 !! "powerbi" = Some (RObj p) ->
  path_at (heap r1) p ["extensibility"; "visual"] = Some vis ->
  slot (heap r1) vis GUID = Some (RObj n) -> is_Some (heap r1 !! n) ->
  exists r2, load_visual_module r1 = Normal r2 /\ realm_wf r2 /\ globals r2 = globals r1 /\
    keeps ["update"; "onResizing"; "enumerateObjectInstances"; "Visual"] (heap r1) (heap r2) /\
    class_installed (heap r2) n.
Proof.
  intros [Hwf Hgl] Hp Hvis Hn Hnl.
  destruct (class_expression_spec (heap r1) (RObj n) Hwf)
    as (cls & pl & hd & Hce & Hwfd & Hk & Hfc & Hc & Hpr & Hu & Ho & He).
  assert (is_Some (hd !! n)) as Hnd by exact (keeps_is_Some _ _ _ _ Hk Hnl).
  assert (n <> cls) as Hne by (intros ->; destruct Hnl; congruence).
  exists {| heap := alter (cell_set "Visual" (RObj cls)) n hd; globals := globals r1 |}.
  split_and!; cbn [heap globals].
  - unfold load_visual_module. rewrite (open_namespace_loaded r1 p vis n) by done.
    cbn [mbind completion_bind heap globals]. by rewrite Hce.
  - split.
    + apply heap_wf_set; [done|]. intros l [= <-]. by eapply code_of_is_Some.
    + intros y v Hy. eapply val_wf_keeps; [apply keeps_set|].
      eapply val_wf_keeps; [exact Hk|]. by apply (Hgl y).
  - done.
  - exact (keeps_trans _ _ _ _ _ Hk (keeps_set _ _ _ _)).
  - exists cls, pl. rewrite !fn_at_set_ne by (right; discriminate).
    split_and!; try done.
    + by apply slot_set_eq.
    + by rewrite code_of_set.
    + by rewrite slot_set_ne by (left; congruence).
Qed.
End Script2.

Section Script3.
Context {N : Type} `{JsNumber N}.
Notation brealm := (realm (closure N) N) (only parsing).
Notation bstore := (gmap loc (cell (closure N) N)) (only parsing).

(** The descriptor literal: a fresh object whose [create] is a fresh
    function reading [powerbi]. *)
Lemma descriptor_spec (h : bstore) p d ha fc hb :
  heap_wf h -> new_object h = (d, ha) -> new_function (CreateFn (RObj p)) ha = (fc, hb) ->
  exists hc, define_props hb (RObj d) (descriptor_literal fc) = Normal hc /\
    heap_wf hc /\ keeps [] h hc /\ h !! d = None /\ is_Some (hc !! d) /\
    fn_at hc d "create" = Some (CreateFn (RObj p)).
Proof.
  intros Hwf Ho Hf.
  destruct (new_object_spec h d ha Hwf Ho) as (Hd & Hda & Hwfa & Hka).
  destruct (new_function_spec _ _ _ _ Hwfa Hf) as (Hfc & Hwfb & Hkb & Hcb & _).
  assert (is_Some (hb !! d)) as Hdb by (eapply keeps_is_Some; [exact Hkb|by eexists]).
  assert (Forall (fun kv => val_wf hb kv.2) (descriptor_literal fc)) as Hv.
  { repeat constructor; try (by intros l ?). intros l [= <-]. by eapply code_of_is_Some. }
  destruct (define_props_spec hb d (descriptor_literal fc) Hwfb Hdb Hv)
    as (hc & Hdp & Hwfc & Hkc & Hu & Hs).
  assert (fc <> d) as Hne by (intros ->; rewrite Hda in Hfc; discriminate).
  exists hc. split_and!; try done.
  - apply (keeps_unchanged_after [] h hb hc); [exact (keeps_trans _ _ _ _ _ Hka Hkb)|].
    intros l Hl. apply Hu. intros ->. destruct Hl; congruence.
  - exact (keeps_is_Some _ _ _ _ Hkc Hdb).
  - assert (NoDup (map fst (descriptor_literal (N:=N) fc))) as Hnd by decide_closed.
    specialize (Hs Hnd). rewrite Forall_forall in Hs.
    pose proof (Hs ("create", RObj fc) ltac:(unfold descriptor_literal; set_solver)) as Hcr.
    simpl in Hcr. unfold fn_at. rewrite Hcr. unfold code_of. by rewrite Hu.
Qed.

(** The third script: the plugin table holds the descriptor; the only
    existing property it changes is the table's entry, which is not the
    namespace's. *)
Lemma plugin_module_spec (r2 : brealm) p vis :
  realm_wf r2 -> globals r2 !! "powerbi" = Some (RObj p) ->
  path_ok (heap r2) p plugin_path = true ->
  (forall b, path_at (heap r2) p plugin_path = Some b -> b <> vis) -> is_Some (heap r2 !! vis) ->
  exists d r3, load_plugin_module r2 = Normal r3 /\ realm_wf r3 /\ globals r3 = globals r2 /\
    keeps (plugin_path ++ [GUID]) (heap r2) (heap r3) /\
    slot (heap r3) vis GUID = slot (heap r2) vis GUID /\
    path_at (heap r3) p (plugin_path ++ [GUID]) = Some d /\
    fn_at (heap r3) d "create" = Some (CreateFn (RObj p)) /\ heap r2 !! d = None.
Proof.
  intros [Hwf Hgl] Hp Hok Hal Hvis.
  assert (is_Some (heap r2 !! p)) as Hpl by (by apply (Hgl "powerbi" (RObj p))).
  destruct (ensure_path_spec plugin_path (heap r2) p Hwf Hpl ltac:(decide_closed) Hok)
    as (pls & ha & Hen & Hwfa & Hka & Hpa & Hold).
  assert (pls <> vis) as Hne.
  { destruct Hold as [Ho|[Hf _]]; [by apply Hal|]. intros ->. destruct Hvis; congruence. }
  destruct (new_object ha) as [d hb] eqn:Ho.
  destruct (new_function (CreateFn (RObj p)) hb) as [fc hc] eqn:Hf.
  destruct (descriptor_spec ha p d hb fc hc Hwfa Ho Hf) as (hd & Hdp & Hwfd & Hkd & Hdf & Hdd & Hcr).
  assert (is_Some (ha !! p)) as Hpla by exact (keeps_is_Some _ _ _ _ Hka Hpl).
  assert (is_Some (ha !! pls)) as Hplsa by exact (path_at_is_Some _ _ _ _ Hwfa Hpla Hpa).
  assert (pls <> d) as Hnd by (intros ->; destruct Hplsa; congruence).
  assert (is_Some (ha !! vis)) as Hvisa by exact (keeps_is_Some _ _ _ _ Hka Hvis).
  set (he := alter (cell_set GUID (RObj d)) pls hd).
  assert (keeps [GUID] ha he) as Hke by exact (keeps_trans _ _ _ _ _ Hkd (keeps_set _ _ _ _)).
  exists d, {| heap := he; globals := globals r2 |}. split_and!; cbn [heap globals].
  - unfold load_plugin_module.
    assert (declare_var "powerbi" r2 = r2) as -> by (unfold declare_var; by rewrite Hp).
    unfold global_or_init. rewrite Hp. cbn [default from_option id r_truthy heap globals].
    rewrite Hen. cbn [mbind completion_bind]. by rewrite Ho, Hf, Hdp.
  - split.
    + apply heap_wf_set; [done|]. by intros l [= <-].
    + intros y v Hy. apply (val_wf_keeps _ _ _ _ Hke), (val_wf_keeps _ _ _ _ Hka). by apply (Hgl y).
  - done.
  - exact (keeps_trans _ _ _ _ _ Hka Hke).
  - unfold he. rewrite slot_set_ne by (left; done).
    rewrite (keeps_slot _ _ _ vis GUID Hkd Hvisa) by decide_closed.
    by rewrite (keeps_slot _ _ _ vis GUID Hka Hvis) by decide_closed.
  - rewrite path_at_app, (path_at_keeps [GUID] plugin_path ha he); [|done|exact Hke|keys_disjoint|done].
    rewrite Hpa. simpl. apply path_at_one. apply slot_set_eq. by eapply keeps_is_Some.
  - unfold he. by rewrite fn_at_set_ne by (left; done).
  - apply eq_None_not_Some. intros Hs. apply (keeps_is_Some _ _ _ _ Hka) in Hs.
    destruct Hs; congruence.
Qed.
End Script3.

(** ** What stays installed *)

Section Installed.
Context {N : Type} `{JsNumber N}.
Notation bstore := (gmap loc (cell (closure N) N)) (only parsing).

Lemma exports_installed_keeps K (h h' : bstore) n :
  heap_wf h -> keeps K h h' -> is_Some (h !! n) ->
  Forall (fun e => e.1 ∉ K) helper_exports -> exports_installed h n -> exports_installed h' n.
Proof.
  intros Hwf Hk Hn HK Hex. unfold exports_installed in *.
  eapply Forall_impl; [apply Forall_and; split; [exact Hex|exact HK]|].
  intros e [He HKe]. by rewrite (fn_at_keeps _ _ _ _ _ Hwf Hk Hn HKe).
Qed.

Lemma class_installed_keeps K (h h' : bstore) n :
  heap_wf h -> keeps K h h' -> is_Some (h !! n) ->
  Forall (fun k => k ∉ K) ["Visual"; "prototype"; "update"; "onResizing"; "enumerateObjectInstances"] ->
  class_installed h n -> class_installed h' n.
Proof.
  intros Hwf Hk Hn HK (cls & pl & Hv & Hc & Hp & Hu & Ho & He).
  rewrite !Forall_cons in HK. destruct HK as (H1 & H2 & H3 & H4 & H5 & _).
  assert (is_Some (h !! cls)) as Hcl by (by eapply code_of_is_Some).
  assert (is_Some (h !! pl)) as Hpl by (by eapply Hwf).
  exists cls, pl. split_and!.
  - by rewrite (keeps_slot _ _ _ n "Visual" Hk Hn).
  - by rewrite (keeps_code _ _ _ cls Hk Hcl).
  - by rewrite (keeps_slot _ _ _ cls "prototype" Hk Hcl).
  - by rewrite (fn_at_keeps _ _ _ pl "update" Hwf Hk Hpl).
  - by rewrite (fn_at_keeps _ _ _ pl "onResizing" Hwf Hk Hpl).
  - by rewrite (fn_at_keeps _ _ _ pl "enumerateObjectInstances" Hwf Hk Hpl).
Qed.
(** A page whose [powerbi] global holds the namespace and, under a
    different object, the descriptor is ready for the bundle. *)
Lemma installed_ready (r : realm (closure N) N) p ns d :
  globals r !! "powerbi" = Some (RObj p) -> path_at (heap r) p ns_path = Some ns ->
  path_at (heap r) p (plugin_path ++ [GUID]) = Some d -> ns <> d -> bundle_ready r = true.
Proof.
  intros Hp Hns Hd Hne. unfold bundle_ready. rewrite Hp. cbn [default from_option id].
  rewrite (path_at_ok _ _ _ _ Hns).
  change ns_path with (["extensibility"; "visual"] ++ [GUID]) in Hns.
  rewrite path_at_app in Hns, Hd.
  destruct (path_at (heap r) p ["extensibility"; "visual"]) as [vis|]; [|done].
  destruct (path_at (heap r) p plugin_path) as [pls|] eqn:Hpl; [|done].
  rewrite (path_at_ok _ _ _ _ Hpl). simpl in Hns, Hd.
  apply negb_true_iff, bool_decide_eq_false. intros <-. congruence.
Qed.
End Installed.

(** ** The file *)

Section Load.
Context {N : Type} `{JsNumber N}.
Notation brealm := (realm (closure N) N) (only parsing).

Lemma load_bundle_installs (r : brealm) :
  realm_wf r -> bundle_ready r = true ->
  exists r', load_bundle r = Normal r' /\ realm_wf r' /\ bundle_installed r' /\
    bundle_ready r' = true /\ keeps bundle_keys (heap r) (heap r') /\
    (forall y, y <> "powerbi" -> globals r' !! y = globals r !! y).
Proof.
  intros Hwf Hr.
  destruct (helpers_module_spec r Hwf Hr)
    as (p & vis & n & r1 & H1 & Hwf1 & Hp1 & Ho1 & Hk1 & Hvis1 & Hsl1 & Hn1 & Hex1 & Hok1 & Hal1).
  destruct (visual_module_spec r1 p vis n Hwf1 Hp1 Hvis1 Hsl1 Hn1)
    as (r2 & H2 & Hwf2 & Hg2 & Hk2 & Hcl2).
  assert (is_Some (heap r1 !! p)) as Hp1s by (by apply (proj2 Hwf1 "powerbi" (RObj p))).
  assert (is_Some (heap r1 !! vis)) as Hvs by (exact (path_at_is_Some _ _ _ _ (proj1 Hwf1) Hp1s Hvis1)).
  assert (path_ok (heap r2) p plugin_path = true) as Hok2
    by (apply (path_ok_keeps _ plugin_path (heap r1) _ _ (proj1 Hwf1) Hk2); [keys_disjoint|done|done]).
  assert (forall b, path_at (heap r2) p plugin_path = Some b -> b <> vis) as Hal2.
  { intros b Hb. apply Hal1. rewrite <- Hb. symmetry.
    apply (path_at_keeps _ plugin_path (heap r1) _ _ (proj1 Hwf1) Hk2); [keys_disjoint|done]. }
  destruct (plugin_module_spec r2 p vis Hwf2 ltac:(by rewrite Hg2) Hok2 Hal2
     (keeps_is_Some _ _ _ _ Hk2 Hvs))
    as (d & r3 & H3 & Hwf3 & Hg3 & Hk3 & Hsl3 & Hpd3 & Hcr3 & Hfd).
  assert (is_Some (heap r2 !! n)) as Hn2 by exact (keeps_is_Some _ _ _ _ Hk2 Hn1).
  assert (path_at (heap r3) p ns_path = Some n) as Hns3.
  { change ns_path with (["extensibility"; "visual"] ++ [GUID]). rewrite path_at_app.
    rewrite (path_at_keeps _ ["extensibility"; "visual"] (heap r2) _ _ (proj1 Hwf2) Hk3);
      [|keys_disjoint|exact (keeps_is_Some _ _ _ _ Hk2 Hp1s)].
    rewrite (path_at_keeps _ ["extensibility"; "visual"] (heap r1) _ _ (proj1 Hwf1) Hk2);
      [|keys_disjoint|done].
    rewrite Hvis1. simpl. apply path_at_one. rewrite Hsl3.
    by rewrite (keeps_slot _ _ _ vis GUID Hk2 Hvs) by decide_closed. }
  assert (globals r3 !! "powerbi" = Some (RObj p)) as Hp3 by (by rewrite Hg3, Hg2).
  exists r3. split_and!; [| done | | | |].
  - unfold load_bundle. rewrite H1. cbn [mbind completion_bind]. by rewrite H2.
  - exists p, n, d. split_and!; try done.
    + apply (exports_installed_keeps _ _ _ _ (proj1 Hwf2) Hk3 Hn2); [decide_closed|].
      apply (exports_installed_keeps _ _ _ _ (proj1 Hwf1) Hk2 Hn1); [decide_closed|done].
    + apply (class_installed_keeps _ _ _ _ (proj1 Hwf2) Hk3 Hn2); [decide_closed|done].
  - apply (installed_ready r3 p n d Hp3 Hns3 Hpd3). intros ->. destruct Hn2; congruence.
  - eapply keeps_weaken; [|exact (keeps_trans _ _ _ _ _ Hk1 (keeps_trans _ _ _ _ _ Hk2 Hk3))].
    decide_closed.
  - intros y Hy. by rewrite Hg3, Hg2, Ho1.
Qed.
End Load.

(** ** What loading visual.js gives the host *)

Section Claims.
Context {N : Type} `{JsNumberLaws N}.

(** C4: on any well-formed page whose [powerbi] objects leave room for
    the bundle, loading visual.js succeeds and leaves a well-formed
    realm in which the namespace holds the eight helpers and the class
    with its three methods and the plugin table holds the descriptor;
    every other property of the page's objects, in particular every
    other registered plugin, and every other global, is kept. *)
Theorem bundle_load_spec (r : realm (closure N) N) :
  realm_wf r -> bundle_ready r = true ->
  exists r', load_bundle r = Normal r' /\ realm_wf r' /\ bundle_installed r' /\
    keeps bundle_keys (heap r) (heap r') /\
    (forall y, y <> "powerbi" -> globals r' !! y = globals r !! y).
Proof.
  intros Hwf Hr. destruct (load_bundle_installs r Hwf Hr) as (r' & ? & ? & ? & _ & ? & ?).
  by exists r'.
Qed.

(** C18: loading is repeatable: a page visual.js has been loaded into is
    ready for it again (the namespace and the plugin table are objects,
    and distinct), so loading the file a second time, as a reload of the
    visual does, succeeds and installs the bundle again. *)
Theorem bundle_reload (r r1 : realm (closure N) N) :
  realm_wf r -> bundle_ready r = true -> load_bundle r = Normal r1 ->
  bundle_ready r1 = true /\ exists r2, load_bundle r1 = Normal r2 /\ bundle_installed r2.
Proof.
  intros Hwf Hr Hl. destruct (load_bundle_installs r Hwf Hr) as (r1' & Hl' & Hwf1 & _ & Hr1 & _).
  rewrite Hl in Hl'. injection Hl' as <-. split; [done|].
  destruct (load_bundle_installs r1 Hwf1 Hr1) as (r2 & ? & _ & ? & _). eauto.
Qed.

(** C3: the compiled bundle refines the model of visual.ts: after
    loading visual.js into such a page, the descriptor the host finds
    under the visual's name creates the adapter [constructor] creates,
    and any run of updates, resizes and enumerations through the
    instance's prototype computes what [run_trace] computes on the
    model. *)
Theorem bundle_refines (r : realm (closure N) N) :
  realm_wf r -> bundle_ready r = true ->
  exists r' d proto, load_bundle r = Normal r' /\ registered_plugin r' = Normal d /\
    forall options doc tr,
      host_create (heap r') d options doc = Some (Normal (proto, constructor options doc)) /\
      bundle_run (heap r') proto tr (constructor options doc)
        = Some (run_trace tr (constructor options doc)).
Proof.
  intros Hwf Hr. destruct (load_bundle_installs r Hwf Hr) as (r' & Hl & _ & Hi & _).
  destruct (installed_dispatch r' Hi) as (d & proto & Hd & Hc & Hu & Ho & He).
  exists r', d, proto. split_and!; [done|done|]. intros options doc tr.
  split; [done|]. by apply bundle_run_eq.
Qed.
End Claims.

(** ** A page with another visual registered *)

Definition sample_page : realm (closure znum) znum := {|
  heap := {[ 1%positive := {| props := {[ "visuals" := RObj 2%positive ]}; code := None |};
             2%positive := {| props := {[ "plugins" := RObj 3%positive ]}; code := None |};
             3%positive := {| props := {[ "otherVisual" := RObj 4%positive ]}; code := None |};
             4%positive := {| props := {[ "name" := RStr "otherVisual" ]}; code := None |} ]};
  globals := {[ "powerbi" := RObj 1%positive ]}
|}.

(** The other visual stays registered. *)
Example sample_page_other_plugin :
  match load_bundle sample_page with
  | Normal r' => slot (heap r') 3%positive "otherVisual" = Some (RObj 4%positive)
  | Throw _ => False
  end.
Proof. vm_compute. reflexivity. Qed.

Lemma bundle_load_spec_witness :
  realm_wf sample_page /\ bundle_ready sample_page = true /\
  exists r', load_bundle sample_page = Normal r' /\ realm_wf r' /\ bundle_installed r' /\
    keeps bundle_keys (heap sample_page) (heap r') /\
    (forall y, y <> "powerbi" -> globals r' !! y = globals sample_page !! y).
Proof.
  assert (realm_wf sample_page) as Hw by decide_closed.
  assert (bundle_ready sample_page = true) as Hr by (vm_compute; reflexivity).
  split; [exact Hw|]. split; [exact Hr|]. exact (bundle_load_spec sample_page Hw Hr).
Defined.

Definition sample_loaded : realm (closure znum) znum :=
  match load_bundle sample_page with Normal r' => r' | Throw _ => sample_page end.

Lemma bundle_reload_witness :
  realm_wf sample_page /\ bundle_ready sample_page = true /\
  load_bundle sample_page = Normal sample_loaded /\ bundle_ready sample_loaded = true /\
  exists r2, load_bundle sample_loaded = Normal r2 /\ bundle_installed r2.
Proof.
  assert (realm_wf sample_page) as Hw by decide_closed.
  assert (bundle_ready sample_page = true) as Hr by (vm_compute; reflexivity).
  assert (load_bundle sample_page = Normal sample_loaded) as Hl by (vm_compute; reflexivity).
  split_and!; [exact Hw|exact Hr|exact Hl|..];
    [exact (proj1 (bundle_reload sample_page sample_loaded Hw Hr Hl))
    |exact (proj2 (bundle_reload sample_page sample_loaded Hw Hr Hl))].
Defined.

Lemma bundle_refines_witness :
  realm_wf sample_page /\ bundle_ready sample_page = true /\
  exists r' d proto, load_bundle sample_page = Normal r' /\ registered_plugin r' = Normal d /\
    forall options doc tr,
      host_create (heap r') d options doc = Some (Normal (proto, constructor options doc)) /\
      bundle_run (heap r') proto tr (constructor options doc)
        = Some (run_trace tr (constructor options doc)).
Proof.
  assert (realm_wf sample_page) as Hw by decide_closed.
  assert (bundle_ready sample_page = true) as Hr by (vm_compute; reflexivity).
  split; [exact Hw|]. split; [exact Hr|]. exact (bundle_refines sample_page Hw Hr).
Defined.

(** ** A page the bundle cannot be loaded into

    When the host's plugin table is the object [powerbi.extensibility.visual]
    itself, the third script's [plugins.PBI_CV_... = {...}] overwrites the
    namespace, and the descriptor's [create] then reads [Visual] from the
    descriptor: a TypeError.  [bundle_ready] excludes such pages. *)
Definition aliased_page : realm (closure znum) znum := {|
  heap := {[ 1%positive := {| props := {[ "extensibility" := RObj 2%positive;
                                          "visuals" := RObj 3%positive ]}; code := None |};
             2%positive := {| props := {[ "visual" := RObj 4%positive ]}; code := None |};
             3%positive := {| props := {[ "plugins" := RObj 4%positive ]}; code := None |};
             4%positive := {| props := ∅; code := None |} ]};
  globals := {[ "powerbi" := RObj 1%positive ]}
|}.

Example aliased_page_create_throws :
  bundle_ready aliased_page = false /\
  match load_bundle aliased_page with
  | Normal r' =>
      match registered_plugin r' with
      | Normal d => host_create (heap r') d {| element := 1%positive |} sample_doc = Some (Throw TypeError)
      | Throw _ => False
      end
  | Throw _ => False
  end.
Proof. split; vm_compute; reflexivity. Qed.
